(** * Webhook ingestion, revalidation and deployment tracking

    A shallow embedding of the webhook pipeline of the site generator:

    - [src/app/api/webhooks/build/route.ts]: signature check, dispatch and
      the HTTP handler;
    - [lib/revalidation.ts]: the [RevalidationManager];
    - [src/lib/webhook-config.ts]: the [WebhookManager] (deploy hooks and
      the debounced deployment queue);
    - [lib/deployment-monitor.ts]: the [DeploymentMonitor].

    JavaScript values are modelled as the code uses them: strings as
    [string] (a body is represented by its UTF-8 bytes), buffers as lists of
    bytes in [Z], numbers as integers with [NaN], optional fields as
    [option], exceptions by an explicit outcome type, [Map] as an
    insertion-ordered association list, timers and pending promises by an
    explicit event-loop state. *)

From Stdlib Require Import ZArith List String Ascii Bool Lia Arith DecimalString.
From Stdlib Require Import Permutation Sorted.
Import ListNotations.
Local Open Scope string_scope.
Local Open Scope list_scope.
Local Open Scope Z_scope.

(** ** JavaScript runtime: exceptions and truthiness *)

Module JS.

(** What a [throw] carries: an [Error] instance (with its class name and
    message) or any other value. *)
Inductive thrown : Type :=
| ErrorObj (name message : string)
| NonError (description : string).

(** Result of evaluating an expression or awaiting a promise. *)
Inductive outcome (A : Type) : Type :=
| Return (a : A)
| Throw (e : thrown).
Arguments Return {A} a.
Arguments Throw {A} e.

Definition bind {A B} (m : outcome A) (k : A -> outcome B) : outcome B :=
  match m with
  | Return a => k a
  | Throw e => Throw e
  end.

(** [try { m } catch (error) { h error }] *)
Definition try_catch {A} (m : outcome A) (h : thrown -> outcome A) : outcome A :=
  match m with
  | Return a => Return a
  | Throw e => h e
  end.

(** [error instanceof Error ? error.message : 'Unknown error'] *)
Definition error_message (e : thrown) : string :=
  match e with
  | ErrorObj _ message => message
  | NonError _ => "Unknown error"
  end.

(** Truthiness of a string: the empty string is falsy. *)
Definition truthy_string (s : string) : bool :=
  match s with
  | EmptyString => false
  | String _ _ => true
  end.

(** Truthiness of an optional string ([undefined] is falsy). *)
Definition truthy_opt_string (o : option string) : bool :=
  match o with
  | Some s => truthy_string s
  | None => false
  end.

(** [a || b] on optional strings. *)
Definition or_string (a b : option string) : option string :=
  if truthy_opt_string a then a else b.

(** Numbers: the integers the code handles (milliseconds) and [NaN]. *)
Inductive number : Type :=
| Num (z : Z)
| NaN.

Definition truthy_number (n : number) : bool :=
  match n with
  | Num z => negb (z =? 0)
  | NaN => false
  end.

Definition truthy_opt_number (o : option number) : bool :=
  match o with
  | Some n => truthy_number n
  | None => false
  end.

Definition or_number (a b : option number) : option number :=
  if truthy_opt_number a then a else b.

(** [a - b] *)
Definition sub_number (a b : number) : number :=
  match a, b with
  | Num x, Num y => Num (x - y)
  | _, _ => NaN
  end.

(** [String.prototype.replace(pattern, replacement)] with a string
    pattern: only the first occurrence is replaced. *)
Fixpoint drop (n : nat) (s : string) : string :=
  match n, s with
  | O, _ => s
  | S n', String _ s' => drop n' s'
  | S _, EmptyString => EmptyString
  end.

Fixpoint starts_with (pattern s : string) : bool :=
  match pattern, s with
  | EmptyString, _ => true
  | String a pattern', String b s' => Ascii.eqb a b && starts_with pattern' s'
  | String _ _, EmptyString => false
  end.

Fixpoint replace (pattern replacement s : string) : string :=
  if starts_with pattern s
  then String.append replacement (drop (String.length pattern) s)
  else match s with
       | EmptyString => EmptyString
       | String c s' => String c (replace pattern replacement s')
       end.

End JS.

(** ** Node [crypto] and [Buffer] *)

Module Crypto.

Definition byte := Z.

Definition bytes_of_string (s : string) : list byte :=
  map (fun c => Z.of_N (N_of_ascii c)) (list_ascii_of_string s).

(** *** SHA-256 (FIPS 180-4) on 32-bit words *)

Definition w32 (x : Z) : Z := x mod 2 ^ 32.
Definition add32 (x y : Z) : Z := w32 (x + y).
Definition rotr (n x : Z) : Z :=
  w32 (Z.lor (Z.shiftr x n) (Z.shiftl x (32 - n))).
Definition ch (x y z : Z) : Z :=
  Z.lxor (Z.land x y) (Z.land (w32 (Z.lnot x)) z).
Definition maj (x y z : Z) : Z :=
  Z.lxor (Z.lxor (Z.land x y) (Z.land x z)) (Z.land y z).
Definition bsig0 (x : Z) : Z := Z.lxor (Z.lxor (rotr 2 x) (rotr 13 x)) (rotr 22 x).
Definition bsig1 (x : Z) : Z := Z.lxor (Z.lxor (rotr 6 x) (rotr 11 x)) (rotr 25 x).
Definition ssig0 (x : Z) : Z := Z.lxor (Z.lxor (rotr 7 x) (rotr 18 x)) (Z.shiftr x 3).
Definition ssig1 (x : Z) : Z := Z.lxor (Z.lxor (rotr 17 x) (rotr 19 x)) (Z.shiftr x 10).

(** The round constants and the initial hash value are, by their
    definition in the standard, the first 32 bits of the fractional parts
    of the cube roots (square roots) of the first 64 (8) primes. *)
Definition is_prime (n : nat) : bool :=
  forallb (fun d => negb (Nat.eqb (n mod d) 0)) (seq 2 (n - 2)).

Definition primes (count : nat) : list Z :=
  map Z.of_nat (firstn count (filter is_prime (seq 2 310))).

(** Integer cube root, one bit at a time from bit [bits - 1] down. *)
Fixpoint cube_root (bits : nat) (n root : Z) : Z :=
  match bits with
  | O => root
  | S b =>
      let candidate := root + 2 ^ Z.of_nat b in
      cube_root b n (if candidate * candidate * candidate <=? n then candidate else root)
  end.

Definition K256 : list Z :=
  Eval vm_compute in map (fun p => w32 (cube_root 36 (p * 2 ^ 96) 0)) (primes 64).

Record hash_state : Type := mkHash
  { ha : Z; hb : Z; hc : Z; hd : Z; he : Z; hf : Z; hg : Z; hh : Z }.

Definition H256 : hash_state :=
  Eval vm_compute in
    match map (fun p => w32 (Z.sqrt (p * 2 ^ 64))) (primes 8) with
    | [a; b; c; d; e; f; g; h] => mkHash a b c d e f g h
    | _ => mkHash 0 0 0 0 0 0 0 0
    end.

(** Big-endian bytes of a number, [n] bytes wide. *)
Fixpoint be_bytes (n : nat) (x : Z) : list byte :=
  match n with
  | O => []
  | S n' => Z.shiftr x (8 * Z.of_nat n') mod 256 :: be_bytes n' x
  end.

Definition be_word (bs : list byte) : Z :=
  fold_left (fun acc b => acc * 256 + b) bs 0.

(** Padding: a [0x80] byte, zeros up to 56 mod 64, the bit length on 8 bytes. *)
Definition pad (msg : list byte) : list byte :=
  let len := Z.of_nat (List.length msg) in
  let zeros := Z.to_nat ((55 - len) mod 64) in
  msg ++ [0x80] ++ repeat 0 zeros ++ be_bytes 8 (8 * len).

(** Split into chunks of [n] elements ([fuel] bounds the number of chunks). *)
Fixpoint chunks {A} (fuel n : nat) (l : list A) : list (list A) :=
  match fuel, l with
  | O, _ => []
  | _, [] => []
  | S fuel', _ => firstn n l :: chunks fuel' n (skipn n l)
  end.

(** Message schedule: extend the 16 words of the block to 64. *)
Fixpoint schedule (count : nat) (w : list Z) : list Z :=
  match count with
  | O => w
  | S count' =>
      let t := List.length w in
      let at_ (k : nat) := nth (t - k) w 0 in
      schedule count'
        (w ++ [add32 (add32 (ssig1 (at_ 2%nat)) (at_ 7%nat))
                     (add32 (ssig0 (at_ 15%nat)) (at_ 16%nat))])
  end.

Definition round (s : hash_state) (kw : Z * Z) : hash_state :=
  let t1 := add32 (add32 (add32 (hh s) (bsig1 (he s))) (ch (he s) (hf s) (hg s)))
                  (add32 (fst kw) (snd kw)) in
  let t2 := add32 (bsig0 (ha s)) (maj (ha s) (hb s) (hc s)) in
  mkHash (add32 t1 t2) (ha s) (hb s) (hc s) (add32 (hd s) t1) (he s) (hf s) (hg s).

Definition compress (s : hash_state) (block : list byte) : hash_state :=
  let w := schedule 48 (map be_word (chunks 16 4 block)) in
  let r := fold_left round (combine K256 w) s in
  mkHash (add32 (ha s) (ha r)) (add32 (hb s) (hb r)) (add32 (hc s) (hc r))
         (add32 (hd s) (hd r)) (add32 (he s) (he r)) (add32 (hf s) (hf r))
         (add32 (hg s) (hg r)) (add32 (hh s) (hh r)).

Definition digest_bytes (s : hash_state) : list byte :=
  be_bytes 4 (ha s) ++ be_bytes 4 (hb s) ++ be_bytes 4 (hc s) ++ be_bytes 4 (hd s)
  ++ be_bytes 4 (he s) ++ be_bytes 4 (hf s) ++ be_bytes 4 (hg s) ++ be_bytes 4 (hh s).

Definition sha256 (msg : list byte) : list byte :=
  let p := pad msg in
  digest_bytes (fold_left compress (chunks (List.length p) 64 p) H256).

(** *** HMAC (RFC 2104) with SHA-256: [createHmac('sha256', key)] *)

Definition block_size : nat := 64.

Definition hmac_key (key : list byte) : list byte :=
  let k := if (block_size <? List.length key)%nat then sha256 key else key in
  k ++ repeat 0 (block_size - List.length k).

Definition hmac_sha256 (key msg : list byte) : list byte :=
  let k := hmac_key key in
  sha256 (map (Z.lxor 0x5c) k ++ sha256 (map (Z.lxor 0x36) k ++ msg)).

(** *** Hexadecimal: [digest('hex')] and [Buffer.from(s, 'hex')] *)

Definition hex_digit (n : Z) : ascii :=
  ascii_of_N (Z.to_N (if n <? 10 then 48 + n else 87 + n)).

Fixpoint hex_encode (bs : list byte) : string :=
  match bs with
  | [] => EmptyString
  | b :: bs' => String (hex_digit (b / 16)) (String (hex_digit (b mod 16)) (hex_encode bs'))
  end.

(** Value of a hexadecimal digit, upper or lower case. *)
Definition unhex (c : ascii) : option Z :=
  let n := Z.of_N (N_of_ascii c) in
  if (48 <=? n) && (n <=? 57) then Some (n - 48)
  else if (97 <=? n) && (n <=? 102) then Some (n - 87)
  else if (65 <=? n) && (n <=? 70) then Some (n - 55)
  else None.

(** [Buffer.from(s, 'hex')]: pairs of digits are decoded from the left; the
    result stops at the first pair that is not hexadecimal, and a trailing
    single character is dropped. *)
Fixpoint Buffer_from_hex (s : string) : list byte :=
  match s with
  | String c1 (String c2 rest) =>
      match unhex c1, unhex c2 with
      | Some a, Some b => (16 * a + b) :: Buffer_from_hex rest
      | _, _ => []
      end
  | _ => []
  end.

Fixpoint bytes_eqb (a b : list byte) : bool :=
  match a, b with
  | [], [] => true
  | x :: a', y :: b' => (x =? y) && bytes_eqb a' b'
  | _, _ => false
  end.

(** [crypto.timingSafeEqual(a, b)]: throws a [RangeError] when the two
    buffers differ in byte length. *)
Definition timingSafeEqual (a b : list byte) : JS.outcome bool :=
  if (List.length a =? List.length b)%nat
  then JS.Return (bytes_eqb a b)
  else JS.Throw (JS.ErrorObj "RangeError" "Input buffers must have the same byte length").

End Crypto.

(** ** [lib/revalidation.ts]: the revalidation manager *)

Module Revalidation.
Import JS.

Record RevalidationResult : Type := mkResult
  { success : bool;
    revalidatedPaths : list string;
    revalidatedTags : list string;
    error : option string;
    processingTime : Z }.

(** The private fields of a [RevalidationManager] instance. *)
Record RevalidationManager : Type := mkManager
  { startTime : Z;
    paths : list string;
    tags : list string }.

(** A method body: it may throw, and leaves the instance as it was
    mutated up to that point. *)
Definition method (A : Type) : Type :=
  RevalidationManager -> outcome A * RevalidationManager.

Definition ret {A} (a : A) : method A := fun m => (Return a, m).

Definition seq_ {A B} (f : method A) (g : method B) : method B :=
  fun m =>
    match f m with
    | (Return _, m') => g m'
    | (Throw e, m') => (Throw e, m')
    end.

Notation "f ;; g" := (seq_ f g) (at level 61, right associativity).

Section Cache.

(** [revalidatePath] and [revalidateTag] of [next/cache]: [None] when the
    call returns, [Some e] when it throws [e]. *)
Variable next_revalidatePath : string -> option thrown.
Variable next_revalidateTag : string -> option thrown.

(** [constructor()] at clock reading [now]. *)
Definition createRevalidationManager (now : Z) : RevalidationManager :=
  mkManager now [] [].

Definition revalidatePath (path : string) : method unit :=
  fun m =>
    match next_revalidatePath path with
    | None => (Return tt, mkManager (startTime m) (paths m ++ [path]) (tags m))
    | Some e => (Throw e, m)
    end.

Definition revalidateTag (tag : string) : method unit :=
  fun m =>
    match next_revalidateTag tag with
    | None => (Return tt, mkManager (startTime m) (paths m) (tags m ++ [tag]))
    | Some e => (Throw e, m)
    end.

(** [if (cond) { body }] *)
Definition when (cond : bool) (body : method unit) : method unit :=
  if cond then body else ret tt.

(** The [action] argument only selects a log line. *)
Definition revalidateBlogPost (slug action : option string) : method unit :=
  revalidatePath "/blog" ;;
  when (truthy_opt_string slug)
       (revalidatePath (String.append "/blog/" (match slug with Some s => s | None => "" end))) ;;
  revalidatePath "/sitemap.xml" ;;
  revalidatePath "/rss.xml" ;;
  revalidateTag "blog-posts".

Definition revalidatePage (slug action : option string) : method unit :=
  match slug with
  | Some s =>
      if truthy_string s && negb (String.eqb s "home")
      then revalidatePath (String.append "/" s)
      else if String.eqb s "home" then revalidatePath "/" else ret tt
  | None => ret tt
  end ;;
  revalidatePath "/sitemap.xml" ;;
  revalidateTag "pages".

Definition revalidateGlobalSettings : method unit :=
  revalidatePath "/" ;;
  revalidatePath "/blog" ;;
  revalidateTag "site-settings" ;;
  revalidateTag "layout" ;;
  revalidateTag "navigation".

Definition revalidateMedia (mediaId : option string) : method unit :=
  revalidateTag "media" ;;
  revalidateTag "images".

Definition getResult (now : Z) (m : RevalidationManager) : RevalidationResult :=
  mkResult true (paths m) (tags m) None (now - startTime m).

Definition getErrorResult (err : string) (now : Z) (m : RevalidationManager)
  : RevalidationResult :=
  mkResult false (paths m) (tags m) (Some err) (now - startTime m).

End Cache.
End Revalidation.

(** ** [src/app/api/webhooks/build/route.ts] *)

Module Route.
Import JS Crypto Revalidation.

(** [process.env.WEBHOOK_SECRET || 'your-webhook-secret'] *)
Definition WEBHOOK_SECRET (env_WEBHOOK_SECRET : option string) : string :=
  match or_string env_WEBHOOK_SECRET (Some "your-webhook-secret") with
  | Some s => s
  | None => "your-webhook-secret"
  end.

(** The payload as [JSON.parse] delivers it: every field may be missing. *)
Record PayloadData : Type := mkData
  { type : option string;
    id : option string;
    slug : option string;
    domain : option string;
    status : option string;
    action : option string }.

Record WebhookPayload : Type := mkPayload
  { event : option string;
    data : option PayloadData;
    timestamp : option string }.

Definition verifySignature (secret payload signature : string) : outcome bool :=
  if negb (truthy_string signature) then Return false
  else
    let expectedSignature :=
      hex_encode (hmac_sha256 (bytes_of_string secret) (bytes_of_string payload)) in
    let receivedSignature := replace "sha256=" "" signature in
    timingSafeEqual (Buffer_from_hex expectedSignature)
                    (Buffer_from_hex receivedSignature).

Section Handler.

Variable next_revalidatePath : string -> option thrown.
Variable next_revalidateTag : string -> option thrown.

(** [case '...':] of the [switch (data.type)], a strict equality. *)
Definition is_type (o : option string) (label : string) : bool :=
  match o with
  | Some s => String.eqb s label
  | None => false
  end.

(** [`${data.type}`] *)
Definition template (o : option string) : string :=
  match o with
  | Some s => s
  | None => "undefined"
  end.

(** [t_new] is the clock reading at the manager's construction, [t_get]
    the reading when the result is built. *)
Definition handleRevalidation (t_new t_get : Z) (payload : WebhookPayload)
  : RevalidationResult :=
  let manager := createRevalidationManager t_new in
  match data payload with
  | None =>
      (* [data.type] on [undefined] throws inside the [try] *)
      getErrorResult "Cannot read properties of undefined (reading 'type')" t_get manager
  | Some data =>
      let run (body : method unit) :=
        match body manager with
        | (Return _, manager') => getResult t_get manager'
        | (Throw e, manager') => getErrorResult (error_message e) t_get manager'
        end in
      if is_type (type data) "post" then
        run (revalidateBlogPost next_revalidatePath next_revalidateTag (slug data) (action data))
      else if is_type (type data) "page" then
        run (revalidatePage next_revalidatePath next_revalidateTag (slug data) (action data))
      else if is_type (type data) "settings" then
        run (revalidateGlobalSettings next_revalidatePath next_revalidateTag)
      else if is_type (type data) "media" then
        run (revalidateMedia next_revalidateTag (id data))
      else
        getErrorResult (String.append "Unknown content type: " (template (type data)))
                       t_get manager
  end.

(** [JSON.parse(body)]: the parsed payload, or the [SyntaxError] thrown. *)
Variable JSON_parse : string -> outcome WebhookPayload.

Record Request : Type := mkRequest
  { body : string;
    x_signature_256 : option string;
    x_hub_signature_256 : option string }.

Inductive ResponseJson : Type :=
| InvalidSignature
| InvalidJsonPayload
| InvalidPayloadStructure
| RevalidationFailed (details : option string) (processingTime : Z)
| Revalidated (event : option string) (paths tags : list string) (processingTime : Z)
| InternalServerError (processingTime : Z).

Record Response : Type := mkResponse
  { response_json : ResponseJson;
    response_status : Z }.

(** [!payload.event || !payload.data || !payload.data.type] *)
Definition invalid_structure (payload : WebhookPayload) : bool :=
  negb (truthy_opt_string (event payload))
  || match data payload with
     | None => true
     | Some d => negb (truthy_opt_string (type d))
     end.

(** [request.headers.get('x-signature-256') ||
    request.headers.get('x-hub-signature-256') || ''] *)
Definition signature_header (request : Request) : string :=
  match or_string (or_string (x_signature_256 request) (x_hub_signature_256 request))
                  (Some "") with
  | Some s => s
  | None => ""
  end.

(** The [POST] handler. [clock k] is the [k]-th reading of [Date.now()]
    made while the request is served. *)
Definition POST (secret : string) (clock : nat -> Z) (request : Request)
  : outcome Response :=
  let startTime := clock 0%nat in
  try_catch
    (let signature := signature_header request in
     bind (verifySignature secret (body request) signature) (fun valid =>
     if negb valid then Return (mkResponse InvalidSignature 401)
     else
       match JSON_parse (body request) with
       | Throw _ => Return (mkResponse InvalidJsonPayload 400)
       | Return payload =>
           if invalid_structure payload
           then Return (mkResponse InvalidPayloadStructure 400)
           else
             let revalidationResult :=
               handleRevalidation (clock 1%nat) (clock 2%nat) payload in
             if negb (success revalidationResult)
             then Return (mkResponse
                            (RevalidationFailed (error revalidationResult)
                                                (processingTime revalidationResult))
                            500)
             else Return (mkResponse
                            (Revalidated (event payload)
                                         (revalidatedPaths revalidationResult)
                                         (revalidatedTags revalidationResult)
                                         (processingTime revalidationResult))
                            200)
       end))
    (fun _ => Return (mkResponse (InternalServerError (clock 1%nat - startTime)) 500)).

End Handler.
End Route.

(** ** JavaScript [Map]: an insertion-ordered table with unique keys *)

Module JSMap.
Section Map.

Context {K V : Type}.
Variable eqb : K -> K -> bool.

Definition t : Type := list (K * V).

Fixpoint get (k : K) (m : t) : option V :=
  match m with
  | [] => None
  | (k', v) :: m' => if eqb k k' then Some v else get k m'
  end.

(** [set] keeps the position of a key that is present and appends a new one. *)
Fixpoint set (k : K) (v : V) (m : t) : t :=
  match m with
  | [] => [(k, v)]
  | (k', v') :: m' => if eqb k k' then (k, v) :: m' else (k', v') :: set k v m'
  end.

Fixpoint delete (k : K) (m : t) : t :=
  match m with
  | [] => []
  | (k', v') :: m' => if eqb k k' then m' else (k', v') :: delete k m'
  end.

Definition keys (m : t) : list K := map fst m.
Definition values (m : t) : list V := map snd m.
Definition size (m : t) : nat := List.length m.

End Map.
End JSMap.

(** ** [src/lib/webhook-config.ts]: deploy hooks and the deployment queue *)

Module WebhookConfig.
Import JS.

Inductive Environment : Type := Staging | Production.

Definition Environment_eqb (a b : Environment) : bool :=
  match a, b with
  | Staging, Staging | Production, Production => true
  | _, _ => false
  end.

(** [`${environment}`] *)
Definition Environment_string (e : Environment) : string :=
  match e with
  | Staging => "staging"
  | Production => "production"
  end.

Record DeployHookConfig : Type := mkHook
  { url : string;
    name : string;
    branch : string;
    environment : Environment }.

Record DeployHooks : Type := mkHooks
  { staging : DeployHookConfig;
    production : DeployHookConfig }.

Record WebhookConfig : Type := mkConfig
  { endpoint : string;
    secret : string;
    deployHooks : DeployHooks }.

Definition env_or (v : option string) (default : string) : string :=
  match or_string v (Some default) with
  | Some s => s
  | None => default
  end.

Definition WEBHOOK_CONFIG
    (NEXT_PUBLIC_WEBHOOK_URL WEBHOOK_SECRET
     VERCEL_STAGING_DEPLOY_HOOK VERCEL_PRODUCTION_DEPLOY_HOOK : option string)
  : WebhookConfig :=
  mkConfig
    (env_or NEXT_PUBLIC_WEBHOOK_URL "https://staging.howtomecm.com/api/webhooks/build")
    (env_or WEBHOOK_SECRET "your-webhook-secret")
    (mkHooks
       (mkHook (env_or VERCEL_STAGING_DEPLOY_HOOK "") "staging-auto-deploy" "main" Staging)
       (mkHook (env_or VERCEL_PRODUCTION_DEPLOY_HOOK "") "production-auto-deploy" "main"
               Production)).

(** *** Values delivered by [response.json()] *)

#[local] Set Warnings "-register-all".

Inductive json : Type :=
| JNull
| JBool (b : bool)
| JNum (z : Z)
| JStr (s : string)
| JArr (items : list json)
| JObj (fields : list (string * json)).

Definition truthy_json (j : json) : bool :=
  match j with
  | JNull => false
  | JBool b => b
  | JNum z => negb (z =? 0)
  | JStr s => truthy_string s
  | JArr _ | JObj _ => true
  end.

Definition truthy_opt_json (o : option json) : bool :=
  match o with
  | Some j => truthy_json j
  | None => false
  end.

(** [value.key] for one of the keys read here: a [TypeError] on [null],
    [undefined] on the other values that are not objects. *)
Definition property (value : json) (key : string) : outcome (option json) :=
  match value with
  | JNull =>
      Throw (ErrorObj "TypeError"
               (String.append "Cannot read properties of null (reading '"
                              (String.append key "')")))
  | JObj fields => Return (JSMap.get String.eqb key fields)
  | _ => Return None
  end.

(** *** [fetch] *)

(** The object given to [JSON.stringify] for the request body. *)
Record DeployBody : Type := mkBody
  { body_reason : string;
    body_timestamp : Z;
    body_environment : Environment }.

Record FetchRequest : Type := mkFetch
  { fetch_url : string;
    fetch_method : string;
    fetch_content_type : string;
    fetch_body : DeployBody }.

Record FetchResponse : Type := mkFetchResponse
  { response_status : Z;
    response_statusText : string;
    response_json : outcome json }.

(** [response.ok] *)
Definition ok (r : FetchResponse) : bool :=
  (200 <=? response_status r) && (response_status r <=? 299).

Definition decimal (z : Z) : string := NilZero.string_of_int (Z.to_int z).

Record DeployResult : Type := mkDeploy
  { success : bool;
    deploymentId : option json;
    error : option string }.

Section Manager.

Variable config : WebhookConfig.

(** The network: what [await fetch(...)] gives for a request, a response
    or a rejection. *)
Variable fetch : FetchRequest -> outcome FetchResponse.

Definition getDeployHook (environment : Environment) : DeployHookConfig :=
  match environment with
  | Staging => staging (deployHooks config)
  | Production => production (deployHooks config)
  end.

(** [triggerDeploy]: how the returned promise settles, with the requests
    sent meanwhile. [now] is the clock reading of [new Date()]. *)
(** The request [triggerDeploy] sends to the hook. *)
Definition deploy_request (now : Z) (environment : Environment) (reason : option string)
  : FetchRequest :=
  mkFetch (url (getDeployHook environment)) "POST" "application/json"
          (mkBody (match or_string reason (Some "Manual deployment trigger") with
                   | Some r => r
                   | None => "Manual deployment trigger"
                   end)
                  now environment).

Definition triggerDeploy (now : Z) (environment : Environment) (reason : option string)
  : outcome DeployResult * list FetchRequest :=
  let deployHook := getDeployHook environment in
  if negb (truthy_string (url deployHook)) then
    (Return (mkDeploy false None
               (Some (String.append "No deploy hook configured for "
                                    (Environment_string environment)))),
     [])
  else
    let request := deploy_request now environment reason in
    (try_catch
       (bind (fetch request) (fun response =>
        if negb (ok response) then
          Throw (ErrorObj "Error"
                   (String.append "Deploy hook returned "
                      (String.append (decimal (response_status response))
                         (String.append ": " (response_statusText response)))))
        else
          bind (response_json response) (fun result =>
          bind (property result "deploymentId") (fun deploymentId =>
          if truthy_opt_json deploymentId
          then Return (mkDeploy true deploymentId None)
          else bind (property result "id") (fun id =>
               Return (mkDeploy true id None))))))
       (fun error => Return (mkDeploy false None (Some (error_message error)))),
     [request]).

(** *** The event loop seen by [queueDeployment] *)

(** A pending [setTimeout]: its handle, when it expires, and the variables
    its callback closes over. *)
Record Timeout : Type := mkTimeout
  { handle : nat;
    expiry : Z;
    timeout_environment : Environment;
    timeout_reason : string }.

(** A timer callback suspended at [await this.triggerDeploy(...)], with the
    way that promise settles. *)
Record Suspended : Type := mkSuspended
  { suspended_environment : Environment;
    suspended_result : outcome DeployResult }.

Record State : Type := mkState
  { now : Z;
    next_handle : nat;
    timers : list Timeout;
    deploymentQueue : JSMap.t (K := Environment) (V := nat);
    suspended : list Suspended;
    invocations : list (Environment * string);
    requests : list FetchRequest }.

(** [new WebhookManager()] on a loop with no timer, at clock reading [t]. *)
Definition initial (t : Z) : State := mkState t 0 [] [] [] [] [].

(** The delay [setTimeout] really uses: out of [1 .. 2^31-1] it is 1. *)
Definition timer_delay (delayMs : Z) : Z :=
  if (1 <=? delayMs) && (delayMs <=? 2147483647) then delayMs else 1.

(** Timers are kept in firing order: by expiry, then by creation. *)
Fixpoint schedule (t : Timeout) (l : list Timeout) : list Timeout :=
  match l with
  | [] => [t]
  | t' :: l' => if expiry t <? expiry t' then t :: l else t' :: schedule t l'
  end.

Definition clearTimeout (h : nat) (l : list Timeout) : list Timeout :=
  filter (fun t => negb (Nat.eqb (handle t) h)) l.

(** [delayMs] defaults to 5000. *)
Definition queueDeployment (environment : Environment) (reason : string)
    (delayMs : option Z) (s : State) : State :=
  let delay := match delayMs with Some d => d | None => 5000 end in
  let existingTimeout := JSMap.get Environment_eqb environment (deploymentQueue s) in
  let pending :=
    match existingTimeout with
    | Some h => clearTimeout h (timers s)
    | None => timers s
    end in
  let timeout := mkTimeout (next_handle s) (now s + timer_delay delay) environment reason in
  mkState (now s) (S (next_handle s)) (schedule timeout pending)
          (JSMap.set Environment_eqb environment (handle timeout) (deploymentQueue s))
          (suspended s) (invocations s) (requests s).

(** A timer fires: its callback calls [triggerDeploy] and is suspended on
    the promise. *)
Definition fire (s : State) (t : Timeout) : State :=
  let call := triggerDeploy (expiry t) (timeout_environment t) (Some (timeout_reason t)) in
  mkState (now s) (next_handle s) (timers s) (deploymentQueue s)
          (suspended s ++ [mkSuspended (timeout_environment t) (fst call)])
          (invocations s ++ [(timeout_environment t, timeout_reason t)])
          (requests s ++ snd call).

(** The clock advances by [dt]; the timers that are due fire in order. *)
Definition advance (dt : Z) (s : State) : State :=
  let now' := now s + dt in
  fold_left fire (filter (fun t => expiry t <=? now') (timers s))
    (mkState now' (next_handle s)
             (filter (fun t => negb (expiry t <=? now')) (timers s))
             (deploymentQueue s) (suspended s) (invocations s) (requests s)).

(** A suspended callback resumes: if the promise was fulfilled it logs the
    result and deletes the queue entry; a rejection would end the callback
    at the [await]. *)
Definition resume (s : State) (c : Suspended) : State :=
  match suspended_result c with
  | Return _ =>
      mkState (now s) (next_handle s) (timers s)
              (JSMap.delete Environment_eqb (suspended_environment c) (deploymentQueue s))
              (suspended s) (invocations s) (requests s)
  | Throw _ => s
  end.

(** Every suspended callback resumes. *)
Definition settle (s : State) : State :=
  fold_left resume (suspended s)
    (mkState (now s) (next_handle s) (timers s) (deploymentQueue s) []
             (invocations s) (requests s)).

End Manager.
End WebhookConfig.

(** ** [lib/deployment-monitor.ts]: the deployment ledger *)

Module DeploymentMonitor.
Import JS.

Inductive Environment : Type := Staging | Production.

Inductive Status : Type := Pending | Building | Ready | Error | Canceled.

(** A date held as a string: the ISO rendering of an instant (in
    milliseconds), or text that [new Date(...)] does not parse. *)
Inductive date_string : Type :=
| ISO (ms : Z)
| Unparsed (text : string).

Definition truthy_date (d : date_string) : bool :=
  match d with
  | ISO _ => true
  | Unparsed text => truthy_string text
  end.

(** [new Date(d).getTime()] *)
Definition getTime (d : date_string) : number :=
  match d with
  | ISO ms => Num ms
  | Unparsed _ => NaN
  end.

Record DeploymentStatus : Type := mkDeployment
  { id : string;
    environment : Environment;
    status : Status;
    url : option string;
    createdAt : date_string;
    updatedAt : date_string;
    duration : option number;
    error : option string;
    buildLogs : option (list string) }.

(** [Partial<DeploymentStatus> & { id: string }] *)
Record DeploymentUpdate : Type := mkUpdate
  { u_id : string;
    u_environment : option Environment;
    u_status : option Status;
    u_url : option string;
    u_createdAt : option date_string;
    u_updatedAt : option date_string;
    u_duration : option number;
    u_error : option string;
    u_buildLogs : option (list string) }.

(** [a || b] where every value of the type is truthy. *)
Definition or_else {A} (a b : option A) : option A :=
  match a with
  | Some _ => a
  | None => b
  end.

Definition or_date (a b : option date_string) : option date_string :=
  match a with
  | Some d => if truthy_date d then a else b
  | None => b
  end.

(** [existing?.field] *)
Definition opt_field {A} (existing : option DeploymentStatus)
    (field : DeploymentStatus -> option A) : option A :=
  match existing with
  | Some d => field d
  | None => None
  end.

Definition default {A} (o : option A) (d : A) : A :=
  match o with
  | Some a => a
  | None => d
  end.

(** The private [deployments] map; [maxHistory] is the constant 50. *)
Definition Monitor : Type := JSMap.t (K := string) (V := DeploymentStatus).

Definition maxHistory : nat := 50.

(** [new DeploymentMonitor()] *)
Definition empty : Monitor := [].

Definition getDeployment (id : string) (m : Monitor) : option DeploymentStatus :=
  JSMap.get String.eqb id m.

(** The object literal [updated] built by [updateDeployment]. *)
Definition merge (now : Z) (deployment : DeploymentUpdate)
    (existing : option DeploymentStatus) : DeploymentStatus :=
  mkDeployment
    (u_id deployment)
    (default (or_else (u_environment deployment)
                      (opt_field existing (fun d => Some (environment d))))
             Staging)
    (default (or_else (u_status deployment)
                      (opt_field existing (fun d => Some (status d))))
             Pending)
    (or_string (u_url deployment) (opt_field existing url))
    (default (or_date (or_date (u_createdAt deployment)
                               (opt_field existing (fun d => Some (createdAt d))))
                      (Some (ISO now)))
             (ISO now))
    (ISO now)
    (or_number (u_duration deployment) (opt_field existing duration))
    (or_string (u_error deployment) (opt_field existing error))
    (or_else (or_else (u_buildLogs deployment) (opt_field existing buildLogs))
             (Some [])).

(** [updateDeployment(deployment)] at clock reading [now]. *)
Definition updateDeployment (now : Z) (deployment : DeploymentUpdate) (m : Monitor)
  : Monitor :=
  let existing := JSMap.get String.eqb (u_id deployment) m in
  let updated := merge now deployment existing in
  let deployments := JSMap.set String.eqb (u_id deployment) updated m in
  if (maxHistory <? JSMap.size deployments)%nat then
    match JSMap.keys deployments with
    | oldestKey :: _ => JSMap.delete String.eqb oldestKey deployments
    | [] => deployments
    end
  else deployments.

Definition startDeployment (now : Z) (id : string) (environment : Environment)
    (m : Monitor) : Monitor :=
  updateDeployment now
    (mkUpdate id (Some environment) (Some Pending) None None None None None None) m.

Definition markBuilding (now : Z) (id : string) (buildLogs : option (list string))
    (m : Monitor) : Monitor :=
  updateDeployment now
    (mkUpdate id None (Some Building) None None None None None buildLogs) m.

(** [deployment?.createdAt ? Date.now() - new Date(deployment.createdAt).getTime()
    : undefined] *)
Definition elapsed (now : Z) (deployment : option DeploymentStatus) : option number :=
  match deployment with
  | Some d =>
      if truthy_date (createdAt d)
      then Some (sub_number (Num now) (getTime (createdAt d)))
      else None
  | None => None
  end.

(** [markReady(id, url, buildTime)]: [now] is the reading of [Date.now()]
    in the method, [now'] the later one in [updateDeployment]. *)
Definition markReady (now now' : Z) (id : string) (url : option string)
    (buildTime : option number) (m : Monitor) : Monitor :=
  let deployment := getDeployment id m in
  let duration := or_number buildTime (elapsed now deployment) in
  updateDeployment now'
    (mkUpdate id None (Some Ready) url None None duration None None) m.

Definition markFailed (now now' : Z) (id : string) (error : string)
    (buildLogs : option (list string)) (m : Monitor) : Monitor :=
  let deployment := getDeployment id m in
  let duration := elapsed now deployment in
  updateDeployment now'
    (mkUpdate id None (Some Error) None None None duration (Some error) buildLogs) m.

Definition clearHistory (m : Monitor) : Monitor := [].

(** The calls that change the ledger. *)
Inductive Operation : Type :=
| UpdateDeployment (now : Z) (deployment : DeploymentUpdate)
| StartDeployment (now : Z) (id : string) (environment : Environment)
| MarkBuilding (now : Z) (id : string) (buildLogs : option (list string))
| MarkReady (now now' : Z) (id : string) (url : option string) (buildTime : option number)
| MarkFailed (now now' : Z) (id : string) (error : string) (buildLogs : option (list string))
| ClearHistory.

Definition apply (m : Monitor) (op : Operation) : Monitor :=
  match op with
  | UpdateDeployment now deployment => updateDeployment now deployment m
  | StartDeployment now id environment => startDeployment now id environment m
  | MarkBuilding now id buildLogs => markBuilding now id buildLogs m
  | MarkReady now now' id url buildTime => markReady now now' id url buildTime m
  | MarkFailed now now' id error buildLogs => markFailed now now' id error buildLogs m
  | ClearHistory => clearHistory m
  end.

Definition run (ops : list Operation) (m : Monitor) : Monitor :=
  fold_left apply ops m.

End DeploymentMonitor.

(** ** [lib/revalidation.ts]: batches and strategies *)

Module RevalidationBatch.
Import JS Revalidation.

(** [`${error}`]: [Error.prototype.toString] for an [Error], the value's
    own rendering otherwise. *)
Definition error_string (e : thrown) : string :=
  match e with
  | ErrorObj name message =>
      if negb (truthy_string name) then message
      else if negb (truthy_string message) then name
      else String.append name (String.append ": " message)
  | NonError description => description
  end.

(** ['path' | 'tag'] *)
Inductive OperationType : Type := PathOp | TagOp.

Definition OperationType_string (t : OperationType) : string :=
  match t with
  | PathOp => "path"
  | TagOp => "tag"
  end.

Record BatchOperation : Type := mkOperation
  { op_type : OperationType;
    op_value : string }.

Section Cache.

Variable next_revalidatePath : string -> option thrown.
Variable next_revalidateTag : string -> option thrown.

(** [items.forEach(item => f(item))]: a throw ends the loop. *)
Fixpoint forEach {A} (f : A -> method unit) (items : list A) : method unit :=
  match items with
  | [] => ret tt
  | item :: rest => seq_ (f item) (forEach f rest)
  end.

Definition revalidateMultiplePaths (paths : list string) : method unit :=
  forEach (revalidatePath next_revalidatePath) paths.

Definition revalidateMultipleTags (tags : list string) : method unit :=
  forEach (revalidateTag next_revalidateTag) tags.

Definition revalidateCategories : method unit :=
  seq_ (revalidatePath next_revalidatePath "/blog")
       (seq_ (revalidateTag next_revalidateTag "categories")
             (revalidateTag next_revalidateTag "blog-posts")).

(** The body of the [try] in [batchRevalidate]. *)
Definition perform (op : BatchOperation) : method unit :=
  match op_type op with
  | PathOp => revalidatePath next_revalidatePath (op_value op)
  | TagOp => revalidateTag next_revalidateTag (op_value op)
  end.

(** The message pushed by the [catch] in [batchRevalidate]. *)
Definition failure_message (op : BatchOperation) (e : thrown) : string :=
  String.append "Failed to revalidate "
    (String.append (OperationType_string (op_type op))
       (String.append " "
          (String.append (op_value op) (String.append ": " (error_string e))))).

(** The [forEach] of [batchRevalidate], with the [errors] array. *)
Fixpoint batch_loop (operations : list BatchOperation) (errors : list string)
    (m : RevalidationManager) : list string * RevalidationManager :=
  match operations with
  | [] => (errors, m)
  | op :: rest =>
      match perform op m with
      | (Return _, m') => batch_loop rest errors m'
      | (Throw e, m') => batch_loop rest (errors ++ [failure_message op e]) m'
      end
  end.

Definition batchRevalidate (operations : list BatchOperation) : method unit :=
  fun m =>
    let '(errors, m') := batch_loop operations [] m in
    if (0 <? List.length errors)%nat
    then (Throw (ErrorObj "Error" (String.concat "; " errors)), m')
    else (Return tt, m').

(** [RevalidationStrategies] *)
Definition fullSite : method unit :=
  seq_ (revalidatePath next_revalidatePath "/")
    (seq_ (revalidatePath next_revalidatePath "/blog")
       (seq_ (revalidatePath next_revalidatePath "/sitemap.xml")
          (seq_ (revalidatePath next_revalidatePath "/rss.xml")
                (revalidateTag next_revalidateTag "global")))).

Definition blogOnly : method unit :=
  seq_ (revalidatePath next_revalidatePath "/blog")
    (seq_ (revalidatePath next_revalidatePath "/rss.xml")
          (revalidateTag next_revalidateTag "blog-posts")).

Definition seoOnly : method unit :=
  seq_ (revalidatePath next_revalidatePath "/sitemap.xml")
    (seq_ (revalidatePath next_revalidatePath "/rss.xml")
          (revalidatePath next_revalidatePath "/robots.txt")).

End Cache.
End RevalidationBatch.

(** ** [src/lib/webhook-config.ts]: configuration check and self-test *)

Module WebhookTools.
Import JS WebhookConfig.

Record ConfigValidation : Type := mkValidation
  { valid : bool;
    issues : list string }.

(** [if (cond) issues.push(issue)] *)
Definition issue_if (cond : bool) (issue : string) : list string :=
  if cond then [issue] else [].

Definition validateConfig (config : WebhookConfig) : ConfigValidation :=
  let issues :=
    issue_if (negb (truthy_string (endpoint config))) "Webhook endpoint not configured"
    ++ issue_if (negb (truthy_string (secret config))
                 || String.eqb (secret config) "your-webhook-secret")
                "Webhook secret not configured or using default value"
    ++ issue_if (negb (truthy_string (url (staging (deployHooks config)))))
                "Staging deploy hook not configured"
    ++ issue_if (negb (truthy_string (url (production (deployHooks config)))))
                "Production deploy hook not configured" in
  mkValidation (Nat.eqb (List.length issues) 0) issues.

Definition getWebhookEndpoint (config : WebhookConfig) : string := endpoint config.
Definition getWebhookSecret (config : WebhookConfig) : string := secret config.

Record TestData : Type := mkTestData
  { test_type : string;
    test_id : string;
    test_slug : string;
    test_domain : string;
    test_status : string;
    test_action : string }.

Record TestPayload : Type := mkTestPayload
  { test_event : string;
    test_data : TestData;
    test_timestamp : Z }.

(** [generateTestPayload(type = 'post')] at clock reading [now]; the type is
    declared ['post' | 'page' | 'settings'] and not checked. *)
Definition generateTestPayload (now : Z) (type : option string) : TestPayload :=
  let type := match type with Some t => t | None => "post" end in
  mkTestPayload "content.updated"
    (mkTestData type "test-id-123"
       (if String.eqb type "post" then "test-blog-post" else "test-page")
       "staging.howtomecm.com" "published" "update")
    now.

(** The request [testWebhook] sends; [test_body] is the object given to
    [JSON.stringify]. *)
Record TestRequest : Type := mkTestRequest
  { test_url : string;
    test_method : string;
    test_headers : list (string * string);
    test_body : TestPayload }.

Record TestResult : Type := mkTestResult
  { test_success : bool;
    test_response : option json;
    test_error : option string }.

Section Manager.

Variable config : WebhookConfig.
Variable fetch : TestRequest -> outcome FetchResponse.

Definition test_request (now : Z) (payload : option TestPayload) : TestRequest :=
  mkTestRequest (endpoint config) "POST"
    [("Content-Type", "application/json"); ("X-Test-Webhook", "true")]
    (match payload with
     | Some p => p
     | None => generateTestPayload now None
     end).

Definition testWebhook (now : Z) (payload : option TestPayload) : outcome TestResult :=
  try_catch
    (bind (fetch (test_request now payload)) (fun response =>
     bind (response_json response) (fun responseData =>
     Return (mkTestResult (ok response) (Some responseData)
               (if ok response then None
                else Some (String.append (decimal (response_status response))
                             (String.append ": " (response_statusText response))))))))
    (fun error => Return (mkTestResult false None (Some (error_message error)))).

End Manager.
End WebhookTools.

(** ** [lib/deployment-monitor.ts]: the queries *)

Module DeploymentQueries.
Import JS DeploymentMonitor.

Definition Environment_eqb (a b : Environment) : bool :=
  match a, b with
  | Staging, Staging | Production, Production => true
  | _, _ => false
  end.

Definition Status_eqb (a b : Status) : bool :=
  match a, b with
  | Pending, Pending | Building, Building | Ready, Ready | Error, Error
  | Canceled, Canceled => true
  | _, _ => false
  end.

(** [Array.prototype.sort(compare)]: the sort is stable, [compare(a, b) > 0]
    puts [a] after [b], and a [NaN] counts as 0. For a comparator that
    orders the elements consistently (here: dates that all parse) the
    result is the one of every stable sort; an insertion sort gives it. *)
Definition goes_after {A} (compare : A -> A -> number) (a b : A) : bool :=
  match compare a b with
  | Num z => 0 <? z
  | NaN => false
  end.

Fixpoint insert {A} (compare : A -> A -> number) (x : A) (l : list A) : list A :=
  match l with
  | [] => [x]
  | y :: rest => if goes_after compare x y then y :: insert compare x rest else x :: l
  end.

Fixpoint sort {A} (compare : A -> A -> number) (l : list A) : list A :=
  match l with
  | [] => []
  | x :: rest => insert compare x (sort compare rest)
  end.

(** [(a, b) => new Date(b.createdAt).getTime() - new Date(a.createdAt).getTime()] *)
Definition newest_first (a b : DeploymentStatus) : number :=
  sub_number (getTime (createdAt b)) (getTime (createdAt a)).


Definition getDeploymentsByEnvironment (environment : Environment) (m : Monitor)
  : list DeploymentStatus :=
  sort newest_first
       (filter (fun d => Environment_eqb (DeploymentMonitor.environment d) environment)
               (JSMap.values m)).

Definition getLatestDeployment (environment : Environment) (m : Monitor)
  : option DeploymentStatus :=
  hd_error (getDeploymentsByEnvironment environment m).

(** A number computed in floating point from integers: an integer, the
    quotient [n / d], or the percentage [(n / d) * 100]. *)
Inductive computed : Type :=
| Whole (z : Z)
| Quotient (n d : Z)
| Percentage (n d : Z).

Record BuildMetrics : Type := mkMetrics
  { totalBuilds : nat;
    successfulBuilds : nat;
    failedBuilds : nat;
    averageBuildTime : computed;
    lastBuildTime : option date_string;
    uptime : computed }.

(** [sum + (d.duration || 0)] *)
Definition add_duration (sum : Z) (d : DeploymentStatus) : Z :=
  match or_number (duration d) (Some (Num 0)) with
  | Some (Num z) => sum + z
  | _ => sum
  end.

Definition getBuildMetrics (environment : option Environment) (m : Monitor) : BuildMetrics :=
  let deployments :=
    match environment with
    | Some e => getDeploymentsByEnvironment e m
    | None => JSMap.values m
    end in
  let totalBuilds := List.length deployments in
  let successfulBuilds :=
    List.length (filter (fun d => Status_eqb (status d) Ready) deployments) in
  let failedBuilds :=
    List.length (filter (fun d => Status_eqb (status d) Error) deployments) in
  let completedBuilds := filter (fun d => truthy_opt_number (duration d)) deployments in
  let averageBuildTime :=
    if (0 <? List.length completedBuilds)%nat
    then Quotient (fold_left add_duration completedBuilds 0)
                  (Z.of_nat (List.length completedBuilds))
    else Whole 0 in
  let lastBuild := hd_error deployments in
  let uptime :=
    if (0 <? totalBuilds)%nat
    then Percentage (Z.of_nat successfulBuilds) (Z.of_nat totalBuilds)
    else Whole 100 in
  mkMetrics totalBuilds successfulBuilds failedBuilds averageBuildTime
            (match lastBuild with Some d => Some (createdAt d) | None => None end)
            uptime.

Definition Status_string (s : Status) : string :=
  match s with
  | Pending => "pending"
  | Building => "building"
  | Ready => "ready"
  | Error => "error"
  | Canceled => "canceled"
  end.

Record EnvironmentSummary : Type := mkSummary
  { summary_status : string;
    lastUpdate : date_string }.

(** [{ status: latest?.status || 'unknown', lastUpdate: latest?.updatedAt || 'never' }] *)
Definition summary_of (latest : option DeploymentStatus) : EnvironmentSummary :=
  match latest with
  | Some d =>
      mkSummary (Status_string (status d))
                (if truthy_date (updatedAt d) then updatedAt d else Unparsed "never")
  | None => mkSummary "unknown" (Unparsed "never")
  end.

Definition getStatusSummary (m : Monitor) : EnvironmentSummary * EnvironmentSummary :=
  (summary_of (getLatestDeployment Staging m), summary_of (getLatestDeployment Production m)).



End DeploymentQueries.

(** ** [src/app/api/deployment/status/route.ts]: the [POST] handler *)

Module StatusRoute.
Import JS DeploymentMonitor.

(** The fields read from the request body, typed as the monitor's methods
    declare them. *)
Record Body : Type := mkBody
  { action : option string;
    deploymentId : option string;
    environment : option Environment;
    status : option Status;
    url : option string;
    error : option string;
    buildTime : option number;
    buildLogs : option (list string) }.

Inductive ResponseJson : Type :=
| Required
| InvalidAction
| Success (action : string) (deployment : option DeploymentStatus) (timestamp : Z)
| InternalServerError (details : string).

Record Response : Type := mkResponse
  { response_json : ResponseJson;
    response_status : Z }.

(** [POST]: [body] is how [await request.json()] settles; [now] is the
    reading of [Date.now()] in [markReady]/[markFailed], [now'] the one in
    [updateDeployment], [now''] the one of the response. *)
Definition POST (body : outcome Body) (now now' now'' : Z) (m : Monitor)
  : Response * Monitor :=
  match body with
  | Throw e => (mkResponse (InternalServerError (error_message e)) 500, m)
  | Return body =>
      match deploymentId body, environment body with
      | Some id, Some env =>
          if negb (truthy_string id) then (mkResponse Required 400, m)
          else
            let done (name : string) (m' : Monitor) :=
              (mkResponse (Success name (getDeployment id m') now'') 200, m') in
            match action body with
            | Some name =>
                if String.eqb name "start" then done name (startDeployment now' id env m)
                else if String.eqb name "building"
                then done name (markBuilding now' id (buildLogs body) m)
                else if String.eqb name "ready"
                then done name (markReady now now' id (url body) (buildTime body) m)
                else if String.eqb name "failed"
                then done name
                       (markFailed now now' id
                          (match or_string (error body) (Some "Unknown error") with
                           | Some text => text
                           | None => "Unknown error"
                           end)
                          (buildLogs body) m)
                else if String.eqb name "update"
                then done name
                       (updateDeployment now'
                          (mkUpdate id (Some env) (status body) (url body) None None None
                                    (error body) (buildLogs body))
                          m)
                else (mkResponse InvalidAction 400, m)
            | None => (mkResponse InvalidAction 400, m)
            end
      | _, _ => (mkResponse Required 400, m)
      end
  end.

End StatusRoute.

(** ** [src/app/api/test/e2e/route.ts]: the monitoring self-test *)

Module EndToEnd.
Import JS DeploymentMonitor DeploymentQueries.

Record Details : Type := mkDetails
  { details_deployment : option DeploymentStatus;
    details_metrics : BuildMetrics;
    details_status : EnvironmentSummary * EnvironmentSummary }.

Record TestResult : Type := mkTestResult
  { test : string;
    success : bool;
    duration : Z;
    details : Details;
    error : option string }.

(** [testBuildMonitoring()] on the shared monitor; [clock k] is the [k]-th
    reading of the clock during the test. With a build time given,
    [markReady] does not read the clock itself. *)
Definition testBuildMonitoring (clock : nat -> Z) (m : Monitor) : TestResult * Monitor :=
  let startTime := clock 0%nat in
  let testDeploymentId := String.append "test-" (WebhookConfig.decimal (clock 1%nat)) in
  let m1 := startDeployment (clock 2%nat) testDeploymentId Staging m in
  let m2 := markBuilding (clock 3%nat) testDeploymentId (Some ["Test build started"]) m1 in
  let m3 := markReady (clock 4%nat) (clock 4%nat) testDeploymentId
                      (Some "https://test.example.com") (Some (Num 30000)) m2 in
  let deployment := getDeployment testDeploymentId m3 in
  let metrics := getBuildMetrics (Some Staging) m3 in
  let status := getStatusSummary m3 in
  let success :=
    match deployment with
    | Some d => Status_eqb (DeploymentMonitor.status d) Ready
    | None => false
    end in
  (mkTestResult "Build Monitoring" success (clock 5%nat - startTime)
                (mkDetails deployment metrics status)
                (if success then None else Some "Build monitoring test failed"),
   m3).

End EndToEnd.

(** ** The webhook test route: its [POST] handler *)

Module WebhookTestRoute.
Import JS WebhookConfig WebhookTools.

Record Body : Type := mkBody
  { action : option string;
    environment : option string;
    type : option string }.

(** [['staging', 'production'].includes(environment)] *)
Definition known_environment (name : string) : option Environment :=
  if String.eqb name "staging" then Some Staging
  else if String.eqb name "production" then Some Production
  else None.

Inductive ResponseJson : Type :=
| TestWebhook (success : bool) (payload : TestPayload) (result : option json)
              (error : option string)
| TriggerDeploy (success : bool) (environment : Environment) (deploymentId : option json)
                (error : option string)
| QueueDeploy (environment : Environment)
| ValidateConfig (success : bool) (configuration : ConfigValidation)
                 (recommendations : list string)
| InvalidEnvironment
| InvalidAction
| InternalServerError (details : string).

Record Response : Type := mkResponse
  { response_json : ResponseJson;
    response_status : Z }.

(** What a request did besides answering: the requests sent to a deploy
    hook, and the state of the loop. *)
Record Effects : Type := mkEffects
  { sent : list FetchRequest;
    loop : State }.

Section Handler.

Variable config : WebhookConfig.
Variable fetch : FetchRequest -> outcome FetchResponse.
Variable fetch_test : TestRequest -> outcome FetchResponse.

(** [`(type || 'post')`] *)
Definition type_or_post (type : option string) : option string :=
  or_string type (Some "post").

Definition POST (body : outcome Body) (now : Z) (s : State) : Response * Effects :=
  match body with
  | Throw e => (mkResponse (InternalServerError (error_message e)) 500, mkEffects [] s)
  | Return body =>
      let valid_environment :=
        match environment body with
        | Some name => if truthy_string name then known_environment name else None
        | None => None
        end in
      match action body with
      | Some name =>
          if String.eqb name "test-webhook" then
            let testPayload := generateTestPayload now (type_or_post (type body)) in
            match testWebhook config fetch_test now (Some testPayload) with
            | Return result =>
                (mkResponse (TestWebhook (test_success result) testPayload
                                         (test_response result) (test_error result)) 200,
                 mkEffects [] s)
            | Throw e =>
                (mkResponse (InternalServerError (error_message e)) 500, mkEffects [] s)
            end
          else if String.eqb name "trigger-deploy" then
            match valid_environment with
            | None => (mkResponse InvalidEnvironment 400, mkEffects [] s)
            | Some env =>
                let call := triggerDeploy config fetch now env
                              (Some "Manual trigger from test endpoint") in
                match fst call with
                | Return result =>
                    (mkResponse (TriggerDeploy (WebhookConfig.success result) env
                                               (deploymentId result)
                                               (WebhookConfig.error result)) 200,
                     mkEffects (snd call) s)
                | Throw e =>
                    (mkResponse (InternalServerError (error_message e)) 500,
                     mkEffects (snd call) s)
                end
            end
          else if String.eqb name "queue-deploy" then
            match valid_environment with
            | None => (mkResponse InvalidEnvironment 400, mkEffects [] s)
            | Some env =>
                (mkResponse (QueueDeploy env) 200,
                 mkEffects []
                   (queueDeployment env "Manual queue from test endpoint" (Some 1000) s))
            end
          else if String.eqb name "validate-config" then
            let validation := validateConfig config in
            (mkResponse
               (ValidateConfig (valid validation) validation
                  (if valid validation
                   then ["Configuration is valid and ready for production"]
                   else ["Set WEBHOOK_SECRET environment variable";
                         "Configure VERCEL_STAGING_DEPLOY_HOOK environment variable";
                         "Configure VERCEL_PRODUCTION_DEPLOY_HOOK environment variable";
                         "Test webhook endpoint connectivity"]))
               200,
             mkEffects [] s)
          else (mkResponse InvalidAction 400, mkEffects [] s)
      | None => (mkResponse InvalidAction 400, mkEffects [] s)
      end
  end.

End Handler.
End WebhookTestRoute.

(** ** Vocabulary of the statements below *)

Module Spec.
Import JS Crypto.

Definition is_byte (b : Z) : Prop := 0 <= b < 256.

(** The header value a sender computes for a body, as the end-to-end test
    of [src/app/api/test/e2e/route.ts] does:
    ['sha256=' + createHmac('sha256', secret).update(body).digest('hex')]. *)
Definition sign (secret body : string) : string :=
  String.append "sha256="
    (hex_encode (hmac_sha256 (bytes_of_string secret) (bytes_of_string body))).

(** The error [timingSafeEqual] throws. *)
Definition range_error : thrown :=
  ErrorObj "RangeError" "Input buffers must have the same byte length".




(** The double quote character, for JSON text. *)
Definition quote : string := String (ascii_of_nat 34) EmptyString.

(** [JSON.stringify({ test: 'data' })], the body the end-to-end test posts
    with the header ['invalid-signature'] expecting status 401. *)
Definition test_body : string :=
  String.append "{"
    (String.append quote (String.append "test" (String.append quote
      (String.append ":" (String.append quote (String.append "data"
        (String.append quote "}"))))))).


(** The cache layer performs these invalidations without throwing. *)
Definition accepts (invalidate : string -> option thrown) (targets : list string) : Prop :=
  forall target, In target targets -> invalidate target = None.

(** The content types the dispatcher knows. *)
Definition known_type (t : option string) : bool :=
  Route.is_type t "post" || Route.is_type t "page"
  || Route.is_type t "settings" || Route.is_type t "media".

(** A cache layer that always succeeds, and a payload of a given type. *)
Definition cache_ok (target : string) : option thrown := None.

Definition payload_of (type slug : option string) : Route.WebhookPayload :=
  Route.mkPayload (Some "content.updated")
    (Some (Route.mkData type None slug (Some "staging.howtomecm.com") None (Some "update")))
    None.

(** The pending timers and the [triggerDeploy] calls of one environment. *)
Definition timers_of (environment : WebhookConfig.Environment)
    (l : list WebhookConfig.Timeout) : list WebhookConfig.Timeout :=
  filter (fun t => WebhookConfig.Environment_eqb (WebhookConfig.timeout_environment t)
                                                 environment) l.

Definition calls_of (environment : WebhookConfig.Environment)
    (l : list (WebhookConfig.Environment * string))
  : list (WebhookConfig.Environment * string) :=
  filter (fun c => WebhookConfig.Environment_eqb (fst c) environment) l.

(** The queue map has one entry per key, and every pending timer of the
    environment is the one the map holds for it. *)
Definition queue_consistent (environment : WebhookConfig.Environment)
    (s : WebhookConfig.State) : Prop :=
  NoDup (JSMap.keys (WebhookConfig.deploymentQueue s))
  /\ (forall t, In t (WebhookConfig.timers s) ->
       WebhookConfig.timeout_environment t = environment ->
       JSMap.get WebhookConfig.Environment_eqb environment (WebhookConfig.deploymentQueue s)
       = Some (WebhookConfig.handle t)).

(** [delayMs] with its default. *)
Definition delay_of (delayMs : option Z) : Z :=
  WebhookConfig.timer_delay (match delayMs with Some d => d | None => 5000 end).

(** A ledger as the monitor keeps it: at most 50 entries, one per id, and
    every record with its build logs and a non-empty creation date. *)
Definition stored (m : DeploymentMonitor.Monitor) : Prop :=
  (JSMap.size m <= 50)%nat
  /\ NoDup (JSMap.keys m)
  /\ (forall k d, In (k, d) m ->
       DeploymentMonitor.buildLogs d <> None
       /\ DeploymentMonitor.truthy_date (DeploymentMonitor.createdAt d) = true).

(** The id an operation writes ([clearHistory] writes none). *)
Definition op_id (op : DeploymentMonitor.Operation) : option string :=
  match op with
  | DeploymentMonitor.UpdateDeployment _ deployment => Some (DeploymentMonitor.u_id deployment)
  | DeploymentMonitor.StartDeployment _ id _ => Some id
  | DeploymentMonitor.MarkBuilding _ id _ => Some id
  | DeploymentMonitor.MarkReady _ _ id _ _ => Some id
  | DeploymentMonitor.MarkFailed _ _ id _ _ => Some id
  | DeploymentMonitor.ClearHistory => None
  end.

Definition mem (id : string) (ids : list string) : bool := existsb (String.eqb id) ids.

(** The ids seen so far, in the order of their first use. *)
Definition note (seen : list string) (id : string) : list string :=
  if mem id seen then seen else seen ++ [id].

Fixpoint inserted (seen : list string) (ops : list DeploymentMonitor.Operation)
  : list string :=
  match ops with
  | [] => seen
  | op :: rest =>
      inserted (match op_id op with Some id => note seen id | None => seen end) rest
  end.

(** Every operation either writes an id that is in the ledger (an update)
    or one never used before (an insertion). *)
Fixpoint inserts_and_updates (seen : list string) (m : DeploymentMonitor.Monitor)
    (ops : list DeploymentMonitor.Operation) : bool :=
  match ops with
  | [] => true
  | op :: rest =>
      match op_id op with
      | Some id =>
          (mem id (JSMap.keys m) || negb (mem id seen))
          && inserts_and_updates (note seen id) (DeploymentMonitor.apply m op) rest
      | None => false
      end
  end.

(** The ledger holds the last 50 of the ids inserted, in insertion order. *)
Definition last_inserted (seen : list string) (m : DeploymentMonitor.Monitor) : Prop :=
  NoDup seen /\ JSMap.keys m = skipn (List.length seen - 50) seen.

(** Deployment ids [dpl_0], [dpl_1], ... *)
Definition deployment_id (n : nat) : string :=
  String.append "dpl_" (WebhookConfig.decimal (Z.of_nat n)).

(** Each of [n] deployments is started, then marked ready. *)
Definition lifecycles (n : nat) : list DeploymentMonitor.Operation :=
  flat_map (fun k =>
              [DeploymentMonitor.StartDeployment (Z.of_nat k) (deployment_id k)
                 DeploymentMonitor.Staging;
               DeploymentMonitor.MarkReady (Z.of_nat k + 5) (Z.of_nat k + 5) (deployment_id k)
                 None None])
           (seq 0 n).

(** The claim C5 on the elapsed time, as stated. *)
Definition duration_is_elapsed : Prop :=
  forall m id d c now now' url,
    stored m ->
    DeploymentMonitor.getDeployment id m = Some d ->
    DeploymentMonitor.createdAt d = DeploymentMonitor.ISO c ->
    exists d',
      DeploymentMonitor.getDeployment id
        (DeploymentMonitor.markReady now now' id url None m) = Some d'
      /\ DeploymentMonitor.duration d' = Some (Num (now - c)).


End Spec.
Import Spec.


(** ** Further vocabulary *)

Module Terms.
Import JS.

(** What the cache layer answers to one batch operation. *)
Definition answer (rp rt : string -> option thrown)
    (op : RevalidationBatch.BatchOperation) : option thrown :=
  match RevalidationBatch.op_type op with
  | RevalidationBatch.PathOp => rp (RevalidationBatch.op_value op)
  | RevalidationBatch.TagOp => rt (RevalidationBatch.op_value op)
  end.

(** The values of the operations of one kind that the cache layer performs. *)
Definition performed (rp rt : string -> option thrown)
    (kind : RevalidationBatch.OperationType)
    (ops : list RevalidationBatch.BatchOperation) : list string :=
  map RevalidationBatch.op_value
    (filter (fun op =>
               match RevalidationBatch.op_type op, kind, answer rp rt op with
               | RevalidationBatch.PathOp, RevalidationBatch.PathOp, None => true
               | RevalidationBatch.TagOp, RevalidationBatch.TagOp, None => true
               | _, _, _ => false
               end) ops).

(** The messages of the operations that throw, in order. *)
Definition failures (rp rt : string -> option thrown)
    (ops : list RevalidationBatch.BatchOperation) : list string :=
  flat_map (fun op => match answer rp rt op with
                      | Some e => [RevalidationBatch.failure_message op e]
                      | None => []
                      end) ops.

(** The targets before the first one the cache layer refuses, and the
    error of that one. *)
Fixpoint accepted_prefix (invalidate : string -> option thrown) (targets : list string)
  : list string :=
  match targets with
  | [] => []
  | target :: rest =>
      match invalidate target with
      | None => target :: accepted_prefix invalidate rest
      | Some _ => []
      end
  end.

Fixpoint first_refusal (invalidate : string -> option thrown) (targets : list string)
  : option thrown :=
  match targets with
  | [] => None
  | target :: rest =>
      match invalidate target with
      | None => first_refusal invalidate rest
      | Some e => Some e
      end
  end.

(** The paths [revalidateBlogPost] invalidates, in order. *)
Definition post_targets (slug : option string) : list string :=
  "/blog"
  :: (if truthy_opt_string slug
      then [String.append "/blog/" (match slug with Some s => s | None => "" end)]
      else [])
  ++ ["/sitemap.xml"; "/rss.xml"].

(** Everything a manager lists was performed by the cache layer. *)
Definition performed_only (rp rt : string -> option thrown)
    (m : Revalidation.RevalidationManager) : Prop :=
  Forall (fun p => rp p = None) (Revalidation.paths m)
  /\ Forall (fun t => rt t = None) (Revalidation.tags m).

(** Do the first two characters form a hexadecimal pair? *)
Definition starts_with_hex_pair (t : string) : bool :=
  match t with
  | String c1 (String c2 _) =>
      match Crypto.unhex c1, Crypto.unhex c2 with
      | Some _, Some _ => true
      | _, _ => false
      end
  | _ => false
  end.

(** The digest the verifier expects for a body. *)
Definition expected_digest (secret body : string) : list Z :=
  Crypto.hmac_sha256 (Crypto.bytes_of_string secret) (Crypto.bytes_of_string body).

(** The bytes the verifier reads from a header value. *)
Definition received_digest (signature : string) : list Z :=
  Crypto.Buffer_from_hex (replace "sha256=" "" signature).



(** States of the loop as the manager produces them: handles are issued
    in increasing order, and a handle held by the queue map belongs to a
    timer of that environment. *)
Definition loop_wf (s : WebhookConfig.State) : Prop :=
  NoDup (JSMap.keys (WebhookConfig.deploymentQueue s))
  /\ (forall t, In t (WebhookConfig.timers s) ->
       (WebhookConfig.handle t < WebhookConfig.next_handle s)%nat)
  /\ (forall e h,
        JSMap.get WebhookConfig.Environment_eqb e (WebhookConfig.deploymentQueue s) = Some h ->
        (h < WebhookConfig.next_handle s)%nat)
  /\ (forall t e h,
        In t (WebhookConfig.timers s) ->
        JSMap.get WebhookConfig.Environment_eqb e (WebhookConfig.deploymentQueue s) = Some h ->
        WebhookConfig.handle t = h ->
        WebhookConfig.timeout_environment t = e).

(** What happens on the loop: a call, the passing of time, the callbacks
    that were waiting for the hook's answer resuming. *)
Inductive Event : Type :=
| Queue (environment : WebhookConfig.Environment) (reason : string) (delayMs : option Z)
| Wait (dt : Z)
| Answers.

Definition step (config : WebhookConfig.WebhookConfig)
    (fetch : WebhookConfig.FetchRequest -> outcome WebhookConfig.FetchResponse)
    (s : WebhookConfig.State) (e : Event) : WebhookConfig.State :=
  match e with
  | Queue environment reason delayMs =>
      WebhookConfig.queueDeployment environment reason delayMs s
  | Wait dt => WebhookConfig.advance config fetch dt s
  | Answers => WebhookConfig.settle s
  end.

(** The key a write evicts, if any: the oldest one, when the id is new
    and the ledger is full. *)
Definition evicted_by (deployment : DeploymentMonitor.DeploymentUpdate)
    (m : DeploymentMonitor.Monitor) : option string :=
  if negb (mem (DeploymentMonitor.u_id deployment) (JSMap.keys m))
     && (50 <? S (JSMap.size m))%nat
  then hd_error (JSMap.keys m)
  else None.

(** The status an operation writes, if it writes one. *)
Definition op_status (op : DeploymentMonitor.Operation) : option DeploymentMonitor.Status :=
  match op with
  | DeploymentMonitor.UpdateDeployment _ deployment => DeploymentMonitor.u_status deployment
  | DeploymentMonitor.StartDeployment _ _ _ => Some DeploymentMonitor.Pending
  | DeploymentMonitor.MarkBuilding _ _ _ => Some DeploymentMonitor.Building
  | DeploymentMonitor.MarkReady _ _ _ _ _ => Some DeploymentMonitor.Ready
  | DeploymentMonitor.MarkFailed _ _ _ _ _ => Some DeploymentMonitor.Error
  | DeploymentMonitor.ClearHistory => None
  end.

(** The creation instant of a record whose date parses, and ledgers whose
    dates all parse. *)
Definition instant (d : DeploymentMonitor.DeploymentStatus) : Z :=
  match DeploymentMonitor.createdAt d with
  | DeploymentMonitor.ISO ms => ms
  | DeploymentMonitor.Unparsed _ => 0
  end.

Definition has_date (d : DeploymentMonitor.DeploymentStatus) : Prop :=
  exists ms, DeploymentMonitor.createdAt d = DeploymentMonitor.ISO ms.

Definition dated (m : DeploymentMonitor.Monitor) : Prop :=
  Forall has_date (JSMap.values m).

(** The records of one environment, in the order of the ledger. *)
Definition of_environment (environment : DeploymentMonitor.Environment)
    (m : DeploymentMonitor.Monitor) : list DeploymentMonitor.DeploymentStatus :=
  filter (fun d => DeploymentQueries.Environment_eqb (DeploymentMonitor.environment d)
                                                     environment)
         (JSMap.values m).

(** The value names a deployment environment, as
    [['staging', 'production'].includes] checks it. *)
Definition names_environment (environment : option string) : Prop :=
  environment = Some "staging" \/ environment = Some "production".

End Terms.
Import Terms.

(** * Properties *)

(** ** Known answers for the digest functions (FIPS 180-4, RFC 4231) *)

Example round_constants :
  nth 0 Crypto.K256 0 = 0x428a2f98 /\ nth 63 Crypto.K256 0 = 0xc67178f2
  /\ List.length Crypto.K256 = 64%nat
  /\ Crypto.ha Crypto.H256 = 0x6a09e667 /\ Crypto.hh Crypto.H256 = 0x5be0cd19.
Proof. repeat split; reflexivity. Qed.

Example sha256_abc :
  Crypto.hex_encode (Crypto.sha256 (Crypto.bytes_of_string "abc"))
  = "ba7816bf8f01cfea414140de5dae2223b00361a396177a9cb410ff61f20015ad".
Proof. vm_compute. reflexivity. Qed.

Example sha256_empty :
  Crypto.hex_encode (Crypto.sha256 [])
  = "e3b0c44298fc1c149afbf4c8996fb92427ae41e4649b934ca495991b7852b855".
Proof. vm_compute. reflexivity. Qed.

Example sha256_two_blocks :
  Crypto.hex_encode (Crypto.sha256 (Crypto.bytes_of_string
    "abcdbcdecdefdefgefghfghighijhijkijkljklmklmnlmnomnopnopq"))
  = "248d6a61d20638b8e5c026930c3e6039a33ce45964ff2167f6ecedd419db06c1".
Proof. vm_compute. reflexivity. Qed.

Example hmac_sha256_rfc4231 :
  Crypto.hex_encode (Crypto.hmac_sha256 (Crypto.bytes_of_string "Jefe")
    (Crypto.bytes_of_string "what do ya want for nothing?"))
  = "5bdcc146bf60754e6a042426089575c75a003f089d2739839dec58b964ec3843".
Proof. vm_compute. reflexivity. Qed.

(** ** Digests, hexadecimal and buffers *)

Section CryptoFacts.
Import JS Crypto.

Lemma be_bytes_length n x : List.length (be_bytes n x) = n.
Proof. induction n; simpl; congruence. Qed.

Lemma be_bytes_range n x : Forall is_byte (be_bytes n x).
Proof.
  induction n; simpl; constructor; auto.
  unfold is_byte. apply Z.mod_pos_bound. lia.
Qed.

Lemma digest_bytes_length s : List.length (digest_bytes s) = 32%nat.
Proof.
  unfold digest_bytes. rewrite !length_app, !be_bytes_length. reflexivity.
Qed.

Lemma digest_bytes_range s : Forall is_byte (digest_bytes s).
Proof.
  unfold digest_bytes. rewrite !Forall_app. repeat split; apply be_bytes_range.
Qed.

Lemma sha256_length msg : List.length (sha256 msg) = 32%nat.
Proof. apply digest_bytes_length. Qed.

Lemma sha256_range msg : Forall is_byte (sha256 msg).
Proof. apply digest_bytes_range. Qed.

Lemma hmac_sha256_length key msg : List.length (hmac_sha256 key msg) = 32%nat.
Proof. apply sha256_length. Qed.

Lemma hmac_sha256_range key msg : Forall is_byte (hmac_sha256 key msg).
Proof. apply sha256_range. Qed.

Lemma unhex_hex_digit n : 0 <= n < 16 -> unhex (hex_digit n) = Some n.
Proof.
  intros H.
  assert (All : forallb (fun k => match unhex (hex_digit k) with
                                  | Some v => v =? k
                                  | None => false
                                  end) (map Z.of_nat (seq 0 16)) = true) by reflexivity.
  rewrite forallb_forall in All. specialize (All n).
  destruct (unhex (hex_digit n)) as [v |].
  - f_equal. apply Z.eqb_eq, All, in_map_iff.
    exists (Z.to_nat n). split; [lia | apply in_seq; lia].
  - discriminate All. apply in_map_iff.
    exists (Z.to_nat n). split; [lia | apply in_seq; lia].
Qed.

(** Decoding the hexadecimal form of a buffer gives the buffer back. *)
Lemma Buffer_from_hex_encode bs :
  Forall is_byte bs -> Buffer_from_hex (hex_encode bs) = bs.
Proof.
  induction 1 as [| b bs Hb _ IH]; cbn [Buffer_from_hex hex_encode]; [reflexivity |].
  unfold is_byte in Hb.
  rewrite !unhex_hex_digit.
  - rewrite IH. f_equal. pose proof (Z.div_mod b 16 ltac:(lia)). lia.
  - apply Z.mod_pos_bound. lia.
  - split; [apply Z.div_pos; lia | apply Z.div_lt_upper_bound; lia].
Qed.

Example Buffer_from_hex_stops :
  Buffer_from_hex "abzzcd" = [171] /\ Buffer_from_hex "abc" = [171]
  /\ Buffer_from_hex "invalid-signature" = [] /\ Buffer_from_hex "ABcd" = [171; 205].
Proof. repeat split; reflexivity. Qed.

Lemma bytes_eqb_eq a b : bytes_eqb a b = true <-> a = b.
Proof.
  revert b. induction a as [| x a IH]; destruct b as [| y b]; simpl;
    try (split; [discriminate | discriminate]); [tauto |].
  rewrite andb_true_iff, Z.eqb_eq, IH. split.
  - intros [-> ->]. reflexivity.
  - intros E. injection E. auto.
Qed.

Lemma bytes_eqb_refl a : bytes_eqb a a = true.
Proof. apply bytes_eqb_eq. reflexivity. Qed.


End CryptoFacts.

(** ** The signature verifier *)

Section SignatureFacts.
Import JS Crypto Route.

(** What the verifier computes, with the expected digest decoded. *)
Lemma verifySignature_unfold secret payload signature :
  verifySignature secret payload signature =
  if negb (truthy_string signature) then Return false
  else timingSafeEqual
         (hmac_sha256 (bytes_of_string secret) (bytes_of_string payload))
         (Buffer_from_hex (replace "sha256=" "" signature)).
Proof.
  unfold verifySignature.
  rewrite Buffer_from_hex_encode by apply hmac_sha256_range.
  reflexivity.
Qed.


(** *** Finitely many digests *)







Lemma verifySignature_malformed_digest secret payload signature :
  truthy_string signature = true ->
  List.length (Buffer_from_hex (replace "sha256=" "" signature)) <> 32%nat ->
  verifySignature secret payload signature = Throw range_error.
Proof.
  intros Ht Hlen. rewrite verifySignature_unfold, Ht. cbn [negb].
  unfold timingSafeEqual. rewrite hmac_sha256_length.
  destruct (Nat.eqb_spec 32 (List.length (Buffer_from_hex (replace "sha256=" "" signature))))
    as [E | _]; [congruence | reflexivity].
Qed.

(** When the verifier throws, the handler answers 500 from its outer
    [catch], never 401. *)
Lemma POST_verifier_throws rp rt parse secret clock body signature e :
  verifySignature secret body signature = Throw e ->
  truthy_string signature = true ->
  POST rp rt parse secret clock (mkRequest body (Some signature) None) =
  Return (mkResponse (InternalServerError (clock 1%nat - clock 0%nat)) 500).
Proof.
  intros Hv Ht. unfold POST, signature_header.
  cbn [x_signature_256 x_hub_signature_256 Route.body].
  unfold or_string at 2. cbn [truthy_opt_string]. rewrite Ht.
  unfold or_string. cbn [truthy_opt_string]. rewrite Ht, Hv. reflexivity.
Qed.

(** C1 (code defect). The claim says a malformed or wrong-length digest
    makes [verifySignature] return false without throwing. At the header
    value ['invalid-signature'], which the repository's end-to-end test posts
    expecting status 401, the decoded buffer is empty, [timingSafeEqual]
    throws a [RangeError] out of [verifySignature], and the handler answers
    500 from its outer [catch]. *)
Theorem verifySignature_invalid_signature_throws :
  verifySignature "your-webhook-secret" test_body "invalid-signature"
    = Throw range_error
  /\ (forall rp rt parse clock,
        POST rp rt parse "your-webhook-secret" clock
             (mkRequest test_body (Some "invalid-signature") None)
        = Return (mkResponse (InternalServerError (clock 1%nat - clock 0%nat)) 500)).
Proof.
  assert (H : verifySignature "your-webhook-secret" test_body "invalid-signature"
              = Throw range_error).
  { apply verifySignature_malformed_digest; [reflexivity | vm_compute; discriminate]. }
  split; [exact H |].
  intros. apply POST_verifier_throws with (e := range_error); [exact H | reflexivity].
Qed.

(** The same happens for a well-formed header whose digest is too short. *)
Example verifySignature_short_digest_throws :
  verifySignature "your-webhook-secret" test_body "sha256=abcd" = Throw range_error.
Proof. apply verifySignature_malformed_digest; [reflexivity | vm_compute; discriminate]. Qed.

(** A missing header is the one malformed input that is rejected quietly. *)
Example verifySignature_missing_header secret payload :
  verifySignature secret payload "" = Return false.
Proof. reflexivity. Qed.




End SignatureFacts.

(** ** The revalidation dispatcher and the handler *)

Section DispatchFacts.
Import JS Revalidation Route.

Variable next_revalidatePath next_revalidateTag : string -> option thrown.

Lemma accepts_In invalidate targets target :
  accepts invalidate targets -> In target targets -> invalidate target = None.
Proof. intros H. apply H. Qed.

(** Run a helper of the manager whose cache calls all succeed. *)
Ltac run_helper Hp Ht :=
  unfold seq_, when, revalidatePath, revalidateTag, ret;
  repeat (first [ rewrite (accepts_In _ _ _ Hp) by (simpl; tauto)
                | rewrite (accepts_In _ _ _ Ht) by (simpl; tauto) ];
          cbn [startTime paths tags app]).

(** C8. A post event with a slug (so with slug ["foo"]) invalidates, when
    the cache layer performs the invalidations, exactly the blog index, the
    post, the sitemap and the feed, and the tag [blog-posts]. *)
Theorem dispatch_post t_new t_get event d s timestamp :
  type d = Some "post" ->
  slug d = Some s ->
  s <> "" ->
  accepts next_revalidatePath
          ["/blog"; String.append "/blog/" s; "/sitemap.xml"; "/rss.xml"] ->
  accepts next_revalidateTag ["blog-posts"] ->
  let result := handleRevalidation next_revalidatePath next_revalidateTag t_new t_get
                  (mkPayload event (Some d) timestamp) in
  success result = true
  /\ revalidatedPaths result = ["/blog"; String.append "/blog/" s; "/sitemap.xml"; "/rss.xml"]
  /\ revalidatedTags result = ["blog-posts"]
  /\ (s = "foo" ->
      incl ["/blog"; "/blog/foo"; "/sitemap.xml"; "/rss.xml"] (revalidatedPaths result)
      /\ In "blog-posts" (revalidatedTags result)).
Proof.
  intros Htype Hslug Hs Hp Ht result.
  assert (Htruthy : truthy_string s = true) by (destruct s; [congruence | reflexivity]).
  assert (E : result =
              mkResult true ["/blog"; String.append "/blog/" s; "/sitemap.xml"; "/rss.xml"]
                       ["blog-posts"] None (t_get - t_new)).
  { subst result. unfold handleRevalidation. cbn [data]. rewrite Htype.
    cbn [is_type String.eqb Ascii.eqb Bool.eqb andb].
    unfold revalidateBlogPost, createRevalidationManager. rewrite Hslug.
    cbn [truthy_opt_string]. rewrite Htruthy.
    run_helper Hp Ht. reflexivity. }
  rewrite E. cbn [success revalidatedPaths revalidatedTags].
  repeat split; try reflexivity.
  - subst s. apply incl_refl.
  - left. reflexivity.
Qed.

(** C9. A page event with the sentinel slug ["home"] invalidates the root
    path and not ["/home"]; with any other non-empty slug [s] it invalidates
    ["/s"]; in both cases the sitemap and the tag [pages] follow (when the
    cache layer performs the invalidations). *)
Theorem dispatch_page t_new t_get event d s timestamp :
  type d = Some "page" ->
  slug d = Some s ->
  s <> "" ->
  accepts next_revalidatePath
          [(if String.eqb s "home" then "/" else String.append "/" s); "/sitemap.xml"] ->
  accepts next_revalidateTag ["pages"] ->
  let result := handleRevalidation next_revalidatePath next_revalidateTag t_new t_get
                  (mkPayload event (Some d) timestamp) in
  success result = true
  /\ (s = "home" ->
      revalidatedPaths result = ["/"; "/sitemap.xml"]
      /\ ~ In "/home" (revalidatedPaths result))
  /\ (s <> "home" -> revalidatedPaths result = [String.append "/" s; "/sitemap.xml"])
  /\ In "/sitemap.xml" (revalidatedPaths result)
  /\ revalidatedTags result = ["pages"].
Proof.
  intros Htype Hslug Hs Hp Ht result.
  assert (Htruthy : truthy_string s = true) by (destruct s; [congruence | reflexivity]).
  assert (E : result =
              mkResult true
                [(if String.eqb s "home" then "/" else String.append "/" s); "/sitemap.xml"]
                ["pages"] None (t_get - t_new)).
  { subst result. unfold handleRevalidation. cbn [data]. rewrite Htype.
    cbn [is_type String.eqb Ascii.eqb Bool.eqb andb].
    unfold revalidatePage, createRevalidationManager. rewrite Hslug, Htruthy.
    destruct (String.eqb s "home") eqn:Eh; cbn [negb andb];
      run_helper Hp Ht; reflexivity. }
  rewrite E. cbn [success revalidatedPaths revalidatedTags].
  split; [reflexivity |]. split; [| split; [| split; [| reflexivity]]].
  - intros ->. cbn. split; [reflexivity |].
    intros [H | [H | []]]; discriminate.
  - intros N. apply String.eqb_neq in N. rewrite N. reflexivity.
  - right. left. reflexivity.
Qed.

(** The dispatcher on a type it does not know. *)
Lemma handleRevalidation_unknown t_new t_get event d timestamp :
  known_type (type d) = false ->
  handleRevalidation next_revalidatePath next_revalidateTag t_new t_get
    (mkPayload event (Some d) timestamp)
  = mkResult false [] [] (Some (String.append "Unknown content type: " (template (type d))))
             (t_get - t_new).
Proof.
  unfold known_type. rewrite !orb_false_iff. intros [[[H1 H2] H3] H4].
  unfold handleRevalidation. cbn [data]. rewrite H1, H2, H3, H4. reflexivity.
Qed.

Variable JSON_parse : string -> outcome WebhookPayload.

(** No exception escapes the handler. *)
Lemma POST_returns secret clock request :
  exists response,
    POST next_revalidatePath next_revalidateTag JSON_parse secret clock request
    = Return response.
Proof.
  unfold POST.
  destruct (verifySignature secret (body request) (signature_header request))
    as [valid | e]; cbn [bind try_catch]; [| eexists; reflexivity].
  destruct valid; cbn [negb]; [| eexists; reflexivity].
  destruct (JSON_parse (body request)) as [payload | e]; [| eexists; reflexivity].
  destruct (invalid_structure payload); [eexists; reflexivity |].
  destruct (success _); eexists; reflexivity.
Qed.

(** C6. A payload that passes the signature check and the structural
    validation and whose [data.type] is none of post, page, settings, media
    gives a failed result with a non-empty error, and the handler answers
    500; the handler returns a response on every request. *)
Theorem unknown_type_fails secret clock request payload d :
  verifySignature secret (body request) (signature_header request) = Return true ->
  JSON_parse (body request) = Return payload ->
  invalid_structure payload = false ->
  data payload = Some d ->
  known_type (type d) = false ->
  let result := handleRevalidation next_revalidatePath next_revalidateTag
                  (clock 1%nat) (clock 2%nat) payload in
  success result = false
  /\ (exists message, error result = Some message /\ message <> "")
  /\ POST next_revalidatePath next_revalidateTag JSON_parse secret clock request
     = Return (mkResponse (RevalidationFailed (error result) (processingTime result)) 500)
  /\ (forall secret' clock' request',
        exists response,
          POST next_revalidatePath next_revalidateTag JSON_parse secret' clock' request'
          = Return response).
Proof.
  intros Hsig Hparse Hvalid Hdata Hunknown result.
  assert (E : result =
              mkResult false [] []
                (Some (String.append "Unknown content type: " (template (type d))))
                (clock 2%nat - clock 1%nat)).
  { subst result. destruct payload as [event data' timestamp]. cbn [data] in Hdata.
    subst data'. apply handleRevalidation_unknown. exact Hunknown. }
  split; [rewrite E; reflexivity |].
  split; [rewrite E; eexists; split; [reflexivity | discriminate] |].
  split; [| intros; apply POST_returns].
  unfold POST. rewrite Hsig. cbn [bind negb try_catch]. rewrite Hparse, Hvalid.
  fold result. rewrite E. reflexivity.
Qed.

End DispatchFacts.

Lemma dispatch_post_witness :
  let result := Route.handleRevalidation cache_ok cache_ok 100 103
                  (payload_of (Some "post") (Some "foo")) in
  incl ["/blog"; "/blog/foo"; "/sitemap.xml"; "/rss.xml"] (Revalidation.revalidatedPaths result)
  /\ In "blog-posts" (Revalidation.revalidatedTags result).
Proof.
  pose proof (dispatch_post cache_ok cache_ok 100 103 (Some "content.updated")
                (Route.mkData (Some "post") None (Some "foo")
                              (Some "staging.howtomecm.com") None (Some "update"))
                "foo" None eq_refl eq_refl
                ltac:(discriminate)
                ltac:(intros target _; reflexivity)
                ltac:(intros target _; reflexivity)) as [_ [_ [_ H]]].
  exact (H eq_refl).
Defined.

Lemma dispatch_page_witness :
  let result := Route.handleRevalidation cache_ok cache_ok 100 103
                  (payload_of (Some "page") (Some "home")) in
  Revalidation.revalidatedPaths result = ["/"; "/sitemap.xml"]
  /\ ~ In "/home" (Revalidation.revalidatedPaths result).
Proof.
  pose proof (dispatch_page cache_ok cache_ok 100 103 (Some "content.updated")
                (Route.mkData (Some "page") None (Some "home")
                              (Some "staging.howtomecm.com") None (Some "update"))
                "home" None eq_refl eq_refl
                ltac:(discriminate)
                ltac:(intros target _; reflexivity)
                ltac:(intros target _; reflexivity)) as [_ [H _]].
  exact (H eq_refl).
Defined.

Lemma unknown_type_fails_witness :
  Route.POST cache_ok cache_ok
    (fun _ => JS.Return (payload_of (Some "unknown-type") (Some "foo")))
    "your-webhook-secret" (fun k => 100 + Z.of_nat k)
    (Route.mkRequest test_body (Some (sign "your-webhook-secret" test_body)) None)
  = JS.Return (Route.mkResponse
                 (Route.RevalidationFailed (Some "Unknown content type: unknown-type") 1)
                 500).
Proof.
  pose proof (unknown_type_fails cache_ok cache_ok
                (fun _ => JS.Return (payload_of (Some "unknown-type") (Some "foo")))
                "your-webhook-secret" (fun k => 100 + Z.of_nat k)
                (Route.mkRequest test_body
                   (Some (sign "your-webhook-secret" test_body)) None)
                (payload_of (Some "unknown-type") (Some "foo"))
                (Route.mkData (Some "unknown-type") None (Some "foo")
                              (Some "staging.howtomecm.com") None (Some "update"))
                ltac:(vm_compute; reflexivity) eq_refl eq_refl eq_refl eq_refl)
    as [_ [_ [H _]]].
  exact H.
Defined.

(** ** The deploy-hook trigger *)

Section TriggerFacts.
Import JS WebhookConfig.

Variable config : WebhookConfig.
Variable fetch : FetchRequest -> outcome FetchResponse.

(** The promise returned by [triggerDeploy] is always fulfilled. *)
Lemma triggerDeploy_returns now environment reason :
  exists result, fst (triggerDeploy config fetch now environment reason) = Return result.
Proof.
  unfold triggerDeploy.
  destruct (truthy_string (url (getDeployHook config environment)));
    cbn [negb fst]; [| eexists; reflexivity].
  destruct (bind (fetch (deploy_request config now environment reason)) _);
    cbn [try_catch]; eexists; reflexivity.
Qed.

(** C7. [triggerDeploy] always gives a result object: without a hook URL a
    failure and no request; otherwise one POST, whose non-2xx answer gives
    a failure naming the status text and whose rejection gives a failure
    with the error's message. *)
Theorem triggerDeploy_structured now environment reason :
  let hook := getDeployHook config environment in
  let request := deploy_request config now environment reason in
  let call := triggerDeploy config fetch now environment reason in
  (exists result, fst call = Return result)
  /\ (url hook = "" ->
      call = (Return (mkDeploy false None
                        (Some (String.append "No deploy hook configured for "
                                             (Environment_string environment)))),
              []))
  /\ (url hook <> "" -> snd call = [request] /\ fetch_method request = "POST")
  /\ (url hook <> "" ->
      forall response, fetch request = Return response -> ok response = false ->
      fst call = Return (mkDeploy false None
                           (Some (String.append "Deploy hook returned "
                                    (String.append (decimal (response_status response))
                                       (String.append ": " (response_statusText response)))))))
  /\ (url hook <> "" ->
      forall e, fetch request = Throw e ->
      fst call = Return (mkDeploy false None (Some (error_message e)))).
Proof.
  intros hook request call.
  split; [apply triggerDeploy_returns |].
  subst call. unfold triggerDeploy. fold hook. fold request.
  split; [intros ->; reflexivity |].
  assert (T : url hook <> "" -> truthy_string (url hook) = true)
    by (destruct (url hook); [congruence | reflexivity]).
  split; [intros N; rewrite (T N); split; reflexivity |].
  split; intros N; rewrite (T N); cbn [negb fst].
  - intros response -> Hok. cbn [bind]. rewrite Hok. reflexivity.
  - intros e ->. reflexivity.
Qed.

End TriggerFacts.

Lemma triggerDeploy_structured_witness :
  let config := WebhookConfig.WEBHOOK_CONFIG None None (Some "https://hooks.example/deploy") None in
  let fetch := fun _ : WebhookConfig.FetchRequest =>
    JS.Return (WebhookConfig.mkFetchResponse 503 "Service Unavailable"
                 (JS.Return WebhookConfig.JNull)) in
  WebhookConfig.triggerDeploy config fetch 0 WebhookConfig.Production None
    = (JS.Return (WebhookConfig.mkDeploy false None
                    (Some "No deploy hook configured for production")), [])
  /\ fst (WebhookConfig.triggerDeploy config fetch 0 WebhookConfig.Staging (Some "content"))
     = JS.Return (WebhookConfig.mkDeploy false None
                    (Some "Deploy hook returned 503: Service Unavailable")).
Proof.
  intros config fetch. split.
  - pose proof (triggerDeploy_structured config fetch 0 WebhookConfig.Production None)
      as [_ [H _]].
    exact (H eq_refl).
  - pose proof (triggerDeploy_structured config fetch 0 WebhookConfig.Staging (Some "content"))
      as [_ [_ [_ [H _]]]].
    exact (H ltac:(discriminate) _ eq_refl eq_refl).
Defined.

(** A rejected request and a malformed answer are failures too. *)
Example triggerDeploy_network_error :
  fst (WebhookConfig.triggerDeploy
         (WebhookConfig.WEBHOOK_CONFIG None None (Some "https://hooks.example/deploy") None)
         (fun _ => JS.Throw (JS.ErrorObj "TypeError" "fetch failed"))
         0 WebhookConfig.Staging None)
  = JS.Return (WebhookConfig.mkDeploy false None (Some "fetch failed")).
Proof. reflexivity. Qed.

Example triggerDeploy_null_answer :
  fst (WebhookConfig.triggerDeploy
         (WebhookConfig.WEBHOOK_CONFIG None None (Some "https://hooks.example/deploy") None)
         (fun _ => JS.Return (WebhookConfig.mkFetchResponse 200 "OK"
                                (JS.Return WebhookConfig.JNull)))
         0 WebhookConfig.Staging None)
  = JS.Return (WebhookConfig.mkDeploy false None
                 (Some "Cannot read properties of null (reading 'deploymentId')")).
Proof. reflexivity. Qed.

Example triggerDeploy_success :
  WebhookConfig.triggerDeploy
    (WebhookConfig.WEBHOOK_CONFIG None None (Some "https://hooks.example/deploy") None)
    (fun _ => JS.Return (WebhookConfig.mkFetchResponse 201 "Created"
                           (JS.Return (WebhookConfig.JObj
                                         [("id", WebhookConfig.JStr "dpl_1")]))))
    7 WebhookConfig.Staging None
  = (JS.Return (WebhookConfig.mkDeploy true (Some (WebhookConfig.JStr "dpl_1")) None),
     [WebhookConfig.mkFetch "https://hooks.example/deploy" "POST" "application/json"
        (WebhookConfig.mkBody "Manual deployment trigger" 7 WebhookConfig.Staging)]).
Proof. reflexivity. Qed.

(** ** Facts on [Map] *)

Section JSMapFacts.

Context {K V : Type}.
Variable eqb : K -> K -> bool.
Hypothesis eqb_eq : forall a b, eqb a b = true <-> a = b.

Lemma eqb_refl k : eqb k k = true.
Proof. apply eqb_eq. reflexivity. Qed.

Lemma eqb_neq a b : a <> b -> eqb a b = false.
Proof.
  intros N. destruct (eqb a b) eqn:E; [| reflexivity].
  apply eqb_eq in E. contradiction.
Qed.

Lemma get_None (k : K) (m : JSMap.t (V := V)) :
  JSMap.get eqb k m = None <-> ~ In k (JSMap.keys m).
Proof.
  induction m as [| [k' v] m IH]; simpl; [tauto |].
  destruct (eqb k k') eqn:E.
  - apply eqb_eq in E. subst. split; [discriminate | intros N; exfalso; auto].
  - rewrite IH. split.
    + intros N [H | H]; [subst; rewrite eqb_refl in E; discriminate | auto].
    + intros N H. apply N. auto.
Qed.

Lemma get_set_same k (v : V) m : JSMap.get eqb k (JSMap.set eqb k v m) = Some v.
Proof.
  induction m as [| [k' v'] m IH]; simpl.
  - rewrite eqb_refl. reflexivity.
  - destruct (eqb k k') eqn:E; simpl; [rewrite eqb_refl | rewrite E]; auto.
Qed.

Lemma get_set_other k k' (v : V) m :
  k <> k' -> JSMap.get eqb k (JSMap.set eqb k' v m) = JSMap.get eqb k m.
Proof.
  intros N. induction m as [| [k0 v0] m IH]; simpl.
  - rewrite (eqb_neq _ _ N). reflexivity.
  - destruct (eqb k' k0) eqn:E; simpl.
    + apply eqb_eq in E. subst k0. rewrite (eqb_neq _ _ N). reflexivity.
    + destruct (eqb k k0); auto.
Qed.

Lemma keys_set_present k (v : V) m :
  In k (JSMap.keys m) -> JSMap.keys (JSMap.set eqb k v m) = JSMap.keys m.
Proof.
  induction m as [| [k' v'] m IH]; simpl; [tauto |].
  intros H. destruct (eqb k k') eqn:E; simpl.
  - apply eqb_eq in E. congruence.
  - f_equal. apply IH. destruct H as [H | H]; [| exact H].
    subst. rewrite eqb_refl in E. discriminate.
Qed.

Lemma keys_set_absent k (v : V) m :
  ~ In k (JSMap.keys m) -> JSMap.set eqb k v m = m ++ [(k, v)].
Proof.
  induction m as [| [k' v'] m IH]; simpl; [reflexivity |].
  intros N. rewrite eqb_neq by (intros ->; auto).
  f_equal. apply IH. auto.
Qed.

Lemma get_Some_In k (v : V) m : JSMap.get eqb k m = Some v -> In k (JSMap.keys m).
Proof.
  induction m as [| [k' v'] m IH]; simpl; [discriminate |].
  destruct (eqb k k') eqn:E; [apply eqb_eq in E; auto | auto].
Qed.

Lemma NoDup_keys_set k (v : V) m :
  NoDup (JSMap.keys m) -> NoDup (JSMap.keys (JSMap.set eqb k v m)).
Proof.
  intros H. destruct (JSMap.get eqb k m) as [v' |] eqn:G;
    [apply get_Some_In in G; rename G into I | apply get_None in G; rename G into I].
  - rewrite keys_set_present; assumption.
  - rewrite keys_set_absent by assumption. unfold JSMap.keys in *.
    rewrite map_app. simpl. apply NoDup_app; auto.
    + constructor; [simpl; tauto | constructor].
    + intros a Ha [<- | []]. exact (I Ha).
Qed.

Lemma delete_head k (v : V) m : JSMap.delete eqb k ((k, v) :: m) = m.
Proof. simpl. rewrite eqb_refl. reflexivity. Qed.

Lemma In_keys_delete k k' (m : JSMap.t (V := V)) :
  In k (JSMap.keys (JSMap.delete eqb k' m)) -> In k (JSMap.keys m).
Proof.
  induction m as [| [k0 v0] m IH]; simpl; [tauto |].
  destruct (eqb k' k0); simpl; tauto.
Qed.

Lemma NoDup_keys_delete k (m : JSMap.t (V := V)) :
  NoDup (JSMap.keys m) -> NoDup (JSMap.keys (JSMap.delete eqb k m)).
Proof.
  induction m as [| [k0 v0] m IH]; simpl; [auto |].
  intros H. inversion H as [| ? ? Hn Hd]; subst.
  destruct (eqb k k0); simpl; [assumption |].
  constructor; [| auto]. intros I. apply Hn. eapply In_keys_delete. exact I.
Qed.

Lemma get_delete_same k (m : JSMap.t (V := V)) :
  NoDup (JSMap.keys m) -> JSMap.get eqb k (JSMap.delete eqb k m) = None.
Proof.
  induction m as [| [k0 v0] m IH]; simpl; [reflexivity |].
  intros H. inversion H as [| ? ? Hn Hd]; subst.
  destruct (eqb k k0) eqn:E; simpl.
  - apply eqb_eq in E. subst. apply get_None. exact Hn.
  - rewrite E. auto.
Qed.

Lemma get_delete_None k k' (m : JSMap.t (V := V)) :
  JSMap.get eqb k m = None -> JSMap.get eqb k (JSMap.delete eqb k' m) = None.
Proof.
  rewrite !get_None. intros N I. apply N. eapply In_keys_delete. exact I.
Qed.

End JSMapFacts.

(** ** The deployment queue *)

Section QueueFacts.
Import JS WebhookConfig.

Variable config : WebhookConfig.
Variable fetch : FetchRequest -> outcome FetchResponse.

Lemma Environment_eqb_eq a b : Environment_eqb a b = true <-> a = b.
Proof. destruct a, b; simpl; split; congruence. Qed.

Lemma timer_delay_pos d : 1 <= timer_delay d.
Proof.
  unfold timer_delay.
  destruct ((1 <=? d) && (d <=? 2147483647)) eqn:E; [| lia].
  apply andb_true_iff in E. destruct E as [E _]. apply Z.leb_le in E. exact E.
Qed.

Lemma timers_of_schedule environment t l :
  timeout_environment t = environment ->
  timers_of environment l = [] ->
  timers_of environment (schedule t l) = [t].
Proof.
  intros Ht. unfold timers_of.
  induction l as [| t' l IH]; simpl.
  - intros _. rewrite Ht, (proj2 (Environment_eqb_eq _ _) eq_refl). reflexivity.
  - destruct (Environment_eqb (timeout_environment t') environment) eqn:E;
      [discriminate |].
    intros H. destruct (expiry t <? expiry t'); simpl.
    + rewrite Ht, (proj2 (Environment_eqb_eq _ _) eq_refl), E. f_equal. exact H.
    + rewrite E. auto.
Qed.

Lemma timers_of_clearTimeout environment h l :
  (forall t, In t l -> timeout_environment t = environment -> handle t = h) ->
  timers_of environment (clearTimeout h l) = [].
Proof.
  unfold timers_of, clearTimeout. intros H.
  induction l as [| t l IH]; simpl; [reflexivity |].
  destruct (Nat.eqb (handle t) h) eqn:E; simpl.
  - apply IH. intros t' I. apply H. right. exact I.
  - destruct (Environment_eqb (timeout_environment t) environment) eqn:Ee.
    + apply Environment_eqb_eq in Ee. rewrite (H t (or_introl eq_refl) Ee) in E.
      rewrite Nat.eqb_refl in E. discriminate.
    + apply IH. intros t' I. apply H. right. exact I.
Qed.

Lemma timers_of_nil_iff environment l :
  timers_of environment l = [] <->
  (forall t, In t l -> timeout_environment t <> environment).
Proof.
  unfold timers_of. induction l as [| t l IH]; simpl; [tauto |].
  destruct (Environment_eqb (timeout_environment t) environment) eqn:E.
  - apply Environment_eqb_eq in E. split; [discriminate |].
    intros H. exfalso. exact (H t (or_introl eq_refl) E).
  - rewrite IH. split.
    + intros H t' [<- | I]; [| auto].
      intros X. apply Environment_eqb_eq in X. congruence.
    + intros H t' I. apply H. right. exact I.
Qed.

Lemma timers_of_filter environment p l :
  timers_of environment (filter p l) = filter p (timers_of environment l).
Proof.
  unfold timers_of. induction l as [| t l IH]; simpl; [reflexivity |].
  destruct (p t) eqn:Ep, (Environment_eqb (timeout_environment t) environment) eqn:Ee;
    simpl; rewrite ?Ep, ?Ee, IH; reflexivity.
Qed.

(** What a run of due timers leaves behind. *)
Lemma fold_fire due s :
  let s' := fold_left (fire config fetch) due s in
  now s' = now s
  /\ next_handle s' = next_handle s
  /\ timers s' = timers s
  /\ deploymentQueue s' = deploymentQueue s
  /\ suspended s' =
     suspended s ++
     map (fun t => mkSuspended (timeout_environment t)
                     (fst (triggerDeploy config fetch (expiry t) (timeout_environment t)
                                         (Some (timeout_reason t))))) due
  /\ invocations s' =
     invocations s ++ map (fun t => (timeout_environment t, timeout_reason t)) due.
Proof.
  revert s. induction due as [| t due IH]; intros s; cbn [fold_left map].
  - rewrite !app_nil_r. repeat split; reflexivity.
  - specialize (IH (fire config fetch s t)). cbv zeta in IH.
    destruct IH as (H1 & H2 & H3 & H4 & H5 & H6).
    rewrite H1, H2, H3, H4, H5, H6. cbn [fire now next_handle timers deploymentQueue
                                          suspended invocations].
    rewrite <- !app_assoc. repeat split; reflexivity.
Qed.

Lemma calls_of_app environment a b :
  calls_of environment (a ++ b) = calls_of environment a ++ calls_of environment b.
Proof. apply filter_app. Qed.

Lemma calls_of_fired environment l :
  calls_of environment (map (fun t => (timeout_environment t, timeout_reason t)) l)
  = map (fun t => (timeout_environment t, timeout_reason t)) (timers_of environment l).
Proof.
  unfold calls_of, timers_of. induction l as [| t l IH]; simpl; [reflexivity |].
  destruct (Environment_eqb (timeout_environment t) environment); simpl; rewrite IH;
    reflexivity.
Qed.

(** Resuming callbacks only deletes entries of the queue map. *)
Lemma fold_resume_queue l s :
  deploymentQueue (fold_left resume l s) =
  fold_left (fun q c => match suspended_result c with
                        | Return _ => JSMap.delete Environment_eqb (suspended_environment c) q
                        | Throw _ => q
                        end) l (deploymentQueue s).
Proof.
  revert s. induction l as [| c l IH]; intros s; cbn [fold_left]; [reflexivity |].
  rewrite IH. unfold resume. destruct (suspended_result c); reflexivity.
Qed.

Lemma fold_delete_None environment l (q : JSMap.t (K := Environment) (V := nat)) :
  JSMap.get Environment_eqb environment q = None ->
  JSMap.get Environment_eqb environment
    (fold_left (fun q c => match suspended_result c with
                           | Return _ => JSMap.delete Environment_eqb (suspended_environment c) q
                           | Throw _ => q
                           end) l q) = None.
Proof.
  revert q. induction l as [| c l IH]; intros q H; cbn [fold_left]; [exact H |].
  apply IH. destruct (suspended_result c); [| exact H].
  apply (get_delete_None _ Environment_eqb_eq). exact H.
Qed.

Lemma fold_delete_fulfilled environment l (q : JSMap.t (K := Environment) (V := nat)) :
  NoDup (JSMap.keys q) ->
  (exists c r, In c l /\ suspended_environment c = environment
               /\ suspended_result c = Return r) ->
  JSMap.get Environment_eqb environment
    (fold_left (fun q c => match suspended_result c with
                           | Return _ => JSMap.delete Environment_eqb (suspended_environment c) q
                           | Throw _ => q
                           end) l q) = None.
Proof.
  revert q. induction l as [| c l IH]; intros q Hq (c0 & r & I & He & Hr);
    [destruct I |].
  cbn [fold_left]. destruct I as [<- | I].
  - rewrite Hr, He. apply fold_delete_None.
    apply (get_delete_same _ Environment_eqb_eq). exact Hq.
  - apply IH; [| exists c0, r; auto].
    destruct (suspended_result c); [| exact Hq].
    apply NoDup_keys_delete. exact Hq.
Qed.

Lemma advance_effect dt s :
  let s' := advance config fetch dt s in
  let due := filter (fun t => expiry t <=? now s + dt) (timers s) in
  now s' = now s + dt
  /\ next_handle s' = next_handle s
  /\ timers s' = filter (fun t => negb (expiry t <=? now s + dt)) (timers s)
  /\ deploymentQueue s' = deploymentQueue s
  /\ suspended s' =
     suspended s ++
     map (fun t => mkSuspended (timeout_environment t)
                     (fst (triggerDeploy config fetch (expiry t) (timeout_environment t)
                                         (Some (timeout_reason t))))) due
  /\ invocations s' =
     invocations s ++ map (fun t => (timeout_environment t, timeout_reason t)) due.
Proof.
  intros s' due. subst s'. unfold advance. fold due.
  match goal with |- context [fold_left _ due ?s0] => pose proof (fold_fire due s0) as H end.
  cbv zeta in H. exact H.
Qed.


(** After [queueDeployment] the only pending timer of the environment is
    the new one, provided the queue was consistent. *)
Lemma queueDeployment_replaces environment reason delayMs s :
  queue_consistent environment s ->
  let s' := queueDeployment environment reason delayMs s in
  timers_of environment (timers s') =
    [mkTimeout (next_handle s) (now s + delay_of delayMs) environment reason]
  /\ deploymentQueue s' =
     JSMap.set Environment_eqb environment (next_handle s) (deploymentQueue s)
  /\ now s' = now s /\ next_handle s' = S (next_handle s)
  /\ invocations s' = invocations s /\ suspended s' = suspended s.
Proof.
  intros [_ Hreg] s'. subst s'. unfold queueDeployment, delay_of.
  cbn [timers deploymentQueue now next_handle invocations suspended handle].
  split; [| repeat split; reflexivity].
  apply timers_of_schedule; [reflexivity |].
  destruct (JSMap.get Environment_eqb environment (deploymentQueue s)) as [h |] eqn:G.
  - apply timers_of_clearTimeout. intros t I E.
    specialize (Hreg t I E). congruence.
  - apply timers_of_nil_iff. intros t I E.
    specialize (Hreg t I E). congruence.
Qed.


End QueueFacts.


(** The same run, evaluated: one request reaches the hook, carrying the
    second reason. *)
Example queueDeployment_twice_trace :
  let config := WebhookConfig.WEBHOOK_CONFIG None None (Some "https://hooks.example/deploy") None in
  let fetch := fun _ : WebhookConfig.FetchRequest =>
    JS.Throw (JS.ErrorObj "TypeError" "fetch failed") in
  let s4 :=
    WebhookConfig.advance config fetch 1000
      (WebhookConfig.queueDeployment WebhookConfig.Staging "second" (Some 1000)
         (WebhookConfig.advance config fetch 999
            (WebhookConfig.queueDeployment WebhookConfig.Staging "first" (Some 1000)
               (WebhookConfig.initial 0)))) in
  WebhookConfig.invocations s4 = [(WebhookConfig.Staging, "second")]
  /\ WebhookConfig.requests s4 =
     [WebhookConfig.mkFetch "https://hooks.example/deploy" "POST" "application/json"
        (WebhookConfig.mkBody "second" 1999 WebhookConfig.Staging)]
  /\ WebhookConfig.deploymentQueue s4 = [(WebhookConfig.Staging, 1%nat)]
  /\ WebhookConfig.deploymentQueue (WebhookConfig.settle s4) = [].
Proof. vm_compute. repeat split; reflexivity. Qed.

(** Once the first delay has elapsed both timers fire. *)
Example queueDeployment_after_delay_trace :
  let config := WebhookConfig.WEBHOOK_CONFIG None None None None in
  let fetch := fun _ : WebhookConfig.FetchRequest =>
    JS.Throw (JS.ErrorObj "TypeError" "fetch failed") in
  WebhookConfig.invocations
    (WebhookConfig.advance config fetch 1000
       (WebhookConfig.queueDeployment WebhookConfig.Staging "second" (Some 1000)
          (WebhookConfig.advance config fetch 1000
             (WebhookConfig.queueDeployment WebhookConfig.Staging "first" (Some 1000)
                (WebhookConfig.initial 0)))))
  = [(WebhookConfig.Staging, "first"); (WebhookConfig.Staging, "second")].
Proof. vm_compute. reflexivity. Qed.

(** ** The deployment monitor *)

Section MonitorFacts.
Import JS DeploymentMonitor.

Lemma string_eqb_eq a b : String.eqb a b = true <-> a = b.
Proof. apply String.eqb_eq. Qed.

Lemma mem_In id ids : mem id ids = true <-> In id ids.
Proof.
  unfold mem. rewrite existsb_exists. split.
  - intros [x [I E]]. apply String.eqb_eq in E. subst. exact I.
  - intros I. exists id. split; [exact I | apply String.eqb_refl].
Qed.

Lemma size_keys (m : Monitor) : JSMap.size m = List.length (JSMap.keys m).
Proof. unfold JSMap.size, JSMap.keys. symmetry. apply length_map. Qed.

Lemma tl_map_fst (m : Monitor) : map fst (tl m) = tl (map fst m).
Proof. destruct m; reflexivity. Qed.

(** Eviction removes the head of the map. *)
Lemma updateDeployment_unfold now deployment m :
  updateDeployment now deployment m =
  let deployments :=
    JSMap.set String.eqb (u_id deployment)
              (merge now deployment (JSMap.get String.eqb (u_id deployment) m)) m in
  if (50 <? List.length deployments)%nat then tl deployments else deployments.
Proof.
  unfold updateDeployment, maxHistory, JSMap.size. cbv zeta.
  destruct (JSMap.set _ _ _ _) as [| [k v] rest]; [reflexivity |].
  cbn [JSMap.keys map fst tl]. rewrite (delete_head _ string_eqb_eq). reflexivity.
Qed.

Lemma get_app_absent k (a b : Monitor) :
  ~ In k (JSMap.keys a) -> JSMap.get String.eqb k (a ++ b) = JSMap.get String.eqb k b.
Proof.
  induction a as [| [k' v] a IH]; simpl; [reflexivity |].
  intros N. destruct (String.eqb_spec k k') as [-> | _]; [exfalso; auto | auto].
Qed.

(** The keys after a write: unchanged for an id that is present, the id
    appended and the oldest key dropped beyond 50 entries otherwise. *)
Lemma keys_updateDeployment now deployment m :
  (JSMap.size m <= 50)%nat ->
  JSMap.keys (updateDeployment now deployment m) =
  if mem (u_id deployment) (JSMap.keys m) then JSMap.keys m
  else if (50 <? S (JSMap.size m))%nat then tl (JSMap.keys m ++ [u_id deployment])
       else JSMap.keys m ++ [u_id deployment].
Proof.
  intros Hsize. rewrite updateDeployment_unfold. cbv zeta.
  destruct (mem (u_id deployment) (JSMap.keys m)) eqn:E.
  - apply mem_In in E.
    pose proof (keys_set_present _ string_eqb_eq (u_id deployment)
                  (merge now deployment (JSMap.get String.eqb (u_id deployment) m)) m E) as K.
    assert (L : List.length (JSMap.set String.eqb (u_id deployment)
                  (merge now deployment (JSMap.get String.eqb (u_id deployment) m)) m)
                = JSMap.size m).
    { rewrite size_keys, <- K. unfold JSMap.keys. symmetry. apply length_map. }
    rewrite L. destruct (Nat.ltb_spec 50 (JSMap.size m)); [lia | exact K].
  - assert (N : ~ In (u_id deployment) (JSMap.keys m))
      by (intros I; apply mem_In in I; congruence).
    rewrite (keys_set_absent _ string_eqb_eq _ _ _ N).
    rewrite length_app. cbn [List.length]. rewrite Nat.add_1_r. fold (JSMap.size m).
    destruct (50 <? S (JSMap.size m))%nat.
    + unfold JSMap.keys. rewrite tl_map_fst, map_app. reflexivity.
    + unfold JSMap.keys. rewrite map_app. reflexivity.
Qed.

(** The record written by [updateDeployment] is the one read back. *)
Lemma getDeployment_updateDeployment now deployment m :
  (JSMap.size m <= 50)%nat ->
  getDeployment (u_id deployment) (updateDeployment now deployment m) =
  Some (merge now deployment (getDeployment (u_id deployment) m)).
Proof.
  intros Hsize. unfold getDeployment. rewrite updateDeployment_unfold. cbv zeta.
  set (updated := merge now deployment (JSMap.get String.eqb (u_id deployment) m)).
  destruct (JSMap.get String.eqb (u_id deployment) m) as [d |] eqn:G.
  - apply (get_Some_In _ string_eqb_eq) in G.
    pose proof (keys_set_present _ string_eqb_eq (u_id deployment) updated m G) as K.
    assert (L : List.length (JSMap.set String.eqb (u_id deployment) updated m)
                = JSMap.size m).
    { rewrite size_keys, <- K. unfold JSMap.keys. symmetry. apply length_map. }
    rewrite L. destruct (Nat.ltb_spec 50 (JSMap.size m)); [lia |].
    apply (get_set_same _ string_eqb_eq).
  - apply (get_None _ string_eqb_eq) in G.
    rewrite (keys_set_absent _ string_eqb_eq _ _ _ G).
    assert (Last : forall a : Monitor, ~ In (u_id deployment) (JSMap.keys a) ->
              JSMap.get String.eqb (u_id deployment) (a ++ [(u_id deployment, updated)])
              = Some updated).
    { intros a N. rewrite (get_app_absent _ _ _ N). simpl.
      rewrite String.eqb_refl. reflexivity. }
    destruct (50 <? _)%nat eqn:Full; [| apply Last; exact G].
    destruct m as [| [k v] m0]; cbn [app tl].
    + discriminate Full.
    + apply Last. intros I. apply G. right. exact I.
Qed.

Lemma In_set k (v : DeploymentStatus) (m : Monitor) x :
  In x (JSMap.set String.eqb k v m) -> x = (k, v) \/ In x m.
Proof.
  induction m as [| [k' v'] m IH]; simpl; [intros [H | []]; auto |].
  destruct (String.eqb k k'); simpl; intuition.
Qed.

Lemma merge_stored now deployment existing :
  buildLogs (merge now deployment existing) <> None
  /\ truthy_date (createdAt (merge now deployment existing)) = true.
Proof.
  unfold merge. cbn [buildLogs createdAt]. split.
  - destruct (u_buildLogs deployment), (opt_field existing buildLogs); discriminate.
  - destruct (u_createdAt deployment) as [c |] eqn:Ec; cbn [or_date].
    + destruct (truthy_date c) eqn:Tc; cbn [or_date]; [rewrite Tc; exact Tc |].
      destruct existing as [d |]; cbn [opt_field or_date default]; [| reflexivity].
      destruct (truthy_date (createdAt d)) eqn:Td; cbn [default]; [exact Td | reflexivity].
    + destruct existing as [d |]; cbn [opt_field or_date default]; [| reflexivity].
      destruct (truthy_date (createdAt d)) eqn:Td; cbn [default]; [exact Td | reflexivity].
Qed.

Lemma NoDup_tl {A} (l : list A) : NoDup l -> NoDup (tl l).
Proof. destruct l; [auto |]. intros H. inversion H. assumption. Qed.

Lemma In_tl {A} (x : A) l : In x (tl l) -> In x l.
Proof. destruct l; simpl; auto. Qed.

(** The ledger keeps its shape under every write. *)
Lemma stored_updateDeployment now deployment m :
  stored m -> stored (updateDeployment now deployment m).
Proof.
  intros (Hsize & Hnd & Hrec).
  assert (K := keys_updateDeployment now deployment m Hsize).
  split; [| split].
  - rewrite size_keys, K.
    destruct (mem _ _); [rewrite <- size_keys; exact Hsize |].
    destruct (Nat.ltb_spec 50 (S (JSMap.size m))).
    + destruct (JSMap.keys m ++ [u_id deployment]) eqn:E; cbn [tl List.length]; [lia |].
      apply (f_equal (@List.length _)) in E. rewrite length_app, <- size_keys in E.
      cbn [List.length] in E. lia.
    + rewrite length_app, <- size_keys. cbn [List.length]. lia.
  - rewrite K. destruct (mem _ _) eqn:E; [exact Hnd |].
    assert (N : NoDup (JSMap.keys m ++ [u_id deployment])).
    { apply NoDup_app; [exact Hnd | constructor; [simpl; tauto | constructor] |].
      intros a Ha [<- | []]. apply mem_In in Ha. congruence. }
    destruct (50 <? _)%nat; [apply NoDup_tl |]; exact N.
  - intros k d I. rewrite updateDeployment_unfold in I. cbv zeta in I.
    assert (I' : In (k, d) (JSMap.set String.eqb (u_id deployment)
                   (merge now deployment (JSMap.get String.eqb (u_id deployment) m)) m))
      by (clear K; destruct (50 <? _)%nat; [apply In_tl |]; exact I).
    apply In_set in I'. destruct I' as [E | I'].
    + injection E as _ ->. apply merge_stored.
    + exact (Hrec k d I').
Qed.

Lemma stored_apply m op : stored m -> stored (apply m op).
Proof.
  intros H. destruct op; cbn [apply];
    try (unfold startDeployment, markBuilding, markReady, markFailed;
         apply stored_updateDeployment; exact H).
  unfold clearHistory. split; [simpl; lia | split; [constructor | intros k d []]].
Qed.

Lemma stored_run ops m : stored m -> stored (run ops m).
Proof.
  unfold run. revert m. induction ops as [| op ops IH]; intros m H; cbn [fold_left];
    [exact H |].
  apply IH, stored_apply, H.
Qed.

Lemma stored_empty : stored empty.
Proof. split; [simpl; lia | split; [constructor | intros k d []]]. Qed.

(** Every operation that writes is an [updateDeployment] on its id. *)
Lemma apply_is_update m op id :
  op_id op = Some id ->
  exists now deployment, u_id deployment = id /\ apply m op = updateDeployment now deployment m.
Proof.
  destruct op; cbn [op_id apply]; intros E; try discriminate; injection E as <-;
    unfold startDeployment, markBuilding, markReady, markFailed;
    eexists _, _; (split; [| reflexivity]); reflexivity.
Qed.

Lemma skipn_S_tl {A} k (l : list A) : skipn (S k) l = tl (skipn k l).
Proof.
  revert l. induction k as [| k IH]; intros l; [destruct l; reflexivity |].
  destruct l as [| x l]; [reflexivity |].
  change (skipn (S (S k)) (x :: l)) with (skipn (S k) l).
  change (skipn (S k) (x :: l)) with (skipn k l). apply IH.
Qed.

Lemma In_skipn {A} (x : A) k l : In x (skipn k l) -> In x l.
Proof.
  intros I. rewrite <- (firstn_skipn k l). apply in_or_app. right. exact I.
Qed.

Lemma last_inserted_size seen m : last_inserted seen m -> (JSMap.size m <= 50)%nat.
Proof.
  intros [_ K]. rewrite size_keys, K, length_skipn. lia.
Qed.

(** One admissible operation keeps the ledger on the last 50 ids. *)
Lemma last_inserted_step seen m op id :
  last_inserted seen m ->
  op_id op = Some id ->
  mem id (JSMap.keys m) || negb (mem id seen) = true ->
  last_inserted (note seen id) (apply m op).
Proof.
  intros J Hop Hadm.
  pose proof (last_inserted_size _ _ J) as Hsize.
  destruct J as [Hnd K].
  destruct (apply_is_update m op id Hop) as (now & deployment & Hid & ->).
  pose proof (keys_updateDeployment now deployment m Hsize) as K'.
  rewrite Hid in K'. unfold note.
  destruct (mem id (JSMap.keys m)) eqn:Ek.
  - assert (Es : mem id seen = true).
    { apply mem_In. apply mem_In in Ek. rewrite K in Ek. eapply In_skipn. exact Ek. }
    rewrite Es. split; [exact Hnd | congruence].
  - cbn [orb] in Hadm. apply negb_true_iff in Hadm. rewrite Hadm.
    assert (Hfresh : ~ In id seen) by (intros I; apply mem_In in I; congruence).
    split.
    + apply NoDup_app; [exact Hnd | constructor; [simpl; tauto | constructor] |].
      intros a Ha [<- | []]. exact (Hfresh Ha).
    + rewrite K', length_app. cbn [List.length].
      assert (Sz : JSMap.size m = (List.length seen - (List.length seen - 50))%nat)
        by (rewrite size_keys, K, length_skipn; reflexivity).
      destruct (Nat.ltb_spec 50 (S (JSMap.size m))) as [Full | NotFull].
      * replace (List.length seen + 1 - 50)%nat with (S (List.length seen - 50)) by lia.
        rewrite skipn_S_tl, skipn_app, K.
        replace (List.length seen - 50 - List.length seen)%nat with 0%nat by lia.
        reflexivity.
      * replace (List.length seen + 1 - 50)%nat with 0%nat by lia.
        rewrite K. replace (List.length seen - 50)%nat with 0%nat by lia.
        reflexivity.
Qed.

Lemma last_inserted_run ops seen m :
  last_inserted seen m ->
  inserts_and_updates seen m ops = true ->
  last_inserted (inserted seen ops) (run ops m).
Proof.
  unfold run. revert seen m.
  induction ops as [| op ops IH]; intros seen m J H; cbn [inserted fold_left]; [exact J |].
  cbn [inserts_and_updates] in H.
  destruct (op_id op) as [id |] eqn:Hop; [| discriminate].
  apply andb_true_iff in H. destruct H as [Hadm Hrest].
  apply IH; [| exact Hrest].
  apply last_inserted_step; assumption.
Qed.

(** C4. The ledger never holds more than 50 entries, whatever is called;
    and when every call either inserts a new id or updates one that is in
    the ledger, after 51 distinct ids the ledger holds exactly the 50 last
    ones in insertion order: the first id inserted is the one evicted. *)
Theorem history_bound :
  (forall ops, (JSMap.size (run ops empty) <= 50)%nat)
  /\ (forall ops first,
        inserts_and_updates [] empty ops = true ->
        List.length (inserted [] ops) = 51%nat ->
        hd_error (inserted [] ops) = Some first ->
        JSMap.size (run ops empty) = 50%nat
        /\ JSMap.keys (run ops empty) = tl (inserted [] ops)
        /\ getDeployment first (run ops empty) = None).
Proof.
  split.
  - intros ops. apply (stored_run ops empty stored_empty).
  - intros ops first Hadm Hlen Hfirst.
    assert (J : last_inserted (inserted [] ops) (run ops empty)).
    { apply last_inserted_run; [| exact Hadm].
      split; [constructor | reflexivity]. }
    destruct J as [Hnd K]. rewrite Hlen in K. cbn [Nat.sub] in K.
    rewrite (skipn_S_tl 0) in K. cbn [skipn] in K.
    split; [| split; [exact K |]].
    + rewrite size_keys, K.
      destruct (inserted [] ops) as [| x l]; [discriminate |].
      cbn [tl List.length] in *. lia.
    + unfold getDeployment. apply (get_None _ string_eqb_eq). rewrite K.
      destruct (inserted [] ops) as [| x l]; [discriminate |].
      cbn [hd_error tl] in *. injection Hfirst as <-.
      inversion Hnd. assumption.
Qed.

Lemma get_Some_In_pair k d (m : Monitor) :
  JSMap.get String.eqb k m = Some d -> In (k, d) m.
Proof.
  induction m as [| [k' v] m IH]; simpl; [discriminate |].
  destruct (String.eqb_spec k k') as [-> | _]; [intros [= ->]; auto | auto].
Qed.

Lemma stored_size m : stored m -> (JSMap.size m <= 50)%nat.
Proof. intros H. apply H. Qed.

(** C5 (amended). After [startDeployment(id, "staging")] and
    [markReady(id, url, t)] with a build time [t] that is not zero (so with
    5000), the record is ready with duration [t]. When [markReady] or
    [markFailed] is called without a build time on a record whose creation
    date is an instant, the stored duration is the time elapsed since then
    if that is not zero; an elapsed time of zero leaves the duration as it
    was. *)
Theorem markReady_duration m id :
  stored m ->
  (forall t1 t2 t2' url buildTime,
     truthy_number buildTime = true ->
     exists d,
       getDeployment id (markReady t2 t2' id url (Some buildTime)
                           (startDeployment t1 id Staging m)) = Some d
       /\ status d = Ready /\ duration d = Some buildTime)
  /\ (forall d c now now' url error logs,
        getDeployment id m = Some d ->
        createdAt d = ISO c ->
        exists r f,
          getDeployment id (markReady now now' id url None m) = Some r
          /\ getDeployment id (markFailed now now' id error logs m) = Some f
          /\ status r = Ready /\ status f = Error
          /\ (now <> c ->
              duration r = Some (Num (now - c)) /\ duration f = Some (Num (now - c)))
          /\ (now = c -> duration r = duration d /\ duration f = duration d)).
Proof.
  intros Hm. split.
  - intros t1 t2 t2' url buildTime Ht.
    pose proof (stored_updateDeployment t1
                  (mkUpdate id (Some Staging) (Some Pending) None None None None None None)
                  m Hm) as H1.
    unfold markReady. fold (startDeployment t1 id Staging m) in H1.
    eexists. split.
    + apply (getDeployment_updateDeployment t2'
               (mkUpdate id None (Some Ready) url None None _ None None)).
      apply stored_size, H1.
    + unfold merge, or_number.
      cbn [status duration u_status u_duration or_else default truthy_opt_number].
      rewrite Ht. cbn [u_duration truthy_opt_number]. rewrite Ht.
      split; reflexivity.
  - intros d c now now' url error logs Hd Hc.
    unfold markReady, markFailed. rewrite Hd.
    unfold elapsed. rewrite Hc. cbn [truthy_date getTime sub_number].
    eexists _, _. split; [| split].
    + apply (getDeployment_updateDeployment now'
               (mkUpdate id None (Some Ready) url None None _ None None)).
      apply stored_size, Hm.
    + apply (getDeployment_updateDeployment now'
               (mkUpdate id None (Some Error) None None None _ (Some error) logs)).
      apply stored_size, Hm.
    + cbn [u_id]. rewrite Hd. unfold merge.
      cbn [status duration u_status u_duration or_else default opt_field].
      split; [reflexivity |]. split; [reflexivity |].
      unfold or_number. cbn [truthy_opt_number truthy_number].
      split.
      * intros N. replace (now - c =? 0) with false by (symmetry; apply Z.eqb_neq; lia).
        split; reflexivity.
      * intros ->. rewrite Z.sub_diag. split; reflexivity.
Qed.

(** The run behind the next statement: started and marked ready in the
    same millisecond, the record has no duration. *)
Example markReady_same_millisecond :
  getDeployment "dpl_1"
    (markReady 1000 1000 "dpl_1" (Some "https://x") None
       (startDeployment 1000 "dpl_1" Staging empty))
  = Some (mkDeployment "dpl_1" Staging Ready (Some "https://x") (ISO 1000) (ISO 1000)
            None None (Some [])).
Proof. reflexivity. Qed.

(** C5, the elapsed-time part as stated does not hold: a [markReady] in the
    millisecond of the record's creation computes an elapsed time of 0,
    which is falsy, and the stored duration stays undefined. *)
Theorem duration_is_elapsed_fails : ~ duration_is_elapsed.
Proof.
  intros H.
  destruct (H (startDeployment 1000 "dpl_1" Staging empty) "dpl_1"
              (mkDeployment "dpl_1" Staging Pending None (ISO 1000) (ISO 1000) None None
                            (Some []))
              1000 1000 1000 (Some "https://x")
              (stored_updateDeployment _ _ _ stored_empty) eq_refl eq_refl)
    as (d' & Hget & Hdur).
  vm_compute in Hget. injection Hget as <-. discriminate Hdur.
Qed.


(** The run behind the next statement. *)
Example updateDeployment_overwrites_createdAt :
  getDeployment "dpl_1"
    (updateDeployment 2000
       (mkUpdate "dpl_1" None None None (Some (ISO 5)) None None None None)
       (startDeployment 1000 "dpl_1" Staging empty))
  = Some (mkDeployment "dpl_1" Staging Pending None (ISO 5) (ISO 2000) None None (Some [])).
Proof. reflexivity. Qed.


End MonitorFacts.

Lemma history_bound_witness :
  JSMap.keys (DeploymentMonitor.run (lifecycles 51) DeploymentMonitor.empty)
    = map deployment_id (seq 1 50)
  /\ DeploymentMonitor.getDeployment (deployment_id 0)
       (DeploymentMonitor.run (lifecycles 51) DeploymentMonitor.empty) = None.
Proof.
  destruct history_bound as [_ H].
  destruct (H (lifecycles 51) (deployment_id 0)) as (_ & K & G);
    [vm_compute; reflexivity | vm_compute; reflexivity | vm_compute; reflexivity |].
  split; [rewrite K; vm_compute; reflexivity | exact G].
Defined.

(** A 51st id written after updates of the 50 others evicts the first. *)
Example history_after_updates :
  JSMap.keys
    (DeploymentMonitor.run
       (lifecycles 50
        ++ [DeploymentMonitor.MarkBuilding 60 (deployment_id 0) None;
            DeploymentMonitor.StartDeployment 61 (deployment_id 50)
              DeploymentMonitor.Production])
       DeploymentMonitor.empty)
  = map deployment_id (seq 1 50).
Proof. vm_compute. reflexivity. Qed.

Lemma markReady_duration_witness :
  (exists d,
     DeploymentMonitor.getDeployment "dpl_1"
       (DeploymentMonitor.markReady 2000 2000 "dpl_1" (Some "https://x") (Some (JS.Num 5000))
          (DeploymentMonitor.startDeployment 1000 "dpl_1" DeploymentMonitor.Staging
             DeploymentMonitor.empty)) = Some d
     /\ DeploymentMonitor.status d = DeploymentMonitor.Ready
     /\ DeploymentMonitor.duration d = Some (JS.Num 5000))
  /\ (exists r,
        DeploymentMonitor.getDeployment "dpl_1"
          (DeploymentMonitor.markReady 4000 4001 "dpl_1" None None
             (DeploymentMonitor.startDeployment 1000 "dpl_1" DeploymentMonitor.Staging
                DeploymentMonitor.empty)) = Some r
        /\ DeploymentMonitor.duration r = Some (JS.Num 3000)).
Proof.
  split.
  - destruct (markReady_duration DeploymentMonitor.empty "dpl_1" stored_empty) as [H _].
    exact (H 1000 2000 2000 (Some "https://x") (JS.Num 5000) eq_refl).
  - destruct (markReady_duration
                (DeploymentMonitor.startDeployment 1000 "dpl_1" DeploymentMonitor.Staging
                   DeploymentMonitor.empty)
                "dpl_1" (stored_updateDeployment _ _ _ stored_empty)) as [_ H].
    destruct (H _ 1000 4000 4001 None "" None eq_refl eq_refl)
      as (r & f & Hr & _ & _ & _ & Hd & _).
    exists r. split; [exact Hr |].
    destruct (Hd ltac:(discriminate)) as [Hd' _]. exact Hd'.
Defined.


(** * Further properties of the modelled code *)

(** ** Batches and the dispatcher *)

Section BatchFacts.
Import JS Revalidation RevalidationBatch Route.

Variable next_revalidatePath next_revalidateTag : string -> option thrown.

Lemma batch_loop_spec ops errors m :
  batch_loop next_revalidatePath next_revalidateTag ops errors m =
  (errors ++ failures next_revalidatePath next_revalidateTag ops,
   mkManager (startTime m)
     (paths m ++ performed next_revalidatePath next_revalidateTag PathOp ops)
     (tags m ++ performed next_revalidatePath next_revalidateTag TagOp ops)).
Proof.
  revert errors m. induction ops as [| op ops IH]; intros errors m.
  - cbn. rewrite !app_nil_r. destruct m; reflexivity.
  - cbn [batch_loop]. unfold perform, failures, performed, answer.
    cbn [flat_map filter map].
    destruct op as [[|] value]; cbn [op_type op_value];
      unfold revalidatePath, revalidateTag.
    + destruct (next_revalidatePath value) as [e |]; rewrite IH;
        cbn [startTime paths tags map app];
        unfold failures, performed, answer; rewrite <- ?app_assoc; reflexivity.
    + destruct (next_revalidateTag value) as [e |]; rewrite IH;
        cbn [startTime paths tags map app];
        unfold failures, performed, answer; rewrite <- ?app_assoc; reflexivity.
Qed.

(** X1. [batchRevalidate] tries every operation: the manager records
    exactly the operations the cache layer performs, in order, and the call
    throws (one [Error] joining the messages) exactly when some operation
    failed. *)
Theorem batchRevalidate_collects ops m :
  batchRevalidate next_revalidatePath next_revalidateTag ops m =
  ((match failures next_revalidatePath next_revalidateTag ops with
    | [] => Return tt
    | errors => Throw (ErrorObj "Error" (String.concat "; " errors))
    end),
   mkManager (startTime m)
     (paths m ++ performed next_revalidatePath next_revalidateTag PathOp ops)
     (tags m ++ performed next_revalidatePath next_revalidateTag TagOp ops)).
Proof.
  unfold batchRevalidate. rewrite batch_loop_spec. cbn [app].
  destruct (failures next_revalidatePath next_revalidateTag ops); reflexivity.
Qed.

(** X2. [revalidateMultiplePaths] stops at the first path the cache layer
    refuses: the paths before it are recorded, its error is thrown, and the
    paths after it are not attempted. *)
Theorem revalidateMultiplePaths_stops targets m :
  revalidateMultiplePaths next_revalidatePath targets m =
  ((match first_refusal next_revalidatePath targets with
    | None => Return tt
    | Some e => Throw e
    end),
   mkManager (startTime m) (paths m ++ accepted_prefix next_revalidatePath targets) (tags m)).
Proof.
  unfold revalidateMultiplePaths. revert m.
  induction targets as [| target rest IH]; intros m; cbn [forEach accepted_prefix first_refusal].
  - unfold ret. rewrite app_nil_r. destruct m; reflexivity.
  - unfold seq_, revalidatePath at 1.
    destruct (next_revalidatePath target) as [e |].
    + rewrite app_nil_r. destruct m; reflexivity.
    + rewrite IH. cbn [startTime paths tags]. rewrite <- app_assoc. reflexivity.
Qed.

End BatchFacts.

Example batch_continues_after_failure :
  let rp := fun p : string => if String.eqb p "/b" then Some (JS.ErrorObj "Error" "boom") else None in
  RevalidationBatch.batchRevalidate rp cache_ok
    [RevalidationBatch.mkOperation RevalidationBatch.PathOp "/a";
     RevalidationBatch.mkOperation RevalidationBatch.PathOp "/b";
     RevalidationBatch.mkOperation RevalidationBatch.TagOp "t";
     RevalidationBatch.mkOperation RevalidationBatch.PathOp "/c"]
    (Revalidation.createRevalidationManager 0)
  = (JS.Throw (JS.ErrorObj "Error" "Failed to revalidate path /b: Error: boom"),
     Revalidation.mkManager 0 ["/a"; "/c"] ["t"])
  /\ RevalidationBatch.revalidateMultiplePaths rp ["/a"; "/b"; "/c"]
       (Revalidation.createRevalidationManager 0)
     = (JS.Throw (JS.ErrorObj "Error" "boom"), Revalidation.mkManager 0 ["/a"] []).
Proof. split; reflexivity. Qed.

Section DispatchMoreFacts.
Import JS Revalidation Route.

Variable next_revalidatePath next_revalidateTag : string -> option thrown.

Lemma accepted_prefix_all invalidate targets :
  first_refusal invalidate targets = None -> accepted_prefix invalidate targets = targets.
Proof.
  induction targets as [| t rest IH]; cbn; [reflexivity |].
  destruct (invalidate t); [discriminate |]. intros H. f_equal. auto.
Qed.

(** The path loop of a helper, run step by step. *)
Lemma paths_then targets (k : method unit) m :
  fold_right (fun t rest => seq_ (revalidatePath next_revalidatePath t) rest) k targets m =
  match first_refusal next_revalidatePath targets with
  | Some e =>
      (Throw e,
       mkManager (startTime m) (paths m ++ accepted_prefix next_revalidatePath targets)
                 (tags m))
  | None => k (mkManager (startTime m) (paths m ++ targets) (tags m))
  end.
Proof.
  revert m. induction targets as [| t rest IH]; intros m;
    cbn [fold_right first_refusal accepted_prefix].
  - rewrite app_nil_r. destruct m; reflexivity.
  - unfold seq_ at 1, revalidatePath at 1.
    destruct (next_revalidatePath t) as [e |].
    + rewrite app_nil_r. destruct m; reflexivity.
    + rewrite IH. cbn [startTime paths tags]. rewrite <- !app_assoc. reflexivity.
Qed.

(** X3. A post event is handled fail-fast: the result lists the paths
    invalidated before the first refusal of the cache layer and reports that
    error; the tag is invalidated, and the result a success, only when all
    the paths went through. *)
Theorem dispatch_post_fail_fast t_new t_get event d timestamp :
  type d = Some "post" ->
  handleRevalidation next_revalidatePath next_revalidateTag t_new t_get
    (mkPayload event (Some d) timestamp)
  = match first_refusal next_revalidatePath (post_targets (slug d)) with
    | Some e =>
        mkResult false (accepted_prefix next_revalidatePath (post_targets (slug d))) []
                 (Some (error_message e)) (t_get - t_new)
    | None =>
        match next_revalidateTag "blog-posts" with
        | Some e =>
            mkResult false (post_targets (slug d)) [] (Some (error_message e)) (t_get - t_new)
        | None => mkResult true (post_targets (slug d)) ["blog-posts"] None (t_get - t_new)
        end
    end.
Proof.
  intros Htype. unfold handleRevalidation. cbn [data]. rewrite Htype.
  cbn [is_type String.eqb Ascii.eqb Bool.eqb andb].
  assert (E : revalidateBlogPost next_revalidatePath next_revalidateTag (slug d) (action d) =
              fold_right (fun t rest => seq_ (revalidatePath next_revalidatePath t) rest)
                         (revalidateTag next_revalidateTag "blog-posts")
                         (post_targets (slug d))).
  { unfold revalidateBlogPost, post_targets, when.
    destruct (truthy_opt_string (slug d)); cbn [fold_right app]; [reflexivity |].
    unfold seq_ at 2, ret. reflexivity. }
  rewrite E, paths_then. unfold createRevalidationManager. cbn [startTime paths tags app].
  destruct (first_refusal next_revalidatePath (post_targets (slug d))); [reflexivity |].
  unfold revalidateTag. cbn [startTime paths tags app].
  destruct (next_revalidateTag "blog-posts"); reflexivity.
Qed.

(** X4. With a cache layer that performs the invalidations, a settings
    event invalidates the home page, the blog index and the three layout
    tags; a media event invalidates two tags and no path; a page event
    without a slug invalidates only the sitemap and the [pages] tag. *)
Theorem dispatch_settings_media_page t_new t_get event d timestamp :
  let result := handleRevalidation next_revalidatePath next_revalidateTag t_new t_get
                  (mkPayload event (Some d) timestamp) in
  (type d = Some "settings" ->
   accepts next_revalidatePath ["/"; "/blog"] ->
   accepts next_revalidateTag ["site-settings"; "layout"; "navigation"] ->
   result = mkResult true ["/"; "/blog"] ["site-settings"; "layout"; "navigation"] None
                     (t_get - t_new))
  /\ (type d = Some "media" ->
      accepts next_revalidateTag ["media"; "images"] ->
      result = mkResult true [] ["media"; "images"] None (t_get - t_new))
  /\ (type d = Some "page" ->
      truthy_opt_string (slug d) = false ->
      accepts next_revalidatePath ["/sitemap.xml"] ->
      accepts next_revalidateTag ["pages"] ->
      result = mkResult true ["/sitemap.xml"] ["pages"] None (t_get - t_new)).
Proof.
  intros result. subst result. unfold handleRevalidation. cbn [data].
  split; [| split].
  - intros -> Hp Ht. cbn [is_type String.eqb Ascii.eqb Bool.eqb andb].
    unfold revalidateGlobalSettings, createRevalidationManager, seq_, revalidatePath,
      revalidateTag.
    rewrite (Hp "/") by (simpl; tauto). cbn [startTime paths tags app].
    rewrite (Hp "/blog") by (simpl; tauto). cbn [startTime paths tags app].
    rewrite (Ht "site-settings") by (simpl; tauto). cbn [startTime paths tags app].
    rewrite (Ht "layout") by (simpl; tauto). cbn [startTime paths tags app].
    rewrite (Ht "navigation") by (simpl; tauto). reflexivity.
  - intros -> Ht. cbn [is_type String.eqb Ascii.eqb Bool.eqb andb].
    unfold revalidateMedia, createRevalidationManager, seq_, revalidateTag.
    rewrite (Ht "media") by (simpl; tauto). cbn [startTime paths tags app].
    rewrite (Ht "images") by (simpl; tauto). reflexivity.
  - intros -> Hs Hp Ht. cbn [is_type String.eqb Ascii.eqb Bool.eqb andb].
    unfold revalidatePage, createRevalidationManager.
    assert (E : match slug d with
                | Some s =>
                    if truthy_string s && negb (String.eqb s "home")
                    then revalidatePath next_revalidatePath (String.append "/" s)
                    else if String.eqb s "home"
                         then revalidatePath next_revalidatePath "/" else ret tt
                | None => ret tt
                end = ret tt).
    { destruct (slug d) as [s |]; [| reflexivity]. cbn [truthy_opt_string] in Hs.
      destruct s; [reflexivity | discriminate]. }
    rewrite E. unfold seq_, ret, revalidatePath, revalidateTag.
    rewrite (Hp "/sitemap.xml") by (simpl; tauto). cbn [startTime paths tags app].
    rewrite (Ht "pages") by (simpl; tauto). reflexivity.
Qed.

Lemma performed_only_path target m :
  performed_only next_revalidatePath next_revalidateTag m ->
  performed_only next_revalidatePath next_revalidateTag
    (snd (revalidatePath next_revalidatePath target m)).
Proof.
  intros [Hp Ht]. unfold revalidatePath.
  destruct (next_revalidatePath target) eqn:E; cbn [snd]; [split; assumption |].
  split; cbn [paths tags]; [| exact Ht].
  apply Forall_app. split; [exact Hp | constructor; [exact E | constructor]].
Qed.

Lemma performed_only_tag target m :
  performed_only next_revalidatePath next_revalidateTag m ->
  performed_only next_revalidatePath next_revalidateTag
    (snd (revalidateTag next_revalidateTag target m)).
Proof.
  intros [Hp Ht]. unfold revalidateTag.
  destruct (next_revalidateTag target) eqn:E; cbn [snd]; [split; assumption |].
  split; cbn [paths tags]; [exact Hp |].
  apply Forall_app. split; [exact Ht | constructor; [exact E | constructor]].
Qed.

Lemma performed_only_seq {A B} (f : method A) (g : method B) m :
  (forall m0, performed_only next_revalidatePath next_revalidateTag m0 ->
              performed_only next_revalidatePath next_revalidateTag (snd (f m0))) ->
  (forall m0, performed_only next_revalidatePath next_revalidateTag m0 ->
              performed_only next_revalidatePath next_revalidateTag (snd (g m0))) ->
  performed_only next_revalidatePath next_revalidateTag m ->
  performed_only next_revalidatePath next_revalidateTag (snd (seq_ f g m)).
Proof.
  intros Hf Hg Hm. unfold seq_. specialize (Hf m Hm).
  destruct (f m) as [[a | e] m']; cbn [snd] in *; [apply Hg; exact Hf | exact Hf].
Qed.

Ltac performed_step :=
  first [ apply performed_only_seq; [intros ? ?; performed_step | intros ? ?; performed_step | assumption]
        | apply performed_only_path; assumption
        | apply performed_only_tag; assumption
        | assumption ].

(** X5. Whatever the payload and whatever the cache layer does, the result
    lists only targets whose invalidation was really performed, and it is a
    success exactly when it carries no error. *)
Theorem dispatch_lists_performed t_new t_get payload :
  let result := handleRevalidation next_revalidatePath next_revalidateTag t_new t_get payload in
  Forall (fun p => next_revalidatePath p = None) (revalidatedPaths result)
  /\ Forall (fun t => next_revalidateTag t = None) (revalidatedTags result)
  /\ (success result = true <-> error result = None).
Proof.
  intros result.
  assert (Start : performed_only next_revalidatePath next_revalidateTag
                    (createRevalidationManager t_new)) by (split; constructor).
  assert (Run : forall body : method unit,
            (forall m0, performed_only next_revalidatePath next_revalidateTag m0 ->
                        performed_only next_revalidatePath next_revalidateTag (snd (body m0))) ->
            let r := match body (createRevalidationManager t_new) with
                     | (Return _, manager') => getResult t_get manager'
                     | (Throw e, manager') => getErrorResult (error_message e) t_get manager'
                     end in
            Forall (fun p => next_revalidatePath p = None) (revalidatedPaths r)
            /\ Forall (fun t => next_revalidateTag t = None) (revalidatedTags r)
            /\ (success r = true <-> error r = None)).
  { intros body Hbody r. subst r. specialize (Hbody _ Start).
    destruct (body (createRevalidationManager t_new)) as [[u | e] m']; cbn [snd] in Hbody;
      destruct Hbody as [Hp Ht]; cbn; (split; [exact Hp | split; [exact Ht |]]);
      split; congruence. }
  subst result. unfold handleRevalidation.
  destruct (data payload) as [d |];
    [| cbn; split; [constructor | split; [constructor | split; congruence]]].
  destruct (is_type (type d) "post").
  { apply Run. intros m0 H0. unfold revalidateBlogPost, when.
    destruct (truthy_opt_string (slug d)); unfold ret; performed_step. }
  destruct (is_type (type d) "page").
  { apply Run. intros m0 H0. unfold revalidatePage.
    destruct (slug d) as [s |]; [| unfold ret; performed_step].
    destruct (truthy_string s && negb (String.eqb s "home"));
      [performed_step |].
    destruct (String.eqb s "home"); unfold ret; performed_step. }
  destruct (is_type (type d) "settings").
  { apply Run. intros m0 H0. unfold revalidateGlobalSettings. performed_step. }
  destruct (is_type (type d) "media").
  { apply Run. intros m0 H0. unfold revalidateMedia. performed_step. }
  cbn. split; [constructor | split; [constructor | split; congruence]].
Qed.

End DispatchMoreFacts.

Lemma dispatch_settings_media_page_witness :
  Route.handleRevalidation cache_ok cache_ok 10 12 (payload_of (Some "settings") None)
    = Revalidation.mkResult true ["/"; "/blog"] ["site-settings"; "layout"; "navigation"] None 2
  /\ Route.handleRevalidation cache_ok cache_ok 10 12 (payload_of (Some "media") None)
     = Revalidation.mkResult true [] ["media"; "images"] None 2
  /\ Route.handleRevalidation cache_ok cache_ok 10 12 (payload_of (Some "page") (Some ""))
     = Revalidation.mkResult true ["/sitemap.xml"] ["pages"] None 2.
Proof.
  split; [| split].
  - apply (dispatch_settings_media_page cache_ok cache_ok 10 12 (Some "content.updated")
             (Route.mkData (Some "settings") None None (Some "staging.howtomecm.com") None
                           (Some "update")) None);
      [reflexivity | intros t _; reflexivity | intros t _; reflexivity].
  - apply (dispatch_settings_media_page cache_ok cache_ok 10 12 (Some "content.updated")
             (Route.mkData (Some "media") None None (Some "staging.howtomecm.com") None
                           (Some "update")) None);
      [reflexivity | intros t _; reflexivity].
  - apply (dispatch_settings_media_page cache_ok cache_ok 10 12 (Some "content.updated")
             (Route.mkData (Some "page") None (Some "") (Some "staging.howtomecm.com") None
                           (Some "update")) None);
      [reflexivity | reflexivity | intros t _; reflexivity | intros t _; reflexivity].
Defined.

Lemma dispatch_post_fail_fast_witness :
  Route.handleRevalidation
    (fun p => if String.eqb p "/sitemap.xml"
              then Some (JS.ErrorObj "Error" "static generation store missing") else None)
    cache_ok 10 12 (payload_of (Some "post") (Some "foo"))
  = Revalidation.mkResult false ["/blog"; "/blog/foo"] []
      (Some "static generation store missing") 2.
Proof.
  apply (dispatch_post_fail_fast
           (fun p => if String.eqb p "/sitemap.xml"
                     then Some (JS.ErrorObj "Error" "static generation store missing")
                     else None)
           cache_ok 10 12 (Some "content.updated")
           (Route.mkData (Some "post") None (Some "foo") (Some "staging.howtomecm.com") None
                         (Some "update")) None eq_refl).
Defined.

(** ** The signature check and the handler's answers *)

Section HandlerFacts.
Import JS Crypto Revalidation Route.

Variable next_revalidatePath next_revalidateTag : string -> option thrown.
Variable JSON_parse : string -> outcome WebhookPayload.

Lemma Return_inj {A} (a b : A) : Return a = Return b -> a = b.
Proof. intros E. injection E. auto. Qed.

(** X6. The verifier answers true exactly when the hexadecimal part of the
    header decodes to the HMAC-SHA256 of the body under the secret. *)
Theorem verifySignature_true_iff secret payload signature :
  verifySignature secret payload signature = Return true
  <-> received_digest signature = expected_digest secret payload.
Proof.
  unfold received_digest, expected_digest.
  rewrite verifySignature_unfold.
  destruct signature as [| c rest]; cbn [truthy_string negb].
  - split; [discriminate |]. intros E.
    pose proof (hmac_sha256_length (bytes_of_string secret) (bytes_of_string payload)) as L.
    rewrite <- E in L. discriminate L.
  - unfold timingSafeEqual. rewrite hmac_sha256_length.
    destruct (Nat.eqb_spec 32 (List.length (Buffer_from_hex
                                 (replace "sha256=" "" (String c rest))))) as [L | L].
    + split.
      * intros E. apply Return_inj, bytes_eqb_eq in E. symmetry. exact E.
      * intros E. rewrite E, bytes_eqb_refl. reflexivity.
    + split; [discriminate |]. intros E. exfalso. apply L.
      rewrite E, hmac_sha256_length. reflexivity.
Qed.

Lemma Buffer_from_hex_app bs t :
  Forall is_byte bs ->
  Buffer_from_hex (String.append (hex_encode bs) t) = bs ++ Buffer_from_hex t.
Proof.
  induction 1 as [| b bs Hb _ IH]; cbn [hex_encode String.append Buffer_from_hex app];
    [reflexivity |].
  unfold is_byte in Hb. rewrite !unhex_hex_digit.
  - rewrite IH. f_equal. pose proof (Z.div_mod b 16 ltac:(lia)). lia.
  - apply Z.mod_pos_bound. lia.
  - split; [apply Z.div_pos; lia | apply Z.div_lt_upper_bound; lia].
Qed.

Lemma Buffer_from_hex_no_pair t : starts_with_hex_pair t = false -> Buffer_from_hex t = [].
Proof.
  destruct t as [| c1 [| c2 rest]]; cbn; try reflexivity.
  destruct (unhex c1), (unhex c2); try reflexivity. discriminate.
Qed.

Lemma hex_digit_not_s n : 0 <= n < 16 -> Ascii.eqb "s" (hex_digit n) = false.
Proof.
  intros H.
  assert (All : forallb (fun k => negb (Ascii.eqb "s" (hex_digit k)))
                        (map Z.of_nat (seq 0 16)) = true) by reflexivity.
  rewrite forallb_forall in All. apply negb_true_iff, All, in_map_iff.
  exists (Z.to_nat n). split; [lia | apply in_seq; lia].
Qed.

Lemma replace_hex_encode bs :
  Forall is_byte bs -> replace "sha256=" "" (hex_encode bs) = hex_encode bs.
Proof.
  induction 1 as [| b bs Hb _ IH]; [reflexivity |].
  unfold is_byte in Hb. cbn [hex_encode].
  assert (H1 : 0 <= b / 16 < 16)
    by (split; [apply Z.div_pos; lia | apply Z.div_lt_upper_bound; lia]).
  assert (H2 : 0 <= b mod 16 < 16) by (apply Z.mod_pos_bound; lia).
  cbn [replace starts_with]. rewrite (hex_digit_not_s _ H1). cbn [andb].
  f_equal. cbn [replace starts_with]. rewrite (hex_digit_not_s _ H2). cbn [andb].
  f_equal. exact IH.
Qed.

(** X7. The header is read leniently: the bare digest without the
    [sha256=] prefix verifies, and so does a signed header followed by any
    text that does not start with two hexadecimal digits. *)
Theorem verifySignature_lenient secret payload :
  verifySignature secret payload
    (hex_encode (expected_digest secret payload)) = Return true
  /\ (forall t, starts_with_hex_pair t = false ->
        verifySignature secret payload (String.append (sign secret payload) t) = Return true).
Proof.
  split.
  - apply verifySignature_true_iff. unfold received_digest, expected_digest.
    rewrite replace_hex_encode by apply hmac_sha256_range.
    apply Buffer_from_hex_encode, hmac_sha256_range.
  - intros t Ht. apply verifySignature_true_iff. unfold received_digest, expected_digest, sign.
    change (replace "sha256=" ""
              (String.append (String.append "sha256=" ?h) t))
      with (String.append h t).
    rewrite Buffer_from_hex_app by apply hmac_sha256_range.
    rewrite (Buffer_from_hex_no_pair _ Ht). apply app_nil_r.
Qed.

End HandlerFacts.

Section HandlerAnswers.
Import JS Crypto Revalidation Route.

Variable next_revalidatePath next_revalidateTag : string -> option thrown.
Variable JSON_parse : string -> outcome WebhookPayload.

Lemma verifySignature_false_iff secret payload signature :
  verifySignature secret payload signature = Return false
  <-> signature = ""
      \/ (List.length (received_digest signature) = 32%nat
          /\ received_digest signature <> expected_digest secret payload).
Proof.
  unfold received_digest, expected_digest. rewrite verifySignature_unfold.
  destruct signature as [| c rest]; cbn [truthy_string negb]; [split; auto |].
  unfold timingSafeEqual. rewrite hmac_sha256_length.
  destruct (Nat.eqb_spec 32 (List.length (Buffer_from_hex
                               (replace "sha256=" "" (String c rest))))) as [L | L].
  - destruct (bytes_eqb _ _) eqn:E.
    + apply bytes_eqb_eq in E. split; [discriminate |].
      intros [H | [_ H]]; [discriminate H | exfalso; apply H; symmetry; exact E].
    + split; [| reflexivity]. intros _. right. split; [symmetry; exact L |].
      intros H. rewrite H, bytes_eqb_refl in E. discriminate E.
  - split; [discriminate |]. intros [H | [H _]]; [discriminate H | exfalso; auto].
Qed.

(** X8. The handler answers 401 (invalid signature) exactly when no
    signature header is given, or the header decodes to 32 bytes that are
    not the body's digest; the body is then neither parsed nor dispatched. *)
Theorem POST_unauthorized_iff secret clock request :
  POST next_revalidatePath next_revalidateTag JSON_parse secret clock request
    = Return (mkResponse InvalidSignature 401)
  <-> signature_header request = ""
      \/ (List.length (received_digest (signature_header request)) = 32%nat
          /\ received_digest (signature_header request)
             <> expected_digest secret (body request)).
Proof.
  rewrite <- verifySignature_false_iff. unfold POST.
  destruct (verifySignature secret (body request) (signature_header request))
    as [[|] | e] eqn:V; cbn [bind negb try_catch].
  - split; [| discriminate].
    destruct (JSON_parse (body request)) as [payload | e]; [| discriminate].
    destruct (invalid_structure payload); [discriminate |].
    destruct (success _); discriminate.
  - split; reflexivity.
  - split; discriminate.
Qed.

(** X9. A 200 answer is given only to a request whose header decodes to the
    body's digest, whose body parses to a payload with [event], [data] and
    [data.type], and whose dispatch succeeded; it reports the dispatcher's
    lists. *)
Theorem POST_ok_only_if secret clock request response :
  POST next_revalidatePath next_revalidateTag JSON_parse secret clock request
    = Return response ->
  response_status response = 200 ->
  received_digest (signature_header request) = expected_digest secret (body request)
  /\ exists payload,
       JSON_parse (body request) = Return payload
       /\ invalid_structure payload = false
       /\ let result := handleRevalidation next_revalidatePath next_revalidateTag
                          (clock 1%nat) (clock 2%nat) payload in
          success result = true
          /\ response_json response =
             Revalidated (event payload) (revalidatedPaths result)
                         (revalidatedTags result) (processingTime result).
Proof.
  unfold POST.
  destruct (verifySignature secret (body request) (signature_header request))
    as [[|] | e] eqn:V; cbn [bind negb try_catch].
  - apply verifySignature_true_iff in V.
    destruct (JSON_parse (body request)) as [payload | e];
      [| intros E; apply Return_inj in E; subst response; discriminate].
    destruct (invalid_structure payload) eqn:I;
      [intros E; apply Return_inj in E; subst response; discriminate |].
    destruct (success _) eqn:S; cbn [negb];
      intros E; apply Return_inj in E; subst response; [| discriminate].
    intros _. split; [exact V |]. exists payload. repeat split; assumption.
  - intros E. apply Return_inj in E. subst response. discriminate.
  - intros E. apply Return_inj in E. subst response. discriminate.
Qed.

(** X10. A non-empty header whose hexadecimal part does not decode to
    exactly 32 bytes makes the verifier throw, and the handler answers 500
    (internal error) instead of 401. *)
Theorem POST_malformed_digest secret clock request :
  signature_header request <> "" ->
  List.length (received_digest (signature_header request)) <> 32%nat ->
  verifySignature secret (body request) (signature_header request) = Throw range_error
  /\ POST next_revalidatePath next_revalidateTag JSON_parse secret clock request
     = Return (mkResponse (InternalServerError (clock 1%nat - clock 0%nat)) 500).
Proof.
  intros Hne Hlen.
  assert (V : verifySignature secret (body request) (signature_header request)
              = Throw range_error).
  { apply verifySignature_malformed_digest; [| exact Hlen].
    destruct (signature_header request); [congruence | reflexivity]. }
  split; [exact V |]. unfold POST. rewrite V. reflexivity.
Qed.

End HandlerAnswers.

Lemma POST_ok_only_if_witness :
  Terms.received_digest (sign "your-webhook-secret" test_body)
  = Terms.expected_digest "your-webhook-secret" test_body.
Proof.
  refine (proj1 (POST_ok_only_if cache_ok cache_ok
                   (fun _ => JS.Return (payload_of (Some "media") None))
                   "your-webhook-secret" (fun k => 100 + Z.of_nat k)
                   (Route.mkRequest test_body (Some (sign "your-webhook-secret" test_body)) None)
                   (Route.mkResponse
                      (Route.Revalidated (Some "content.updated") [] ["media"; "images"] 1) 200)
                   _ eq_refl)).
  vm_compute. reflexivity.
Defined.

Lemma POST_malformed_digest_witness :
  Route.POST cache_ok cache_ok (fun _ => JS.Return (payload_of (Some "post") None))
    "your-webhook-secret" (fun k => 100 + Z.of_nat k)
    (Route.mkRequest test_body None (Some "sha256=abcd"))
  = JS.Return (Route.mkResponse (Route.InternalServerError 1) 500).
Proof.
  refine (proj2 (POST_malformed_digest cache_ok cache_ok
                   (fun _ => JS.Return (payload_of (Some "post") None))
                   "your-webhook-secret" (fun k => 100 + Z.of_nat k)
                   (Route.mkRequest test_body None (Some "sha256=abcd")) _ _)).
  - discriminate.
  - vm_compute. discriminate.
Defined.

(** A request without signature header is refused before its body is read. *)
Example POST_unsigned_invalid_json :
  Route.POST cache_ok cache_ok
    (fun _ => JS.Throw (JS.ErrorObj "SyntaxError" "Unexpected token i in JSON"))
    "your-webhook-secret" (fun k => 100 + Z.of_nat k)
    (Route.mkRequest "invalid json" None None)
  = JS.Return (Route.mkResponse Route.InvalidSignature 401).
Proof. reflexivity. Qed.

(** ** Configuration check, self-test and deploy answers *)

Section ToolFacts.
Import JS WebhookConfig WebhookTools.

Lemma issue_if_length cond issue : List.length (issue_if cond issue) = if cond then 1%nat else 0%nat.
Proof. destruct cond; reflexivity. Qed.

(** X11. [validateConfig] declares a configuration valid exactly when the
    endpoint is set, the secret is set and is not the default one, and both
    deploy hooks have a URL; it then lists no issue. *)
Theorem validateConfig_valid_iff config :
  valid (validateConfig config) = true
  <-> (endpoint config <> ""
       /\ secret config <> "" /\ secret config <> "your-webhook-secret"
       /\ url (staging (deployHooks config)) <> ""
       /\ url (production (deployHooks config)) <> "")
      /\ issues (validateConfig config) = [].
Proof.
  assert (T : forall s, negb (truthy_string s) = false <-> s <> "").
  { intros s. destruct s; cbn; split; congruence. }
  unfold validateConfig. cbn [valid issues].
  destruct (negb (truthy_string (endpoint config))) eqn:E1.
  { cbn. split; [discriminate |]. intros [[H _] _]. apply T in H. congruence. }
  destruct (negb (truthy_string (secret config))) eqn:E2.
  { cbn. split; [discriminate |]. intros [[_ [H _]] _]. apply T in H. congruence. }
  destruct (String.eqb_spec (secret config) "your-webhook-secret") as [E3 | E3].
  { cbn. split; [discriminate |]. intros [[_ [_ [H _]]] _]. contradiction. }
  destruct (negb (truthy_string (url (staging (deployHooks config))))) eqn:E4.
  { cbn. split; [discriminate |]. intros [[_ [_ [_ [H _]]]] _]. apply T in H. congruence. }
  destruct (negb (truthy_string (url (production (deployHooks config))))) eqn:E5.
  { cbn. split; [discriminate |]. intros [[_ [_ [_ [_ H]]]] _]. apply T in H. congruence. }
  cbn. apply T in E1, E2, E4, E5. tauto.
Qed.

(** X12. For the configuration read from the environment, the endpoint
    never is an issue (it has a default), and the configuration is valid
    exactly when [WEBHOOK_SECRET] is set to something else than the default
    secret and both deploy-hook variables are set. *)
Theorem WEBHOOK_CONFIG_valid_iff webhook_url webhook_secret staging_hook production_hook :
  valid (validateConfig (WEBHOOK_CONFIG webhook_url webhook_secret staging_hook
                                        production_hook)) = true
  <-> ((exists s, webhook_secret = Some s /\ s <> "" /\ s <> "your-webhook-secret")
       /\ (exists s, staging_hook = Some s /\ s <> "")
       /\ (exists s, production_hook = Some s /\ s <> "")).
Proof.
  rewrite validateConfig_valid_iff. unfold WEBHOOK_CONFIG.
  cbn [endpoint secret deployHooks staging production url].
  assert (D : forall v default, default <> "" -> env_or v default <> "").
  { intros v default Hd. unfold env_or, or_string.
    destruct v as [[| c r] |]; cbn; congruence. }
  assert (V : forall v, env_or v "" <> "" <-> exists s, v = Some s /\ s <> "").
  { intros v. unfold env_or, or_string. destruct v as [[| c r] |]; cbn.
    - split; [congruence | intros [s [[= <-] H]]; congruence].
    - split; [intros _; eexists; split; [reflexivity | discriminate] | discriminate].
    - split; [congruence | intros [s [H _]]; discriminate]. }
  assert (S : (env_or webhook_secret "your-webhook-secret" <> ""
               /\ env_or webhook_secret "your-webhook-secret" <> "your-webhook-secret")
              <-> exists s, webhook_secret = Some s /\ s <> "" /\ s <> "your-webhook-secret").
  { unfold env_or, or_string. destruct webhook_secret as [[| c r] |]; cbn.
    - split; [intros [_ H]; congruence | intros [s [[= <-] [H _]]]; congruence].
    - split.
      + intros [_ H]. eexists. split; [reflexivity | split; [discriminate | exact H]].
      + intros [s [[= <-] [_ H]]]. split; [discriminate | exact H].
    - split; [intros [_ H]; congruence | intros [s [H _]]; discriminate]. }
  rewrite <- !V, <- S.
  split.
  - intros [(_ & H2 & H3 & H4 & H5) _]. tauto.
  - intros ([H2 H3] & H4 & H5). split.
    + split; [apply D; discriminate | tauto].
    + unfold validateConfig, issue_if. cbn [issues endpoint secret deployHooks staging
                                              production url].
      assert (T : forall s, s <> "" -> negb (truthy_string s) = false)
        by (intros [| c r]; cbn; congruence).
      assert (H1 : env_or webhook_url "https://staging.howtomecm.com/api/webhooks/build" <> "")
        by (apply D; discriminate).
      rewrite (T _ H1), (T _ H2), (T _ H4), (T _ H5).
      apply String.eqb_neq in H3. rewrite H3. reflexivity.
Qed.

Variable config : WebhookConfig.

(** X13. When the hook answers 2xx, [triggerDeploy] reports success for
    every JSON answer but [null]: an object gives its [deploymentId], or its
    [id] when [deploymentId] is missing or falsy; any other value gives no
    id. A body that is not JSON, or [null], gives a failure. *)
Theorem triggerDeploy_answer_2xx (fetch : FetchRequest -> outcome FetchResponse)
    now environment reason response :
  url (getDeployHook config environment) <> "" ->
  fetch (deploy_request config now environment reason) = Return response ->
  ok response = true ->
  fst (triggerDeploy config fetch now environment reason) =
  match response_json response with
  | Throw e => Return (mkDeploy false None (Some (error_message e)))
  | Return JNull =>
      Return (mkDeploy false None
                (Some "Cannot read properties of null (reading 'deploymentId')"))
  | Return (JObj fields) =>
      Return (mkDeploy true
                (if truthy_opt_json (JSMap.get String.eqb "deploymentId" fields)
                 then JSMap.get String.eqb "deploymentId" fields
                 else JSMap.get String.eqb "id" fields)
                None)
  | Return _ => Return (mkDeploy true None None)
  end.
Proof.
  intros Hurl Hfetch Hok. unfold triggerDeploy.
  assert (T : truthy_string (url (getDeployHook config environment)) = true)
    by (destruct (url (getDeployHook config environment)); [congruence | reflexivity]).
  rewrite T. cbn [negb fst]. rewrite Hfetch. cbn [bind]. rewrite Hok. cbn [negb].
  destruct (response_json response) as [[| b | z | s | items | fields] | e];
    cbn [bind property try_catch truthy_opt_json]; try reflexivity.
  destruct (truthy_opt_json (JSMap.get String.eqb "deploymentId" fields)); reflexivity.
Qed.

(** [testWebhook] never rejects. It reports success exactly when the
    endpoint answers 2xx with a JSON body; a non-2xx JSON answer is reported
    with its status line, and a rejected request or a body that is not JSON
    with the error's message. *)
Lemma testWebhook_result (fetch : TestRequest -> outcome FetchResponse) now payload :
  testWebhook config fetch now payload =
  match fetch (test_request config now payload) with
  | Throw e => Return (mkTestResult false None (Some (error_message e)))
  | Return response =>
      match response_json response with
      | Throw e => Return (mkTestResult false None (Some (error_message e)))
      | Return data =>
          if ok response then Return (mkTestResult true (Some data) None)
          else Return (mkTestResult false (Some data)
                         (Some (String.append (decimal (response_status response))
                                  (String.append ": " (response_statusText response)))))
      end
  end.
Proof.
  unfold testWebhook.
  destruct (fetch (test_request config now payload)) as [response | e]; [| reflexivity].
  cbn [bind]. destruct (response_json response) as [data | e]; [| reflexivity].
  cbn [bind try_catch]. destruct (ok response); reflexivity.
Qed.

End ToolFacts.

Lemma triggerDeploy_answer_2xx_witness :
  fst (WebhookConfig.triggerDeploy
         (WebhookConfig.WEBHOOK_CONFIG None None (Some "https://hooks.example/deploy") None)
         (fun _ => JS.Return (WebhookConfig.mkFetchResponse 201 "Created"
                                (JS.Return (WebhookConfig.JObj
                                   [("deploymentId", WebhookConfig.JStr "");
                                    ("id", WebhookConfig.JStr "dpl_7")]))))
         0 WebhookConfig.Staging None)
  = JS.Return (WebhookConfig.mkDeploy true (Some (WebhookConfig.JStr "dpl_7")) None).
Proof.
  apply (triggerDeploy_answer_2xx
           (WebhookConfig.WEBHOOK_CONFIG None None (Some "https://hooks.example/deploy") None)
           (fun _ => JS.Return (WebhookConfig.mkFetchResponse 201 "Created"
                                  (JS.Return (WebhookConfig.JObj
                                     [("deploymentId", WebhookConfig.JStr "");
                                      ("id", WebhookConfig.JStr "dpl_7")]))))
           0 WebhookConfig.Staging None _ ltac:(discriminate) eq_refl eq_refl).
Defined.

Lemma verifySignature_lenient_witness :
  Route.verifySignature "your-webhook-secret" test_body
    (String.append (sign "your-webhook-secret" test_body) "; v=1") = JS.Return true.
Proof.
  exact (proj2 (verifySignature_lenient "your-webhook-secret" test_body) "; v=1" eq_refl).
Defined.

(** ** More on the deployment queue *)

Section QueueMoreFacts.
Import JS WebhookConfig.

Variable config : WebhookConfig.
Variable fetch : FetchRequest -> outcome FetchResponse.




End QueueMoreFacts.


Section QueueFrameFacts.
Import JS WebhookConfig.

Variable config : WebhookConfig.
Variable fetch : FetchRequest -> outcome FetchResponse.

Lemma Environment_eqb_false a b : a <> b -> Environment_eqb a b = false.
Proof. destruct a, b; cbn; congruence. Qed.

Lemma timers_of_schedule_other environment t l :
  timeout_environment t <> environment ->
  timers_of environment (schedule t l) = timers_of environment l.
Proof.
  intros N. unfold timers_of. induction l as [| t' l IH]; cbn [schedule filter].
  - rewrite (Environment_eqb_false _ _ N). reflexivity.
  - destruct (expiry t <? expiry t'); cbn [filter].
    + rewrite (Environment_eqb_false _ _ N). reflexivity.
    + rewrite IH. reflexivity.
Qed.

Lemma timers_of_clearTimeout_other environment h l :
  (forall t, In t l -> handle t = h -> timeout_environment t <> environment) ->
  timers_of environment (clearTimeout h l) = timers_of environment l.
Proof.
  unfold timers_of, clearTimeout. intros H.
  induction l as [| t l IH]; cbn [filter]; [reflexivity |].
  assert (IH' := IH (fun t' I => H t' (or_intror I))).
  destruct (Nat.eqb_spec (handle t) h) as [E | E]; cbn [negb filter].
  - rewrite (Environment_eqb_false _ _ (H t (or_introl eq_refl) E)). exact IH'.
  - rewrite IH'. reflexivity.
Qed.

Lemma In_schedule t x l : In x (schedule t l) -> x = t \/ In x l.
Proof.
  induction l as [| t' l IH]; cbn [schedule].
  - intros [<- | []]. auto.
  - destruct (expiry t <? expiry t'); cbn [In]; intuition.
Qed.

Lemma get_delete_Some k k' h (q : JSMap.t (K := Environment) (V := nat)) :
  NoDup (JSMap.keys q) ->
  JSMap.get Environment_eqb k (JSMap.delete Environment_eqb k' q) = Some h ->
  JSMap.get Environment_eqb k q = Some h.
Proof.
  induction q as [| [k0 v0] q IH]; cbn; [discriminate |].
  intros Hnd. inversion Hnd as [| ? ? Hn Hd]; subst.
  destruct (Environment_eqb k' k0) eqn:E1.
  - apply Environment_eqb_eq in E1. subst k0.
    destruct (Environment_eqb k k') eqn:E2; [| auto].
    apply Environment_eqb_eq in E2. subst k'. intros G.
    apply (get_Some_In _ Environment_eqb_eq) in G. contradiction.
  - cbn. destruct (Environment_eqb k k0); auto.
Qed.

Lemma loop_wf_queueDeployment environment reason delayMs s :
  loop_wf s -> loop_wf (queueDeployment environment reason delayMs s).
Proof.
  intros (Hnd & Ht & Hq & Hown). unfold queueDeployment.
  set (pending := match JSMap.get Environment_eqb environment (deploymentQueue s) with
                  | Some h => clearTimeout h (timers s)
                  | None => timers s
                  end).
  assert (Hpending : forall t, In t pending -> In t (timers s)).
  { subst pending. destruct (JSMap.get _ _ _); [| auto].
    intros t I. apply filter_In in I. apply I. }
  split; [| split; [| split]]; cbn [deploymentQueue timers next_handle handle].
  - apply (NoDup_keys_set _ Environment_eqb_eq). exact Hnd.
  - intros t I. apply In_schedule in I. destruct I as [-> | I]; cbn [handle]; [lia |].
    specialize (Ht t (Hpending t I)). lia.
  - intros e h G. destruct (Environment_eqb e environment) eqn:E.
    + apply Environment_eqb_eq in E. subst e.
      rewrite (get_set_same _ Environment_eqb_eq) in G. injection G as <-. lia.
    + rewrite (get_set_other _ Environment_eqb_eq) in G
        by (intros ->; destruct environment; discriminate E).
      specialize (Hq e h G). lia.
  - intros t e h I G Eh. destruct (Environment_eqb e environment) eqn:E.
    + apply Environment_eqb_eq in E. subst e.
      rewrite (get_set_same _ Environment_eqb_eq) in G. injection G as <-.
      apply In_schedule in I. destruct I as [-> | I]; [reflexivity |].
      specialize (Ht t (Hpending t I)). lia.
    + rewrite (get_set_other _ Environment_eqb_eq) in G
        by (intros ->; destruct environment; discriminate E).
      apply In_schedule in I. destruct I as [-> | I].
      * cbn [handle] in Eh. specialize (Hq e h G). lia.
      * exact (Hown t e h (Hpending t I) G Eh).
Qed.

Lemma loop_wf_advance dt s : loop_wf s -> loop_wf (advance config fetch dt s).
Proof.
  intros (Hnd & Ht & Hq & Hown).
  pose proof (advance_effect config fetch dt s) as H. cbv zeta in H.
  destruct H as (_ & X & T & Q & _ & _).
  unfold loop_wf. rewrite X, T, Q.
  split; [exact Hnd | split; [| split; [exact Hq |]]].
  - intros t I. apply filter_In in I. apply Ht, I.
  - intros t e h I. apply filter_In in I. apply Hown, I.
Qed.

Lemma fold_resume_rest l s :
  now (fold_left resume l s) = now s
  /\ next_handle (fold_left resume l s) = next_handle s
  /\ timers (fold_left resume l s) = timers s
  /\ invocations (fold_left resume l s) = invocations s
  /\ suspended (fold_left resume l s) = suspended s.
Proof.
  revert s. induction l as [| c l IH]; intros s; cbn [fold_left]; [repeat split |].
  destruct (IH (resume s c)) as (H1 & H2 & H3 & H4 & H5).
  rewrite H1, H2, H3, H4, H5. unfold resume.
  destruct (suspended_result c); repeat split; reflexivity.
Qed.

Lemma fold_delete_wf l (q : JSMap.t (K := Environment) (V := nat)) :
  NoDup (JSMap.keys q) ->
  let q' := fold_left (fun q c => match suspended_result c with
                                  | Return _ =>
                                      JSMap.delete Environment_eqb (suspended_environment c) q
                                  | Throw _ => q
                                  end) l q in
  NoDup (JSMap.keys q')
  /\ (forall e h, JSMap.get Environment_eqb e q' = Some h ->
                  JSMap.get Environment_eqb e q = Some h).
Proof.
  revert q. induction l as [| c l IH]; intros q Hnd; cbn [fold_left]; [auto |].
  destruct (suspended_result c) as [r | e0]; [| apply IH; exact Hnd].
  destruct (IH _ (NoDup_keys_delete Environment_eqb (suspended_environment c) q Hnd))
    as [H1 H2].
  split; [exact H1 |]. intros e h G. eapply get_delete_Some; [exact Hnd | apply H2, G].
Qed.

Lemma loop_wf_settle s : loop_wf s -> loop_wf (settle s).
Proof.
  intros (Hnd & Ht & Hq & Hown). unfold settle.
  pose proof (fold_resume_rest (suspended s)
                (mkState (now s) (next_handle s) (timers s) (deploymentQueue s) []
                         (invocations s) (requests s))) as (_ & X & T & _ & _).
  pose proof (fold_delete_wf (suspended s) (deploymentQueue s) Hnd) as [N G].
  unfold loop_wf. rewrite X, T, fold_resume_queue. cbn [next_handle timers deploymentQueue].
  split; [exact N | split; [exact Ht | split]].
  - intros e h E. apply (Hq e h), G, E.
  - intros t e h I E. apply (Hown t e h I), G, E.
Qed.

(** Every state the manager reaches is well formed. *)
Lemma loop_wf_reachable events t0 :
  loop_wf (fold_left (step config fetch) events (initial t0)).
Proof.
  assert (H0 : loop_wf (initial t0)).
  { split; [constructor | split; [intros t [] | split; [intros e h; discriminate |
                                                        intros t e h []]]]. }
  revert H0. generalize (initial t0). induction events as [| e events IH]; intros s Hs;
    cbn [fold_left]; [exact Hs |].
  apply IH. destruct e; cbn [step];
    [apply loop_wf_queueDeployment | apply loop_wf_advance | apply loop_wf_settle]; exact Hs.
Qed.

(** X15. The two environments are debounced independently: in every state
    the manager reaches, a [queueDeployment] call for one environment leaves
    the pending timers and the queue entry of the other as they are. *)
Theorem queueDeployment_other_environment events t0 environment other reason delayMs :
  other <> environment ->
  let s := fold_left (step config fetch) events (initial t0) in
  let s' := queueDeployment other reason delayMs s in
  timers_of environment (timers s') = timers_of environment (timers s)
  /\ JSMap.get Environment_eqb environment (deploymentQueue s')
     = JSMap.get Environment_eqb environment (deploymentQueue s).
Proof.
  intros N s s'. pose proof (loop_wf_reachable events t0) as W. fold s in W.
  destruct W as (_ & _ & _ & Hown). subst s'. unfold queueDeployment.
  cbn [timers deploymentQueue]. split.
  - rewrite timers_of_schedule_other by exact N.
    destruct (JSMap.get Environment_eqb other (deploymentQueue s)) as [h |] eqn:G;
      [| reflexivity].
    apply timers_of_clearTimeout_other. intros t I E.
    rewrite (Hown t other h I G E). exact N.
  - apply (get_set_other _ Environment_eqb_eq). congruence.
Qed.

End QueueFrameFacts.

Lemma queueDeployment_other_environment_witness :
  let config := WebhookConfig.WEBHOOK_CONFIG None None None None in
  let fetch := fun _ : WebhookConfig.FetchRequest =>
    JS.Throw (JS.ErrorObj "TypeError" "fetch failed") in
  let s := fold_left (step config fetch)
             [Queue WebhookConfig.Staging "post saved" None; Wait 100;
              Queue WebhookConfig.Production "release" (Some 1000); Wait 100]
             (WebhookConfig.initial 0) in
  timers_of WebhookConfig.Staging
    (WebhookConfig.timers (WebhookConfig.queueDeployment WebhookConfig.Production
                             "release again" (Some 1000) s))
  = [WebhookConfig.mkTimeout 0 5000 WebhookConfig.Staging "post saved"].
Proof.
  intros config fetch s.
  etransitivity;
    [exact (proj1 (queueDeployment_other_environment config fetch
                     [Queue WebhookConfig.Staging "post saved" None; Wait 100;
                      Queue WebhookConfig.Production "release" (Some 1000); Wait 100]
                     0 WebhookConfig.Staging WebhookConfig.Production "release again"
                     (Some 1000) ltac:(discriminate)))
    | reflexivity].
Defined.

Section QueueInFlightFacts.
Import JS WebhookConfig.

Variable config : WebhookConfig.
Variable fetch : FetchRequest -> outcome FetchResponse.

Lemma schedule_Permutation t l : Permutation (schedule t l) (t :: l).
Proof.
  induction l as [| t' l IH]; cbn [schedule]; [apply Permutation_refl |].
  destruct (expiry t <? expiry t'); [apply Permutation_refl |].
  apply Permutation_trans with (t' :: t :: l); [apply perm_skip, IH | apply perm_swap].
Qed.

Lemma filter_Permutation {A} (p : A -> bool) l l' :
  Permutation l l' -> Permutation (filter p l) (filter p l').
Proof.
  induction 1 as [| x l l' _ IH | x y l | l l' l'' _ IH1 _ IH2]; cbn [filter].
  - constructor.
  - destruct (p x); [apply perm_skip |]; exact IH.
  - destruct (p x), (p y); try apply Permutation_refl. apply perm_swap.
  - eapply Permutation_trans; eassumption.
Qed.

(** X16. The debounce does not hold across a deployment in flight. If a
    call is made while the callback of a fired timer still waits for the
    hook's answer, that callback, once resumed, deletes the queue entry of
    the new timer; a further call, even at the same instant, then cancels
    nothing, and all three calls end in a [triggerDeploy]. *)
Theorem queueDeployment_in_flight environment r1 r2 r3 d1 d2 d3 wait dt s0 :
  queue_consistent environment s0 ->
  delay_of d1 <= wait ->
  delay_of d2 <= dt ->
  delay_of d3 <= dt ->
  let s1 := queueDeployment environment r1 d1 s0 in
  let s2 := advance config fetch wait s1 in
  let s3 := queueDeployment environment r2 d2 s2 in
  let s4 := settle s3 in
  let s5 := queueDeployment environment r3 d3 s4 in
  let s6 := advance config fetch dt s5 in
  timers_of environment (timers s4) =
    [mkTimeout (next_handle s2) (now s2 + delay_of d2) environment r2]
  /\ JSMap.get Environment_eqb environment (deploymentQueue s4) = None
  /\ exists rest,
       calls_of environment (invocations s6) =
         calls_of environment (invocations s0) ++ (environment, r1) :: rest
       /\ Permutation rest [(environment, r2); (environment, r3)].
Proof.
  intros Hc Hw Hd2 Hd3 s1 s2 s3 s4 s5 s6.
  (* first call, its timer fires *)
  pose proof (queueDeployment_replaces environment r1 d1 s0 Hc) as H1.
  cbv zeta in H1. fold s1 in H1. destruct H1 as (T1 & Q1 & N1 & X1 & I1 & _).
  pose proof (advance_effect config fetch wait s1) as H2. cbv zeta in H2. fold s2 in H2.
  destruct H2 as (N2 & X2 & T2 & Q2 & S2 & I2).
  assert (Due1 : (now s0 + delay_of d1 <=? now s1 + wait) = true)
    by (rewrite N1; apply Z.leb_le; lia).
  assert (T2' : timers_of environment (timers s2) = []).
  { rewrite T2, timers_of_filter, T1. cbn [filter expiry]. rewrite Due1. reflexivity. }
  assert (C2 : calls_of environment (invocations s2) =
               calls_of environment (invocations s0) ++ [(environment, r1)]).
  { rewrite I2, calls_of_app, calls_of_fired, timers_of_filter, T1, I1.
    cbn [filter expiry]. rewrite Due1. reflexivity. }
  assert (Nd2 : NoDup (JSMap.keys (deploymentQueue s2))).
  { rewrite Q2, Q1. apply (NoDup_keys_set _ Environment_eqb_eq). apply Hc. }
  assert (Hc2 : queue_consistent environment s2).
  { split; [exact Nd2 |]. intros t I E. exfalso.
    exact (proj1 (timers_of_nil_iff environment (timers s2)) T2' t I E). }
  destruct (triggerDeploy_returns config fetch (now s0 + delay_of d1) environment (Some r1))
    as [res Hres].
  assert (In1 : In (mkSuspended environment
                      (fst (triggerDeploy config fetch (now s0 + delay_of d1) environment
                                          (Some r1))))
                   (suspended s2)).
  { rewrite S2. apply in_or_app. right.
    apply (in_map (fun t => mkSuspended (timeout_environment t)
                              (fst (triggerDeploy config fetch (expiry t)
                                      (timeout_environment t) (Some (timeout_reason t)))))
                  _ (mkTimeout (next_handle s0) (now s0 + delay_of d1) environment r1)).
    apply filter_In. split; [| exact Due1].
    assert (I : In (mkTimeout (next_handle s0) (now s0 + delay_of d1) environment r1)
                   (timers_of environment (timers s1)))
      by (rewrite T1; left; reflexivity).
    apply filter_In in I. apply I. }
  (* second call, while the first deploy is in flight *)
  pose proof (queueDeployment_replaces environment r2 d2 s2 Hc2) as H3.
  cbv zeta in H3. fold s3 in H3. destruct H3 as (T3 & Q3 & N3 & X3 & I3 & S3).
  (* the first callback resumes *)
  pose proof (fold_resume_rest (suspended s3)
                (mkState (now s3) (next_handle s3) (timers s3) (deploymentQueue s3) []
                         (invocations s3) (requests s3))) as (N4 & X4 & T4 & I4 & _).
  fold (settle s3) in N4, X4, T4, I4. fold s4 in N4, X4, T4, I4.
  cbn [now next_handle timers invocations] in N4, X4, T4, I4.
  assert (G4 : JSMap.get Environment_eqb environment (deploymentQueue s4) = None).
  { subst s4. unfold settle. rewrite fold_resume_queue. cbn [deploymentQueue].
    apply fold_delete_fulfilled.
    - rewrite Q3. apply (NoDup_keys_set _ Environment_eqb_eq). exact Nd2.
    - eexists _, res. split; [rewrite S3; exact In1 | split; [reflexivity | exact Hres]]. }
  split; [rewrite T4; exact T3 |]. split; [exact G4 |].
  (* third call: nothing is cancelled *)
  assert (T5 : timers s5 =
               schedule (mkTimeout (next_handle s4) (now s4 + delay_of d3) environment r3)
                        (timers s4)).
  { subst s5. unfold queueDeployment. cbn [timers]. rewrite G4. reflexivity. }
  assert (I5 : invocations s5 = invocations s4) by reflexivity.
  assert (N5 : now s5 = now s4) by reflexivity.
  pose proof (advance_effect config fetch dt s5) as H6. cbv zeta in H6. fold s6 in H6.
  destruct H6 as (_ & _ & _ & _ & _ & I6).
  exists (map (fun t => (timeout_environment t, timeout_reason t))
              (filter (fun t => expiry t <=? now s5 + dt)
                      (timers_of environment (timers s5)))).
  split.
  - rewrite I6, calls_of_app, calls_of_fired, timers_of_filter, I5, I4, I3, C2.
    rewrite <- app_assoc. reflexivity.
  - assert (P : Permutation (timers_of environment (timers s5))
                  [mkTimeout (next_handle s4) (now s4 + delay_of d3) environment r3;
                   mkTimeout (next_handle s2) (now s2 + delay_of d2) environment r2]).
    { rewrite T5. unfold timers_of at 1.
      eapply Permutation_trans; [apply filter_Permutation, schedule_Permutation |].
      cbn [filter timeout_environment].
      rewrite (proj2 (Environment_eqb_eq environment environment) eq_refl).
      fold (timers_of environment (timers s4)). rewrite T4, T3. apply Permutation_refl. }
    apply (filter_Permutation (fun t => expiry t <=? now s5 + dt)) in P.
    apply (Permutation_map (fun t => (timeout_environment t, timeout_reason t))) in P.
    eapply Permutation_trans; [exact P |].
    cbn [filter expiry]. rewrite N5, N4, N3.
    replace (now s2 + delay_of d3 <=? now s2 + dt) with true
      by (symmetry; apply Z.leb_le; lia).
    replace (now s2 + delay_of d2 <=? now s2 + dt) with true
      by (symmetry; apply Z.leb_le; lia).
    cbn [map timeout_environment timeout_reason]. apply perm_swap.
Qed.

End QueueInFlightFacts.

Lemma queueDeployment_in_flight_witness :
  let config := WebhookConfig.WEBHOOK_CONFIG None None (Some "https://hooks.example/deploy") None in
  let fetch := fun _ : WebhookConfig.FetchRequest =>
    JS.Return (WebhookConfig.mkFetchResponse 200 "OK"
                 (JS.Return (WebhookConfig.JObj [("id", WebhookConfig.JStr "dpl_1")]))) in
  let s6 :=
    fold_left (step config fetch)
      [Queue WebhookConfig.Staging "first" (Some 1000); Wait 1000;
       Queue WebhookConfig.Staging "second" (Some 1000); Answers;
       Queue WebhookConfig.Staging "third" (Some 1000); Wait 1000]
      (WebhookConfig.initial 0) in
  exists rest,
    calls_of WebhookConfig.Staging (WebhookConfig.invocations s6)
      = (WebhookConfig.Staging, "first") :: rest
    /\ Permutation rest [(WebhookConfig.Staging, "second"); (WebhookConfig.Staging, "third")].
Proof.
  intros config fetch s6.
  destruct (queueDeployment_in_flight config fetch WebhookConfig.Staging
              "first" "second" "third" (Some 1000) (Some 1000) (Some 1000) 1000 1000
              (WebhookConfig.initial 0)
              (conj (NoDup_nil _) (fun t (I : In t []) => match I with end))
              ltac:(vm_compute; discriminate) ltac:(vm_compute; discriminate)
              ltac:(vm_compute; discriminate))
    as (_ & _ & rest & H & P).
  exists rest. split; [exact H | exact P].
Defined.

Example queueDeployment_in_flight_trace :
  let config := WebhookConfig.WEBHOOK_CONFIG None None (Some "https://hooks.example/deploy") None in
  let fetch := fun _ : WebhookConfig.FetchRequest =>
    JS.Return (WebhookConfig.mkFetchResponse 200 "OK"
                 (JS.Return (WebhookConfig.JObj [("id", WebhookConfig.JStr "dpl_1")]))) in
  WebhookConfig.invocations
    (fold_left (step config fetch)
       [Queue WebhookConfig.Staging "first" (Some 1000); Wait 1000;
        Queue WebhookConfig.Staging "second" (Some 1000); Answers;
        Queue WebhookConfig.Staging "third" (Some 1000); Wait 1000]
       (WebhookConfig.initial 0))
  = [(WebhookConfig.Staging, "first"); (WebhookConfig.Staging, "second");
     (WebhookConfig.Staging, "third")].
Proof. vm_compute. reflexivity. Qed.

(** ** More on the deployment monitor *)

Section MonitorMoreFacts.
Import JS DeploymentMonitor.

Lemma get_app (k : string) (a b : Monitor) :
  JSMap.get String.eqb k (a ++ b) =
  match JSMap.get String.eqb k a with
  | Some v => Some v
  | None => JSMap.get String.eqb k b
  end.
Proof.
  induction a as [| [k' v] a IH]; cbn; [reflexivity |].
  destruct (String.eqb k k'); [reflexivity | exact IH].
Qed.

Lemma getDeployment_other_ids now deployment m id :
  stored m ->
  id <> u_id deployment ->
  getDeployment id (updateDeployment now deployment m) =
  match evicted_by deployment m with
  | Some oldest => if String.eqb oldest id then None else getDeployment id m
  | None => getDeployment id m
  end.
Proof.
  intros (Hsize & Hnd & _) Hid. unfold getDeployment, evicted_by.
  rewrite updateDeployment_unfold. cbv zeta.
  set (updated := merge now deployment (JSMap.get String.eqb (u_id deployment) m)).
  destruct (mem (u_id deployment) (JSMap.keys m)) eqn:E; cbn [negb andb].
  - apply mem_In in E.
    pose proof (keys_set_present _ string_eqb_eq (u_id deployment) updated m E) as K.
    assert (L : List.length (JSMap.set String.eqb (u_id deployment) updated m)
                = JSMap.size m).
    { rewrite size_keys, <- K. unfold JSMap.keys. symmetry. apply length_map. }
    rewrite L. destruct (Nat.ltb_spec 50 (JSMap.size m)); [lia |].
    apply (get_set_other _ string_eqb_eq). exact Hid.
  - assert (N : ~ In (u_id deployment) (JSMap.keys m))
      by (intros I; apply mem_In in I; congruence).
    rewrite (keys_set_absent _ string_eqb_eq _ _ _ N).
    rewrite length_app. cbn [List.length]. rewrite Nat.add_1_r. fold (JSMap.size m).
    assert (Tail : JSMap.get String.eqb id [(u_id deployment, updated)] = None)
      by (cbn; rewrite (proj2 (String.eqb_neq _ _) Hid); reflexivity).
    destruct (50 <? S (JSMap.size m))%nat eqn:Full.
    + destruct m as [| [k v] m0]; [discriminate Full |].
      cbn [app tl JSMap.keys map fst hd_error]. rewrite get_app, Tail.
      cbn [JSMap.get]. rewrite (String.eqb_sym id k).
      destruct (String.eqb_spec k id) as [-> | _].
      * inversion Hnd as [| ? ? Hn _]; subst.
        apply (get_None _ string_eqb_eq) in Hn. unfold JSMap.keys in Hn.
        rewrite Hn. reflexivity.
      * destruct (JSMap.get String.eqb id m0); reflexivity.
    + rewrite get_app, Tail. destruct (JSMap.get String.eqb id m); reflexivity.
Qed.

(** X17. A write leaves the records of the other ids as they are, except
    that a new id written to a full ledger evicts the oldest id. *)
Theorem updateDeployment_other_ids now deployment m id :
  stored m ->
  id <> u_id deployment ->
  getDeployment id (updateDeployment now deployment m) =
  match evicted_by deployment m with
  | Some oldest => if String.eqb oldest id then None else getDeployment id m
  | None => getDeployment id m
  end.
Proof. apply getDeployment_other_ids. Qed.

Lemma getDeployment_written now deployment m id :
  (JSMap.size m <= 50)%nat ->
  u_id deployment = id ->
  getDeployment id (updateDeployment now deployment m) =
  Some (merge now deployment (getDeployment id m)).
Proof. intros H <-. apply getDeployment_updateDeployment. exact H. Qed.


Lemma apply_writes m op id :
  op_id op = Some id ->
  exists now deployment,
    u_id deployment = id
    /\ apply m op = updateDeployment now deployment m
    /\ u_status deployment = op_status op.
Proof.
  destruct op as [now deployment | now target env | now target logs
                  | now now' target link buildTime | now now' target message logs |];
    cbn [op_id apply op_status]; intros E; try discriminate; injection E as <-.
  - exists now, deployment. repeat split.
  - exists now, (mkUpdate target (Some env) (Some Pending) None None None None None None).
    repeat split.
  - exists now, (mkUpdate target None (Some Building) None None None None None logs).
    repeat split.
  - exists now', (mkUpdate target None (Some Ready) link None None
                           (or_number buildTime (elapsed now (getDeployment target m)))
                           None None).
    repeat split.
  - exists now', (mkUpdate target None (Some Error) None None None
                           (elapsed now (getDeployment target m)) (Some message) logs).
    repeat split.
Qed.

(** X19. No operation checks the transition it makes or clears what a
    record holds: while the record stays in the ledger, an operation on its
    id sets the status it names whatever the status was, and a url, a
    duration or an error once stored is only ever replaced by another
    non-empty one. So a deployment marked failed and then ready is ready
    and still carries its error. *)
Theorem operations_overwrite_status_keep_fields m op id d d' :
  stored m ->
  getDeployment id m = Some d ->
  getDeployment id (apply m op) = Some d' ->
  (op_id op = Some id -> status d' = default (op_status op) (status d))
  /\ (truthy_opt_string (url d) = true -> truthy_opt_string (url d') = true)
  /\ (truthy_opt_number (duration d) = true -> truthy_opt_number (duration d') = true)
  /\ (truthy_opt_string (error d) = true -> truthy_opt_string (error d') = true)
  /\ (truthy_date (createdAt d) = true -> truthy_date (createdAt d') = true).
Proof.
  intros Hm Hd Hd'.
  destruct (op_id op) as [target |] eqn:Hop.
  - destruct (apply_writes m op target Hop) as (now & deployment & Hid & Happ & Hst).
    rewrite Happ in Hd'.
    destruct (String.eqb_spec id target) as [-> | Hne].
    + rewrite (getDeployment_written now deployment m target (stored_size m Hm) Hid), Hd
        in Hd'.
      injection Hd' as <-. unfold merge.
      cbn [status url duration error createdAt opt_field]. rewrite Hst.
      split; [intros _; destruct (op_status op); reflexivity |].
      split; [| split; [| split]].
      * intros T. unfold or_string. destruct (truthy_opt_string (u_url deployment)) eqn:E;
          assumption.
      * intros T. unfold or_number. destruct (truthy_opt_number (u_duration deployment)) eqn:E;
          assumption.
      * intros T. unfold or_string. destruct (truthy_opt_string (u_error deployment)) eqn:E;
          assumption.
      * intros T. destruct (u_createdAt deployment) as [c |]; cbn [or_date].
        -- destruct (truthy_date c) eqn:Tc; cbn [or_date]; [rewrite Tc; exact Tc |].
           rewrite T. exact T.
        -- rewrite T. exact T.
    + rewrite <- Hid in Hne.
      rewrite (getDeployment_other_ids now deployment m id Hm Hne) in Hd'.
      assert (E : d' = d).
      { destruct (evicted_by deployment m) as [oldest |];
          [destruct (String.eqb oldest id); [discriminate |] |]; congruence. }
      subst d'. split; [intros [= E]; congruence | tauto].
  - destruct op; try discriminate Hop. cbn [apply clearHistory] in Hd'. discriminate Hd'.
Qed.

End MonitorMoreFacts.

Lemma operations_overwrite_status_keep_fields_witness :
  let m := DeploymentMonitor.run
             [DeploymentMonitor.StartDeployment 1000 "dpl_1" DeploymentMonitor.Production;
              DeploymentMonitor.MarkFailed 4000 4000 "dpl_1" "build failed" None]
             DeploymentMonitor.empty in
  exists d',
    DeploymentMonitor.getDeployment "dpl_1"
      (DeploymentMonitor.markReady 9000 9000 "dpl_1" (Some "https://x") None m) = Some d'
    /\ DeploymentMonitor.status d' = DeploymentMonitor.Ready
    /\ JS.truthy_opt_string (DeploymentMonitor.error d') = true.
Proof.
  intros m. eexists. split; [reflexivity |].
  destruct (operations_overwrite_status_keep_fields m
              (DeploymentMonitor.MarkReady 9000 9000 "dpl_1" (Some "https://x") None) "dpl_1"
              (DeploymentMonitor.mkDeployment "dpl_1" DeploymentMonitor.Production
                 DeploymentMonitor.Error None (DeploymentMonitor.ISO 1000)
                 (DeploymentMonitor.ISO 4000) (Some (JS.Num 3000)) (Some "build failed")
                 (Some []))
              _ (stored_run _ _ stored_empty) eq_refl eq_refl)
    as (Hs & _ & _ & He & _).
  split; [exact (Hs eq_refl) | exact (He eq_refl)].
Defined.


Lemma updateDeployment_other_ids_witness :
  DeploymentMonitor.getDeployment (deployment_id 0)
    (DeploymentMonitor.startDeployment 99 "dpl_new" DeploymentMonitor.Staging
       (DeploymentMonitor.run (lifecycles 50) DeploymentMonitor.empty)) = None
  /\ DeploymentMonitor.getDeployment (deployment_id 1)
       (DeploymentMonitor.startDeployment 99 "dpl_new" DeploymentMonitor.Staging
          (DeploymentMonitor.run (lifecycles 50) DeploymentMonitor.empty))
     = DeploymentMonitor.getDeployment (deployment_id 1)
         (DeploymentMonitor.run (lifecycles 50) DeploymentMonitor.empty).
Proof.
  split.
  - etransitivity;
      [apply (updateDeployment_other_ids 99
                (DeploymentMonitor.mkUpdate "dpl_new" (Some DeploymentMonitor.Staging)
                   (Some DeploymentMonitor.Pending) None None None None None None)
                (DeploymentMonitor.run (lifecycles 50) DeploymentMonitor.empty)
                (deployment_id 0) (stored_run _ _ stored_empty));
       vm_compute; discriminate
      | vm_compute; reflexivity].
  - etransitivity;
      [apply (updateDeployment_other_ids 99
                (DeploymentMonitor.mkUpdate "dpl_new" (Some DeploymentMonitor.Staging)
                   (Some DeploymentMonitor.Pending) None None None None None None)
                (DeploymentMonitor.run (lifecycles 50) DeploymentMonitor.empty)
                (deployment_id 1) (stored_run _ _ stored_empty));
       vm_compute; discriminate
      | vm_compute; reflexivity].
Defined.

(** ** The queries of the deployment monitor *)

Section QueryFacts.
Import JS DeploymentMonitor DeploymentQueries.

Lemma Environment_eqb_iff a b : DeploymentQueries.Environment_eqb a b = true <-> a = b.
Proof. destruct a, b; cbn; split; congruence. Qed.

Lemma insert_Permutation {A} (compare : A -> A -> number) x l :
  Permutation (insert compare x l) (x :: l).
Proof.
  induction l as [| y l IH]; cbn [insert]; [apply Permutation_refl |].
  destruct (goes_after compare x y); [| apply Permutation_refl].
  apply Permutation_trans with (y :: x :: l); [apply perm_skip, IH | apply perm_swap].
Qed.

Lemma sort_Permutation {A} (compare : A -> A -> number) l :
  Permutation (sort compare l) l.
Proof.
  induction l as [| x l IH]; cbn [sort]; [constructor |].
  eapply Permutation_trans; [apply insert_Permutation | apply perm_skip, IH].
Qed.

Lemma goes_after_dated x y :
  has_date x -> has_date y ->
  goes_after newest_first x y = (instant x <? instant y).
Proof.
  intros [cx Hx] [cy Hy]. unfold goes_after, newest_first, instant.
  rewrite Hx, Hy. cbn [getTime sub_number].
  destruct (Z.ltb_spec 0 (cy - cx)), (Z.ltb_spec cx cy); (reflexivity || lia).
Qed.

Lemma insert_sorted x l :
  has_date x -> Forall has_date l ->
  StronglySorted (fun a b => instant b <= instant a) l ->
  StronglySorted (fun a b => instant b <= instant a) (insert newest_first x l).
Proof.
  intros Hx Hl Hs. induction Hs as [| y l Hs IH Hy]; cbn [insert].
  - constructor; constructor.
  - inversion Hl as [| ? ? Hdy Hdl]; subst.
    rewrite (goes_after_dated x y Hx Hdy).
    destruct (Z.ltb_spec (instant x) (instant y)) as [Lt | Ge].
    + constructor; [apply IH; exact Hdl |].
      apply (Permutation_Forall (Permutation_sym (insert_Permutation newest_first x l))).
      constructor; [lia | exact Hy].
    + constructor; [constructor; assumption |].
      constructor; [exact Ge |].
      eapply Forall_impl; [| exact Hy]. cbn. intros a Ha. lia.
Qed.

Lemma sort_sorted l :
  Forall has_date l ->
  StronglySorted (fun a b => instant b <= instant a) (sort newest_first l).
Proof.
  induction 1 as [| x l Hx Hl IH]; cbn [sort]; [constructor |].
  apply insert_sorted; [exact Hx | | exact IH].
  apply (Permutation_Forall (Permutation_sym (sort_Permutation newest_first l))). exact Hl.
Qed.

Lemma dated_of_environment environment m :
  dated m -> Forall has_date (of_environment environment m).
Proof.
  unfold dated, of_environment. intros H. apply Forall_forall.
  intros d I. apply filter_In in I. rewrite Forall_forall in H. apply H, I.
Qed.

(** X20. [getDeploymentsByEnvironment] returns exactly the records of the
    environment, each once; when their creation dates parse, they come
    newest first. *)
Theorem getDeploymentsByEnvironment_sorted environment m :
  Permutation (getDeploymentsByEnvironment environment m) (of_environment environment m)
  /\ (dated m ->
      StronglySorted (fun a b => instant b <= instant a)
                     (getDeploymentsByEnvironment environment m)).
Proof.
  split; [apply sort_Permutation |].
  intros H. apply sort_sorted, dated_of_environment, H.
Qed.

Lemma latest_facts environment m :
  (getLatestDeployment environment m = None <-> of_environment environment m = [])
  /\ (forall d, getLatestDeployment environment m = Some d ->
        In d (of_environment environment m)
        /\ (dated m -> forall d', In d' (of_environment environment m) ->
                                  instant d' <= instant d)).
Proof.
  unfold getLatestDeployment.
  pose proof (sort_Permutation newest_first (of_environment environment m)) as P.
  change (sort newest_first (of_environment environment m))
    with (getDeploymentsByEnvironment environment m) in P.
  split.
  - destruct (getDeploymentsByEnvironment environment m) as [| d l] eqn:E; cbn [hd_error].
    + apply Permutation_nil in P. rewrite P. tauto.
    + split; [discriminate |]. intros H. rewrite H in P.
      apply Permutation_sym, Permutation_nil in P. discriminate P.
  - intros d Hd. split.
    + apply (Permutation_in _ P).
      destruct (getDeploymentsByEnvironment environment m); [discriminate |].
      injection Hd as ->. left. reflexivity.
    + intros Hdated d' I.
      pose proof (sort_sorted _ (dated_of_environment environment m Hdated)) as S.
      change (sort newest_first (of_environment environment m))
        with (getDeploymentsByEnvironment environment m) in S.
      apply (Permutation_in _ (Permutation_sym P)) in I.
      destruct (getDeploymentsByEnvironment environment m) as [| d0 l]; [discriminate |].
      injection Hd as ->. destruct I as [<- | I]; [lia |].
      inversion S as [| ? ? _ F]; subst. rewrite Forall_forall in F. apply F, I.
Qed.

(** X21. [getLatestDeployment] is undefined exactly when the ledger has no
    record of the environment; otherwise it is a record of that environment
    and, when the creation dates parse, none of its records was created
    later. *)
Theorem getLatestDeployment_newest environment m :
  (getLatestDeployment environment m = None
   <-> forall d, In d (JSMap.values m) -> DeploymentMonitor.environment d <> environment)
  /\ (forall d, getLatestDeployment environment m = Some d ->
        In d (JSMap.values m)
        /\ DeploymentMonitor.environment d = environment
        /\ (dated m ->
            forall d', In d' (JSMap.values m) ->
                       DeploymentMonitor.environment d' = environment ->
                       instant d' <= instant d)).
Proof.
  destruct (latest_facts environment m) as [HN HS]. split.
  - rewrite HN. unfold of_environment. split.
    + intros E d I Henv.
      assert (I' : In d (filter (fun d => DeploymentQueries.Environment_eqb
                                            (DeploymentMonitor.environment d) environment)
                                (JSMap.values m)))
        by (apply filter_In; split; [exact I | apply Environment_eqb_iff; exact Henv]).
      rewrite E in I'. destruct I'.
    + intros H.
      destruct (filter _ (JSMap.values m)) as [| d l] eqn:E; [reflexivity |].
      assert (I : In d (filter (fun d => DeploymentQueries.Environment_eqb
                                           (DeploymentMonitor.environment d) environment)
                               (JSMap.values m))) by (rewrite E; left; reflexivity).
      apply filter_In in I. destruct I as [I Henv]. apply Environment_eqb_iff in Henv.
      exfalso. exact (H d I Henv).
  - intros d Hd. destruct (HS d Hd) as [I Hmax].
    unfold of_environment in I. apply filter_In in I. destruct I as [I Henv].
    apply Environment_eqb_iff in Henv.
    split; [exact I | split; [exact Henv |]].
    intros Hdated d' I' Henv'. apply (Hmax Hdated).
    apply filter_In. split; [exact I' | apply Environment_eqb_iff; exact Henv'].
Qed.



End QueryFacts.

Section QueryCompositionFacts.
Import JS DeploymentMonitor DeploymentQueries.


Lemma In_values_get id d (m : Monitor) :
  JSMap.get String.eqb id m = Some d -> In d (JSMap.values m).
Proof.
  intros G. apply get_Some_In_pair in G. unfold JSMap.values.
  apply in_map_iff. exists (id, d). split; [reflexivity | exact G].
Qed.



Lemma sorted_filter_length (p : DeploymentStatus -> bool) l :
  List.length (filter p (sort newest_first l)) = List.length (filter p l).
Proof.
  apply Permutation_length, filter_Permutation, sort_Permutation.
Qed.


End QueryCompositionFacts.

(** ** The status route *)

Section StatusRouteFacts.
Import JS DeploymentMonitor StatusRoute.



(** X26. The actions [building], [ready] and [failed] require an
    environment and then do not use it: for an id that is not in the ledger
    the record is created for [staging], also when the request names
    [production]. *)
Theorem status_POST_environment_unused request id name now now' now'' m :
  stored m ->
  deploymentId request = Some id -> id <> "" ->
  getDeployment id m = None ->
  environment request = Some Production ->
  action request = Some name ->
  In name ["building"; "ready"; "failed"] ->
  exists record,
    response_json (fst (POST (Return request) now now' now'' m))
      = Success name (Some record) now''
    /\ getDeployment id (snd (POST (Return request) now now' now'' m)) = Some record
    /\ DeploymentMonitor.environment record = Staging
    /\ createdAt record = ISO now'.
Proof.
  intros Hm Hid Hne Hnone Henv Hact Hname. pose proof (stored_size m Hm) as Hsize.
  unfold POST. rewrite Hid, Henv, Hact.
  assert (T : truthy_string id = true) by (destruct id; [congruence | reflexivity]).
  rewrite T. cbn [negb].
  assert (W : forall deployment,
            u_id deployment = id -> u_environment deployment = None ->
            u_createdAt deployment = None ->
            exists record,
              getDeployment id (updateDeployment now' deployment m) = Some record
              /\ DeploymentMonitor.environment record = Staging
              /\ createdAt record = ISO now').
  { intros deployment Hu He Hc. eexists. split;
      [apply getDeployment_written; assumption |].
    rewrite Hnone. unfold merge. cbn [DeploymentMonitor.environment createdAt opt_field].
    rewrite He, Hc. split; reflexivity. }
  destruct Hname as [<- | [<- | [<- | []]]];
    cbn [String.eqb Ascii.eqb Bool.eqb andb fst snd response_json].
  - destruct (W (mkUpdate id None (Some Building) None None None None None
                          (buildLogs request)) eq_refl eq_refl eq_refl)
      as (record & G & E & C).
    exists record. unfold markBuilding. rewrite G. repeat split; assumption.
  - destruct (W (mkUpdate id None (Some Ready) (url request) None None
                          (or_number (buildTime request) (elapsed now (getDeployment id m)))
                          None None) eq_refl eq_refl eq_refl)
      as (record & G & E & C).
    exists record. unfold markReady. rewrite G. repeat split; assumption.
  - destruct (W (mkUpdate id None (Some Error) None None None
                          (elapsed now (getDeployment id m))
                          (Some (match or_string (error request) (Some "Unknown error") with
                                 | Some text => text
                                 | None => "Unknown error"
                                 end))
                          (buildLogs request)) eq_refl eq_refl eq_refl)
      as (record & G & E & C).
    exists record. unfold markFailed. rewrite G. repeat split; assumption.
Qed.

End StatusRouteFacts.

(** ** The monitoring self-test *)

Section SelfTestFacts.
Import JS DeploymentMonitor DeploymentQueries EndToEnd.

Lemma In_length_pos {A} (x : A) l : In x l -> (1 <= List.length l)%nat.
Proof. destruct l; cbn; [intros [] | intros _; lia]. Qed.

(** X27. The monitoring self-test succeeds on every ledger and does not
    clean up: its record stays in the shared ledger under [test-<clock>],
    ready, for staging, with the made-up build time of 30000 ms, and is
    counted among the successful staging builds. *)
Theorem testBuildMonitoring_leaves_record clock m :
  stored m ->
  let result := fst (testBuildMonitoring clock m) in
  let m' := snd (testBuildMonitoring clock m) in
  success result = true
  /\ EndToEnd.error result = None
  /\ stored m'
  /\ exists record,
       getDeployment (String.append "test-" (WebhookConfig.decimal (clock 1%nat))) m'
         = Some record
       /\ details_deployment (details result) = Some record
       /\ environment record = Staging
       /\ status record = Ready
       /\ DeploymentMonitor.duration record = Some (Num 30000)
       /\ url record = Some "https://test.example.com"
       /\ (1 <= successfulBuilds (getBuildMetrics (Some Staging) m'))%nat.
Proof.
  intros Hm. cbv zeta. unfold testBuildMonitoring. cbv zeta.
  set (name := String.append "test-" (WebhookConfig.decimal (clock 1%nat))).
  set (m1 := startDeployment (clock 2%nat) name Staging m).
  set (m2 := markBuilding (clock 3%nat) name (Some ["Test build started"]) m1).
  set (m3 := markReady (clock 4%nat) (clock 4%nat) name
                       (Some "https://test.example.com") (Some (Num 30000)) m2).
  assert (H1 : stored m1) by (apply stored_updateDeployment; exact Hm).
  assert (H2 : stored m2) by (apply stored_updateDeployment; exact H1).
  assert (H3 : stored m3) by (apply stored_updateDeployment; exact H2).
  assert (G1 : exists r, getDeployment name m1 = Some r /\ environment r = Staging).
  { eexists. split.
    - unfold m1, startDeployment. apply getDeployment_written;
        [apply stored_size; exact Hm | reflexivity].
    - reflexivity. }
  destruct G1 as (r1 & G1 & E1).
  assert (G2 : exists r, getDeployment name m2 = Some r /\ environment r = Staging).
  { eexists. split.
    - unfold m2, markBuilding. apply getDeployment_written;
        [apply stored_size; exact H1 | reflexivity].
    - rewrite G1. cbn. exact E1. }
  destruct G2 as (r2 & G2 & E2).
  assert (G3 : getDeployment name m3
               = Some (merge (clock 4%nat)
                         (mkUpdate name None (Some Ready) (Some "https://test.example.com")
                                   None None (Some (Num 30000)) None None)
                         (Some r2))).
  { unfold m3, markReady. cbn [or_number truthy_opt_number truthy_number].
    rewrite <- G2. apply getDeployment_written;
      [apply stored_size; exact H2 | reflexivity]. }
  cbn [fst snd success EndToEnd.error details details_deployment].
  rewrite G3. cbn [merge status u_status or_else default Status_eqb].
  split; [reflexivity |]. split; [reflexivity |]. split; [exact H3 |].
  eexists. split; [reflexivity |]. split; [reflexivity |].
  split; [cbn; exact E2 |]. split; [reflexivity |]. split; [reflexivity |].
  split; [reflexivity |].
  unfold getBuildMetrics, getDeploymentsByEnvironment. cbn [successfulBuilds].
  rewrite sorted_filter_length.
  apply In_length_pos with
    (x := merge (clock 4%nat)
            (mkUpdate name None (Some Ready) (Some "https://test.example.com")
                      None None (Some (Num 30000)) None None)
            (Some r2)).
  apply filter_In. split; [| reflexivity].
  apply filter_In. split.
  - apply In_values_get with (id := name). exact G3.
  - cbn. rewrite E2. reflexivity.
Qed.

End SelfTestFacts.

Lemma testBuildMonitoring_leaves_record_witness :
  Spec.stored DeploymentMonitor.empty
  /\ EndToEnd.success
       (fst (EndToEnd.testBuildMonitoring (fun k => 1000 + Z.of_nat k)
                                          DeploymentMonitor.empty)) = true.
Proof.
  split; [exact stored_empty |].
  exact (proj1 (testBuildMonitoring_leaves_record (fun k => 1000 + Z.of_nat k)
                  DeploymentMonitor.empty stored_empty)).
Defined.

(** ** The webhook test route *)

Section TestRouteFacts.
Import JS WebhookConfig WebhookTools WebhookTestRoute.

Variable config : WebhookConfig.
Variable fetch : FetchRequest -> outcome FetchResponse.
Variable fetch_test : TestRequest -> outcome FetchResponse.

Lemma testWebhook_returns now payload :
  exists result, testWebhook config fetch_test now payload = Return result.
Proof.
  rewrite testWebhook_result.
  destruct (fetch_test _) as [response | e]; [| eexists; reflexivity].
  destruct (WebhookConfig.response_json response); [| eexists; reflexivity].
  destruct (ok response); eexists; reflexivity.
Qed.

Lemma known_environment_Some name env :
  known_environment name = Some env <->
  (name = "staging" /\ env = Staging) \/ (name = "production" /\ env = Production).
Proof.
  unfold known_environment.
  destruct (String.eqb_spec name "staging") as [-> | N1].
  - split; [intros [= <-]; left; split; reflexivity |].
    intros [[_ ->] | [H _]]; [reflexivity | discriminate H].
  - destruct (String.eqb_spec name "production") as [-> | N2].
    + split; [intros [= <-]; right; split; reflexivity |].
      intros [[H _] | [_ ->]]; [discriminate H | reflexivity].
    + split; [discriminate |]. intros [[H _] | [H _]]; contradiction.
Qed.

(** X28. For the actions [trigger-deploy] and [queue-deploy] the test route
    answers 400 exactly when the environment is not the string [staging] or
    [production] (compared exactly), and then sends nothing and starts no
    timer; otherwise it answers 200, also when the triggered deployment
    failed. *)
Theorem test_POST_environment_check request now s :
  action request = Some "trigger-deploy" \/ action request = Some "queue-deploy" ->
  let answer := POST config fetch fetch_test (Return request) now s in
  (response_status (fst answer) = 400 <-> ~ names_environment (environment request))
  /\ (response_status (fst answer) = 400 ->
      response_json (fst answer) = InvalidEnvironment
      /\ snd answer = mkEffects [] s)
  /\ (response_status (fst answer) <> 400 -> response_status (fst answer) = 200).
Proof.
  intros Hact. cbv zeta. unfold POST, names_environment.
  set (valid := match environment request with
                | Some name => if truthy_string name then known_environment name else None
                | None => None
                end).
  assert (V : match valid with
              | Some env => environment request = Some (Environment_string env)
              | None => environment request <> Some "staging"
                        /\ environment request <> Some "production"
              end).
  { unfold valid. destruct (environment request) as [name |]; [| split; discriminate].
    destruct (known_environment name) as [env |] eqn:K.
    - apply known_environment_Some in K. destruct K as [[-> ->] | [-> ->]]; reflexivity.
    - assert (N : name <> "staging" /\ name <> "production")
        by (split; intros ->; vm_compute in K; discriminate K).
      destruct (truthy_string name); split; intros [= H];
        [apply (proj1 N) | apply (proj2 N) | apply (proj1 N) | apply (proj2 N)]; exact H. }
  assert (Done : forall env,
            valid = Some env ->
            ~ (environment request <> Some "staging"
               /\ environment request <> Some "production")).
  { intros env E. rewrite E in V. intros [N1 N2]. destruct env; contradiction. }
  destruct Hact as [-> | ->]; cbn [String.eqb Ascii.eqb Bool.eqb andb].
  - destruct valid as [env |] eqn:E.
    + destruct (triggerDeploy_returns config fetch now env
                  (Some "Manual trigger from test endpoint")) as [r Hr].
      rewrite Hr. cbn [fst snd response_status response_json].
      split; [split; [discriminate | intros N; destruct (Done env eq_refl)] |].
      * split; [intros [= H] | intros [= H]]; apply N; [left | right]; exact H.
      * split; [discriminate | reflexivity].
    + cbn [fst snd response_status response_json].
      split; [split; [intros _ [H | H]; [apply (proj1 V) | apply (proj2 V)]; exact H
                     | reflexivity] |].
      split; [intros _; split; reflexivity | intros H; contradiction].
  - destruct valid as [env |] eqn:E.
    + cbn [fst snd response_status response_json].
      split; [split; [discriminate | intros N; destruct (Done env eq_refl)] |].
      * split; [intros [= H] | intros [= H]]; apply N; [left | right]; exact H.
      * split; [discriminate | reflexivity].
    + cbn [fst snd response_status response_json].
      split; [split; [intros _ [H | H]; [apply (proj1 V) | apply (proj2 V)]; exact H
                     | reflexivity] |].
      split; [intros _; split; reflexivity | intros H; contradiction].
Qed.

(** X29. Effects of the test route are confined: only [trigger-deploy]
    sends a request to a deploy hook (a single one, for the named
    environment), only [queue-deploy] touches the timers, and the answer
    is 500 only when the request body does not parse: a failing network
    never makes the route fail. *)
Theorem test_POST_confined body now s :
  let answer := POST config fetch fetch_test body now s in
  (sent (snd answer) <> [] ->
   exists request env,
     body = Return request
     /\ action request = Some "trigger-deploy"
     /\ environment request = Some (Environment_string env)
     /\ sent (snd answer)
        = [deploy_request config now env (Some "Manual trigger from test endpoint")])
  /\ (loop (snd answer) <> s ->
      exists request env,
        body = Return request
        /\ action request = Some "queue-deploy"
        /\ environment request = Some (Environment_string env)
        /\ loop (snd answer)
           = queueDeployment env "Manual queue from test endpoint" (Some 1000) s)
  /\ (response_status (fst answer) = 500 <-> exists e, body = Throw e).
Proof.
  cbv zeta. unfold POST.
  destruct body as [request | e]; cbn [fst snd sent loop response_status];
    [| split; [intros H; contradiction
              | split; [intros H; contradiction | split; [eexists; reflexivity | reflexivity]]]].
  set (valid := match environment request with
                | Some name => if truthy_string name then known_environment name else None
                | None => None
                end).
  assert (V : forall env, valid = Some env ->
                          environment request = Some (Environment_string env)).
  { unfold valid. intros env. destruct (environment request) as [name |]; [| discriminate].
    destruct (truthy_string name); [| discriminate]. intros K.
    apply known_environment_Some in K. destruct K as [[-> ->] | [-> ->]]; reflexivity. }
  assert (No : forall P : Prop, (exists e : thrown, @Return Body request = Throw e) -> P)
    by (intros P [e H]; discriminate H).
  destruct (action request) as [name |] eqn:Hact;
    [| cbn [fst snd sent loop response_status];
       split; [intros H; contradiction
              | split; [intros H; contradiction | split; [discriminate | apply No]]]].
  destruct (String.eqb_spec name "test-webhook") as [-> | _].
  { destruct (testWebhook_returns now
                (Some (generateTestPayload now (type_or_post (type request))))) as [r Hr].
    rewrite Hr. cbn [fst snd sent loop response_status].
    split; [intros H; contradiction
           | split; [intros H; contradiction | split; [discriminate | apply No]]]. }
  destruct (String.eqb_spec name "trigger-deploy") as [-> | _].
  { destruct valid as [env |] eqn:E.
    - destruct (triggerDeploy_returns config fetch now env
                  (Some "Manual trigger from test endpoint")) as [r Hr].
      rewrite Hr. cbn [fst snd sent loop response_status].
      split; [| split; [intros H; contradiction | split; [discriminate | apply No]]].
      intros Hsent. exists request, env.
      split; [reflexivity |]. split; [exact Hact |]. split; [apply V; reflexivity |].
      unfold triggerDeploy in *.
      destruct (negb (truthy_string (url (getDeployHook config env))));
        [contradiction | reflexivity].
    - cbn [fst snd sent loop response_status].
      split; [intros H; contradiction
             | split; [intros H; contradiction | split; [discriminate | apply No]]]. }
  destruct (String.eqb_spec name "queue-deploy") as [-> | _].
  { destruct valid as [env |] eqn:E; cbn [fst snd sent loop response_status].
    - split; [intros H; contradiction | split; [| split; [discriminate | apply No]]].
      intros _. exists request, env.
      split; [reflexivity |]. split; [exact Hact |]. split; [apply V |]; reflexivity.
    - split; [intros H; contradiction
             | split; [intros H; contradiction | split; [discriminate | apply No]]]. }
  destruct (String.eqb name "validate-config"); cbn [fst snd sent loop response_status];
    (split; [intros H; contradiction
            | split; [intros H; contradiction | split; [discriminate | apply No]]]).
Qed.

End TestRouteFacts.

Lemma test_POST_environment_check_witness :
  let request := WebhookTestRoute.mkBody (Some "queue-deploy") (Some "Production") None in
  let answer :=
    WebhookTestRoute.POST
      (WebhookConfig.WEBHOOK_CONFIG None None (Some "https://hooks.example/deploy") None)
      (fun _ => JS.Throw (JS.ErrorObj "TypeError" "fetch failed"))
      (fun _ => JS.Throw (JS.ErrorObj "TypeError" "fetch failed"))
      (JS.Return request) 0 (WebhookConfig.initial 0) in
  WebhookTestRoute.response_status (fst answer) = 400
  /\ snd answer = WebhookTestRoute.mkEffects [] (WebhookConfig.initial 0).
Proof.
  cbv zeta.
  pose proof (test_POST_environment_check
                (WebhookConfig.WEBHOOK_CONFIG None None
                   (Some "https://hooks.example/deploy") None)
                (fun _ => JS.Throw (JS.ErrorObj "TypeError" "fetch failed"))
                (fun _ => JS.Throw (JS.ErrorObj "TypeError" "fetch failed"))
                (WebhookTestRoute.mkBody (Some "queue-deploy") (Some "Production") None)
                0 (WebhookConfig.initial 0) (or_intror eq_refl)) as [H1 [H2 _]].
  assert (N : ~ names_environment (Some "Production"))
    by (intros [H | H]; discriminate H).
  split; [exact (proj2 H1 N) | exact (proj2 (H2 (proj2 H1 N)))].
Defined.



Lemma status_POST_environment_unused_witness :
  exists record,
    DeploymentMonitor.getDeployment "dpl_1"
      (snd (StatusRoute.POST
              (JS.Return (StatusRoute.mkBody (Some "building") (Some "dpl_1")
                            (Some DeploymentMonitor.Production) None None None None None))
              10 20 30 DeploymentMonitor.empty)) = Some record
    /\ DeploymentMonitor.environment record = DeploymentMonitor.Staging.
Proof.
  destruct (status_POST_environment_unused
              (StatusRoute.mkBody (Some "building") (Some "dpl_1")
                 (Some DeploymentMonitor.Production) None None None None None)
              "dpl_1" "building" 10 20 30 DeploymentMonitor.empty
              stored_empty eq_refl ltac:(discriminate) eq_refl eq_refl eq_refl
              (or_introl eq_refl))
    as (record & _ & G & E & _).
  exists record. split; [exact G | exact E].
Defined.
